(** * Project allocation report: month helpers, actual-hours lookup,
      allocation reconciliation and the selection lists

    A shallow embedding of [project_report_after_adding_varsvetadata.py].

    - Python [float] and pandas [float64] values are IEEE 754 binary64 numbers,
      taken from the Standard Library's [SpecFloat] at precision 53 and
      maximal exponent 1024.
    - Python [str] values are [string]s holding the UTF-8 encoding. [float],
      [repr] and [split] read code points, with the tables of Unicode
      14.0.0 (CPython 3.11); the month helpers compare with ASCII names,
      and [lower] changes ASCII letters only.
    - A [DataFrame] is a list of typed columns; the objects the program
      aliases and mutates live in an explicit heap.
    - [calendar.month_name] and [calendar.month_abbr] are those of the
      English (C) locale.
    - A Python [set] of strings is a [gset string]; the order in which the
      interpreter iterates over it is a parameter, [listing]. *)

From Stdlib Require Import ZArith NArith String Ascii List Bool Lia.
From Stdlib Require Import Sorting.Sorted.
From Stdlib Require Import Floats.SpecFloat.
From Stdlib Require Import DecimalString.
From stdpp Require Import base option list gmap strings.
From stdpp Require Import sorting.

Local Open Scope string_scope.
Local Open Scope Z_scope.

(** ** binary64 arithmetic *)

Module F64.

Definition prec : Z := 53.
Definition emax : Z := 1024.

Abbreviation float := spec_float.

Definition nan : float := S754_nan.
Definition zero : float := S754_zero false.

Definition add : float -> float -> float := SFadd prec emax.
Definition mul : float -> float -> float := SFmul prec emax.
Definition div : float -> float -> float := SFdiv prec emax.
Definition ltb : float -> float -> bool := SFltb.
Definition leb : float -> float -> bool := SFleb.

Definition is_nan (x : float) : bool :=
  match x with S754_nan => true | _ => false end.


(** The double nearest to the integer [z] (ties to even): the conversion
    of an [int64] cell, or of a Python [int], to a float. *)
Definition of_int (z : Z) : float := binary_normalize prec emax z 0 false.

(** The double nearest to [(-1)^s * n / d], for [0 <= n] and a positive
    [d], rounded once. *)
Definition ratio (s : bool) (n : Z) (d : positive) : float :=
  match n with
  | Zpos p => SFdiv prec emax (S754_finite s p 0) (S754_finite false d 0)
  | _ => S754_zero s
  end.

(** [m * 2^e * 100] rounded to an integer, halves to the even one. *)
Definition hundredths (m : positive) (e : Z) : Z :=
  if 0 <=? e then Zpos m * 2 ^ e * 100
  else
    let d := 2 ^ (- e) in
    let '(q, r) := Z.div_eucl (100 * Zpos m) d in
    match Z.compare (2 * r) d with
    | Lt => q
    | Gt => q + 1
    | Eq => if Z.even q then q else q + 1
    end.

(** Python's [round(x, 2)] on a float: the exact value of [x] is rounded
    to two decimals, halves to even, and the decimal result is read back
    as the nearest double; zeros, infinities and NaN are returned as they
    are. *)
Definition round2 (x : float) : float :=
  match x with
  | S754_finite s m e => ratio s (hundredths m e) 100
  | _ => x
  end.


End F64.

Abbreviation float := F64.float.

(** ** Python numbers *)

Inductive pynum :=
| PInt (z : Z)
| PFloat (f : float).

Definition to_float (a : pynum) : float :=
  match a with
  | PInt z => F64.of_int z
  | PFloat f => f
  end.

(** [a + b]: exact on two ints, binary64 as soon as one operand is a
    float. *)
Definition py_add (a b : pynum) : pynum :=
  match a, b with
  | PInt x, PInt y => PInt (x + y)
  | _, _ => PFloat (F64.add (to_float a) (to_float b))
  end.

(** The builtin [sum]: starts from the int [0] and adds from the left. *)
Definition py_sum (l : list pynum) : pynum := fold_left py_add l (PInt 0).

(** [a / e] for a float divisor [e]. Python raises ZeroDivisionError on a
    zero divisor; the program divides only under [expected_hours > 0]. *)
Definition py_truediv (a : pynum) (e : float) : float :=
  F64.div (to_float a) e.

Definition py_lt (a b : pynum) : bool := F64.ltb (to_float a) (to_float b).

(** The builtin [min(a, b)]: [b] when [b < a], else [a]. *)
Definition py_min (a b : pynum) : pynum := if py_lt b a then b else a.

(** ** Strings *)

Definition lower_ascii (c : ascii) : ascii :=
  let n := nat_of_ascii c in
  if ((65 <=? n) && (n <=? 90))%nat then ascii_of_nat (n + 32) else c.

(** [str.lower] *)
Fixpoint lower (s : string) : string :=
  match s with
  | EmptyString => EmptyString
  | String c s' => String (lower_ascii c) (lower s')
  end.

(** [a in b] on two strings: [a] occurs in [b]. *)
Fixpoint str_in (a b : string) : bool :=
  String.prefix a b ||
  match b with
  | EmptyString => false
  | String _ b' => str_in a b'
  end.

(** A dict literal as the list of its entries in source order; the last
    entry of a key is the one the dict keeps. *)
Definition dict_get {V : Type} (k : string) (d : list (string * V)) : option V :=
  fold_left (fun acc kv => if String.eqb (fst kv) k then Some (snd kv) else acc) d None.

(** [l.index(x)]: the first position of [x], [None] for ValueError. *)
Fixpoint list_index (x : string) (l : list string) : option nat :=
  match l with
  | [] => None
  | y :: l' => if String.eqb y x then Some O else S <$> list_index x l'
  end.

(** ** Unicode

    A str is held as its UTF-8 encoding. [float] and [repr] look at its
    code points: which are white space, which are decimal digits, which are
    printable. The tables are those of Unicode 14.0.0, the character
    database of CPython 3.11. *)

(** The code points of a UTF-8 string; [pending] continuation bytes are
    still to come for the code point begun in [acc]. *)
Fixpoint code_points_from (pending : nat) (acc : N) (s : string) : list N :=
  match s with
  | EmptyString => []
  | String c s' =>
      let b := N_of_ascii c in
      match pending with
      | O =>
          if (b <? 128)%N then b :: code_points_from 0 0 s'
          else if (b <? 224)%N then code_points_from 1 (b mod 32) s'
          else if (b <? 240)%N then code_points_from 2 (b mod 16) s'
          else code_points_from 3 (b mod 8) s'
      | S O => (64 * acc + b mod 64)%N :: code_points_from 0 0 s'
      | S k => code_points_from k (64 * acc + b mod 64)%N s'
      end
  end.

Definition code_points (s : string) : list N := code_points_from 0 0 s.

(** The UTF-8 encoding of a code point. *)
Definition encode_utf8 (ch : N) : string :=
  let byte (n : N) := ascii_of_N n in
  let tail (n : N) := byte (128 + n mod 64)%N in
  if (ch <? 128)%N then String (byte ch) ""
  else if (ch <? 2048)%N then String (byte (192 + ch / 64)%N) (String (tail ch) "")
  else if (ch <? 65536)%N then
    String (byte (224 + ch / 4096)%N) (String (tail (ch / 64)%N) (String (tail ch) ""))
  else
    String (byte (240 + ch / 262144)%N)
           (String (tail (ch / 4096)%N) (String (tail (ch / 64)%N) (String (tail ch) ""))).

Definition in_run (ch : N) (run : N * N) : bool :=
  ((fst run <=? ch) && (ch <=? snd run))%N.

(** [Py_UNICODE_ISSPACE], which is [str.isspace] on one character. *)
Definition unicode_isspace (ch : N) : bool :=
  existsb (in_run ch)
          [ (9, 13); (28, 32); (133, 133); (160, 160); (5760, 5760); (8192, 8202);
            (8232, 8233); (8239, 8239); (8287, 8287); (12288, 12288) ]%N.

(** The runs of decimal digits ([Nd]); in each run the digits 0 to 9 follow
    one another, once or several times. *)
Definition DECIMAL_DIGITS : list (N * N) :=
  [ (48, 57); (1632, 1641); (1776, 1785); (1984, 1993); (2406, 2415); (2534, 2543);
    (2662, 2671); (2790, 2799); (2918, 2927); (3046, 3055); (3174, 3183); (3302, 3311);
    (3430, 3439); (3558, 3567); (3664, 3673); (3792, 3801); (3872, 3881); (4160, 4169);
    (4240, 4249); (6112, 6121); (6160, 6169); (6470, 6479); (6608, 6617); (6784, 6793);
    (6800, 6809); (6992, 7001); (7088, 7097); (7232, 7241); (7248, 7257);
    (42528, 42537); (43216, 43225); (43264, 43273); (43472, 43481); (43504, 43513);
    (43600, 43609); (44016, 44025); (65296, 65305); (66720, 66729); (68912, 68921);
    (69734, 69743); (69872, 69881); (69942, 69951); (70096, 70105); (70384, 70393);
    (70736, 70745); (70864, 70873); (71248, 71257); (71360, 71369); (71472, 71481);
    (71904, 71913); (72016, 72025); (72784, 72793); (73040, 73049); (73120, 73129);
    (92768, 92777); (92864, 92873); (93008, 93017); (120782, 120831); (123200, 123209);
    (123632, 123641); (125264, 125273); (130032, 130041) ]%N.

(** [Py_UNICODE_TODECIMAL]: the digit a decimal digit stands for. *)
Definition unicode_todecimal (ch : N) : option N :=
  (fun run => ((ch - fst run) mod 10)%N) <$> List.find (in_run ch) DECIMAL_DIGITS.

(** The code points [str.isprintable] rejects: controls, formats,
    surrogates, private use, unassigned, and separators other than the
    space. *)
Definition NOT_PRINTABLE : list (N * N) :=
  [ (0, 31); (127, 160); (173, 173); (888, 889); (896, 899); (907, 907); (909, 909);
    (930, 930); (1328, 1328); (1367, 1368); (1419, 1420); (1424, 1424); (1480, 1487);
    (1515, 1518); (1525, 1541); (1564, 1564); (1757, 1757); (1806, 1807); (1867, 1868);
    (1970, 1983); (2043, 2044); (2094, 2095); (2111, 2111); (2140, 2141); (2143, 2143);
    (2155, 2159); (2191, 2199); (2274, 2274); (2436, 2436); (2445, 2446); (2449, 2450);
    (2473, 2473); (2481, 2481); (2483, 2485); (2490, 2491); (2501, 2502); (2505, 2506);
    (2511, 2518); (2520, 2523); (2526, 2526); (2532, 2533); (2559, 2560); (2564, 2564);
    (2571, 2574); (2577, 2578); (2601, 2601); (2609, 2609); (2612, 2612); (2615, 2615);
    (2618, 2619); (2621, 2621); (2627, 2630); (2633, 2634); (2638, 2640); (2642, 2648);
    (2653, 2653); (2655, 2661); (2679, 2688); (2692, 2692); (2702, 2702); (2706, 2706);
    (2729, 2729); (2737, 2737); (2740, 2740); (2746, 2747); (2758, 2758); (2762, 2762);
    (2766, 2767); (2769, 2783); (2788, 2789); (2802, 2808); (2816, 2816); (2820, 2820);
    (2829, 2830); (2833, 2834); (2857, 2857); (2865, 2865); (2868, 2868); (2874, 2875);
    (2885, 2886); (2889, 2890); (2894, 2900); (2904, 2907); (2910, 2910); (2916, 2917);
    (2936, 2945); (2948, 2948); (2955, 2957); (2961, 2961); (2966, 2968); (2971, 2971);
    (2973, 2973); (2976, 2978); (2981, 2983); (2987, 2989); (3002, 3005); (3011, 3013);
    (3017, 3017); (3022, 3023); (3025, 3030); (3032, 3045); (3067, 3071); (3085, 3085);
    (3089, 3089); (3113, 3113); (3130, 3131); (3141, 3141); (3145, 3145); (3150, 3156);
    (3159, 3159); (3163, 3164); (3166, 3167); (3172, 3173); (3184, 3190); (3213, 3213);
    (3217, 3217); (3241, 3241); (3252, 3252); (3258, 3259); (3269, 3269); (3273, 3273);
    (3278, 3284); (3287, 3292); (3295, 3295); (3300, 3301); (3312, 3312); (3315, 3327);
    (3341, 3341); (3345, 3345); (3397, 3397); (3401, 3401); (3408, 3411); (3428, 3429);
    (3456, 3456); (3460, 3460); (3479, 3481); (3506, 3506); (3516, 3516); (3518, 3519);
    (3527, 3529); (3531, 3534); (3541, 3541); (3543, 3543); (3552, 3557); (3568, 3569);
    (3573, 3584); (3643, 3646); (3676, 3712); (3715, 3715); (3717, 3717); (3723, 3723);
    (3748, 3748); (3750, 3750); (3774, 3775); (3781, 3781); (3783, 3783); (3790, 3791);
    (3802, 3803); (3808, 3839); (3912, 3912); (3949, 3952); (3992, 3992); (4029, 4029);
    (4045, 4045); (4059, 4095); (4294, 4294); (4296, 4300); (4302, 4303); (4681, 4681);
    (4686, 4687); (4695, 4695); (4697, 4697); (4702, 4703); (4745, 4745); (4750, 4751);
    (4785, 4785); (4790, 4791); (4799, 4799); (4801, 4801); (4806, 4807); (4823, 4823);
    (4881, 4881); (4886, 4887); (4955, 4956); (4989, 4991); (5018, 5023); (5110, 5111);
    (5118, 5119); (5760, 5760); (5789, 5791); (5881, 5887); (5910, 5918); (5943, 5951);
    (5972, 5983); (5997, 5997); (6001, 6001); (6004, 6015); (6110, 6111); (6122, 6127);
    (6138, 6143); (6158, 6158); (6170, 6175); (6265, 6271); (6315, 6319); (6390, 6399);
    (6431, 6431); (6444, 6447); (6460, 6463); (6465, 6467); (6510, 6511); (6517, 6527);
    (6572, 6575); (6602, 6607); (6619, 6621); (6684, 6685); (6751, 6751); (6781, 6782);
    (6794, 6799); (6810, 6815); (6830, 6831); (6863, 6911); (6989, 6991); (7039, 7039);
    (7156, 7163); (7224, 7226); (7242, 7244); (7305, 7311); (7355, 7356); (7368, 7375);
    (7419, 7423); (7958, 7959); (7966, 7967); (8006, 8007); (8014, 8015); (8024, 8024);
    (8026, 8026); (8028, 8028); (8030, 8030); (8062, 8063); (8117, 8117); (8133, 8133);
    (8148, 8149); (8156, 8156); (8176, 8177); (8181, 8181); (8191, 8207); (8232, 8239);
    (8287, 8303); (8306, 8307); (8335, 8335); (8349, 8351); (8385, 8399); (8433, 8447);
    (8588, 8591); (9255, 9279); (9291, 9311); (11124, 11125); (11158, 11158);
    (11508, 11512); (11558, 11558); (11560, 11564); (11566, 11567); (11624, 11630);
    (11633, 11646); (11671, 11679); (11687, 11687); (11695, 11695); (11703, 11703);
    (11711, 11711); (11719, 11719); (11727, 11727); (11735, 11735); (11743, 11743);
    (11870, 11903); (11930, 11930); (12020, 12031); (12246, 12271); (12284, 12288);
    (12352, 12352); (12439, 12440); (12544, 12548); (12592, 12592); (12687, 12687);
    (12772, 12783); (12831, 12831); (42125, 42127); (42183, 42191); (42540, 42559);
    (42744, 42751); (42955, 42959); (42962, 42962); (42964, 42964); (42970, 42993);
    (43053, 43055); (43066, 43071); (43128, 43135); (43206, 43213); (43226, 43231);
    (43348, 43358); (43389, 43391); (43470, 43470); (43482, 43485); (43519, 43519);
    (43575, 43583); (43598, 43599); (43610, 43611); (43715, 43738); (43767, 43776);
    (43783, 43784); (43791, 43792); (43799, 43807); (43815, 43815); (43823, 43823);
    (43884, 43887); (44014, 44015); (44026, 44031); (55204, 55215); (55239, 55242);
    (55292, 63743); (64110, 64111); (64218, 64255); (64263, 64274); (64280, 64284);
    (64311, 64311); (64317, 64317); (64319, 64319); (64322, 64322); (64325, 64325);
    (64451, 64466); (64912, 64913); (64968, 64974); (64976, 65007); (65050, 65055);
    (65107, 65107); (65127, 65127); (65132, 65135); (65141, 65141); (65277, 65280);
    (65471, 65473); (65480, 65481); (65488, 65489); (65496, 65497); (65501, 65503);
    (65511, 65511); (65519, 65531); (65534, 65535); (65548, 65548); (65575, 65575);
    (65595, 65595); (65598, 65598); (65614, 65615); (65630, 65663); (65787, 65791);
    (65795, 65798); (65844, 65846); (65935, 65935); (65949, 65951); (65953, 65999);
    (66046, 66175); (66205, 66207); (66257, 66271); (66300, 66303); (66340, 66348);
    (66379, 66383); (66427, 66431); (66462, 66462); (66500, 66503); (66518, 66559);
    (66718, 66719); (66730, 66735); (66772, 66775); (66812, 66815); (66856, 66863);
    (66916, 66926); (66939, 66939); (66955, 66955); (66963, 66963); (66966, 66966);
    (66978, 66978); (66994, 66994); (67002, 67002); (67005, 67071); (67383, 67391);
    (67414, 67423); (67432, 67455); (67462, 67462); (67505, 67505); (67515, 67583);
    (67590, 67591); (67593, 67593); (67638, 67638); (67641, 67643); (67645, 67646);
    (67670, 67670); (67743, 67750); (67760, 67807); (67827, 67827); (67830, 67834);
    (67868, 67870); (67898, 67902); (67904, 67967); (68024, 68027); (68048, 68049);
    (68100, 68100); (68103, 68107); (68116, 68116); (68120, 68120); (68150, 68151);
    (68155, 68158); (68169, 68175); (68185, 68191); (68256, 68287); (68327, 68330);
    (68343, 68351); (68406, 68408); (68438, 68439); (68467, 68471); (68498, 68504);
    (68509, 68520); (68528, 68607); (68681, 68735); (68787, 68799); (68851, 68857);
    (68904, 68911); (68922, 69215); (69247, 69247); (69290, 69290); (69294, 69295);
    (69298, 69375); (69416, 69423); (69466, 69487); (69514, 69551); (69580, 69599);
    (69623, 69631); (69710, 69713); (69750, 69758); (69821, 69821); (69827, 69839);
    (69865, 69871); (69882, 69887); (69941, 69941); (69960, 69967); (70007, 70015);
    (70112, 70112); (70133, 70143); (70162, 70162); (70207, 70271); (70279, 70279);
    (70281, 70281); (70286, 70286); (70302, 70302); (70314, 70319); (70379, 70383);
    (70394, 70399); (70404, 70404); (70413, 70414); (70417, 70418); (70441, 70441);
    (70449, 70449); (70452, 70452); (70458, 70458); (70469, 70470); (70473, 70474);
    (70478, 70479); (70481, 70486); (70488, 70492); (70500, 70501); (70509, 70511);
    (70517, 70655); (70748, 70748); (70754, 70783); (70856, 70863); (70874, 71039);
    (71094, 71095); (71134, 71167); (71237, 71247); (71258, 71263); (71277, 71295);
    (71354, 71359); (71370, 71423); (71451, 71452); (71468, 71471); (71495, 71679);
    (71740, 71839); (71923, 71934); (71943, 71944); (71946, 71947); (71956, 71956);
    (71959, 71959); (71990, 71990); (71993, 71994); (72007, 72015); (72026, 72095);
    (72104, 72105); (72152, 72153); (72165, 72191); (72264, 72271); (72355, 72367);
    (72441, 72703); (72713, 72713); (72759, 72759); (72774, 72783); (72813, 72815);
    (72848, 72849); (72872, 72872); (72887, 72959); (72967, 72967); (72970, 72970);
    (73015, 73017); (73019, 73019); (73022, 73022); (73032, 73039); (73050, 73055);
    (73062, 73062); (73065, 73065); (73103, 73103); (73106, 73106); (73113, 73119);
    (73130, 73439); (73465, 73647); (73649, 73663); (73714, 73726); (74650, 74751);
    (74863, 74863); (74869, 74879); (75076, 77711); (77811, 77823); (78895, 82943);
    (83527, 92159); (92729, 92735); (92767, 92767); (92778, 92781); (92863, 92863);
    (92874, 92879); (92910, 92911); (92918, 92927); (92998, 93007); (93018, 93018);
    (93026, 93026); (93048, 93052); (93072, 93759); (93851, 93951); (94027, 94030);
    (94088, 94094); (94112, 94175); (94181, 94191); (94194, 94207); (100344, 100351);
    (101590, 101631); (101641, 110575); (110580, 110580); (110588, 110588);
    (110591, 110591); (110883, 110927); (110931, 110947); (110952, 110959);
    (111356, 113663); (113771, 113775); (113789, 113791); (113801, 113807);
    (113818, 113819); (113824, 118527); (118574, 118575); (118599, 118607);
    (118724, 118783); (119030, 119039); (119079, 119080); (119155, 119162);
    (119275, 119295); (119366, 119519); (119540, 119551); (119639, 119647);
    (119673, 119807); (119893, 119893); (119965, 119965); (119968, 119969);
    (119971, 119972); (119975, 119976); (119981, 119981); (119994, 119994);
    (119996, 119996); (120004, 120004); (120070, 120070); (120075, 120076);
    (120085, 120085); (120093, 120093); (120122, 120122); (120127, 120127);
    (120133, 120133); (120135, 120137); (120145, 120145); (120486, 120487);
    (120780, 120781); (121484, 121498); (121504, 121504); (121520, 122623);
    (122655, 122879); (122887, 122887); (122905, 122906); (122914, 122914);
    (122917, 122917); (122923, 123135); (123181, 123183); (123198, 123199);
    (123210, 123213); (123216, 123535); (123567, 123583); (123642, 123646);
    (123648, 124895); (124903, 124903); (124908, 124908); (124911, 124911);
    (124927, 124927); (125125, 125126); (125143, 125183); (125260, 125263);
    (125274, 125277); (125280, 126064); (126133, 126208); (126270, 126463);
    (126468, 126468); (126496, 126496); (126499, 126499); (126501, 126502);
    (126504, 126504); (126515, 126515); (126520, 126520); (126522, 126522);
    (126524, 126529); (126531, 126534); (126536, 126536); (126538, 126538);
    (126540, 126540); (126544, 126544); (126547, 126547); (126549, 126550);
    (126552, 126552); (126554, 126554); (126556, 126556); (126558, 126558);
    (126560, 126560); (126563, 126563); (126565, 126566); (126571, 126571);
    (126579, 126579); (126584, 126584); (126589, 126589); (126591, 126591);
    (126602, 126602); (126620, 126624); (126628, 126628); (126634, 126634);
    (126652, 126703); (126706, 126975); (127020, 127023); (127124, 127135);
    (127151, 127152); (127168, 127168); (127184, 127184); (127222, 127231);
    (127406, 127461); (127491, 127503); (127548, 127551); (127561, 127567);
    (127570, 127583); (127590, 127743); (128728, 128732); (128749, 128751);
    (128765, 128767); (128884, 128895); (128985, 128991); (129004, 129007);
    (129009, 129023); (129036, 129039); (129096, 129103); (129114, 129119);
    (129160, 129167); (129198, 129199); (129202, 129279); (129620, 129631);
    (129646, 129647); (129653, 129655); (129661, 129663); (129671, 129679);
    (129709, 129711); (129723, 129727); (129734, 129743); (129754, 129759);
    (129768, 129775); (129783, 129791); (129939, 129939); (129995, 130031);
    (130042, 131071); (173792, 173823); (177977, 177983); (178206, 178207);
    (183970, 183983); (191457, 194559); (195102, 196607); (201547, 917759);
    (918000, 1114111) ]%N.

(** [Py_UNICODE_ISPRINTABLE] *)
Definition unicode_isprintable (ch : N) : bool := negb (existsb (in_run ch) NOT_PRINTABLE).

(** [n] in [digits] lower-case hexadecimal digits. *)
Fixpoint hex (digits : nat) (n : N) : string :=
  match digits with
  | O => ""
  | S k =>
      hex k (n / 16)%N
      ++ String (nth (N.to_nat (n mod 16)%N) (list_ascii_of_string "0123456789abcdef") "0"%char) ""
  end.

(** A backslash and what follows it. *)
Definition escape (body : string) : string := String (ascii_of_N 92) body.

(** One character of [repr(s)] between the quotes [quote]. *)
Definition repr_char (quote ch : N) : string :=
  if ((ch =? quote) || (ch =? 92))%N then escape (String (ascii_of_N ch) "")
  else if (ch =? 9)%N then escape "t"
  else if (ch =? 10)%N then escape "n"
  else if (ch =? 13)%N then escape "r"
  else if ((ch <? 32) || (ch =? 127))%N then escape ("x" ++ hex 2 ch)
  else if (ch <? 127)%N then String (ascii_of_N ch) ""
  else if unicode_isprintable ch then encode_utf8 ch
  else if (ch <? 256)%N then escape ("x" ++ hex 2 ch)
  else if (ch <? 65536)%N then escape ("u" ++ hex 4 ch)
  else escape ("U" ++ hex 8 ch).

(** [repr(s)] of a str: in single quotes, or in double quotes when [s] has
    a single quote and no double quote. *)
Definition repr (s : string) : string :=
  let chars := code_points s in
  let quote :=
    if existsb (N.eqb 39) chars && negb (existsb (N.eqb 34) chars) then 34%N else 39%N in
  String (ascii_of_N quote)
         (String.concat "" (repr_char quote <$> chars) ++ String (ascii_of_N quote) "").

(** ** Month helpers *)

Definition MONTH_MAPPING : list (string * string) :=
  [ ("Jan", "January"); ("Feb", "February"); ("Mar", "March");
    ("Apr", "April"); ("May", "May"); ("Jun", "June"); ("Jul", "July");
    ("Aug", "August"); ("Sep", "September"); ("Oct", "October");
    ("Nov", "November"); ("Dec", "December") ].

(** [calendar.month_name]: position 0 holds the empty string. *)
Definition calendar_month_name : list string :=
  [ ""; "January"; "February"; "March"; "April"; "May"; "June"; "July";
    "August"; "September"; "October"; "November"; "December" ].

(** [calendar.month_abbr] *)
Definition calendar_month_abbr : list string :=
  [ ""; "Jan"; "Feb"; "Mar"; "Apr"; "May"; "Jun"; "Jul"; "Aug"; "Sep";
    "Oct"; "Nov"; "Dec" ].

Definition standardize_month_name (month : string) : string :=
  match dict_get month MONTH_MAPPING with
  | Some full => full
  | None => month
  end.

(** [enumerate(l)] from position [i]. *)
Fixpoint enumerate_from {A : Type} (i : nat) (l : list A) : list (nat * A) :=
  match l with
  | [] => []
  | x :: l' => (i, x) :: enumerate_from (S i) l'
  end.

(** The test of the flexible match, lines 72-73. *)
Definition flexible_match (standard_month : string) (entry : nat * string) : bool :=
  (0 <? fst entry)%nat &&
  (str_in (lower standard_month) (lower (snd entry)) ||
   str_in (lower (snd entry)) (lower standard_month)).

Definition get_month_number (month : string) : nat :=
  let standard_month := standardize_month_name month in
  match list_index standard_month calendar_month_name with
  | Some i => i
  | None =>
      match List.find (flexible_match standard_month) (enumerate_from 0 calendar_month_name) with
      | Some entry => fst entry
      | None => 1%nat
      end
  end.

(** ** Text to float

    [float(s)] on a str, as CPython's [PyFloat_FromString] does it. A str
    that is not all ASCII is first brought to ASCII: every Unicode white
    space becomes a space, every Unicode decimal digit its ASCII digit, and
    the text is cut after the first other character above 126, which
    becomes a question mark. Then underscores are checked and removed,
    ASCII white space is stripped at both ends, and what is left must be a
    decimal literal, [inf], [infinity] or [nan] (any case) with an optional
    sign. [None] stands for ValueError. *)

Definition is_digit (c : ascii) : bool :=
  let n := nat_of_ascii c in ((48 <=? n) && (n <=? 57))%nat.

Definition is_space (c : ascii) : bool :=
  let n := nat_of_ascii c in (((9 <=? n) && (n <=? 13)) || (n =? 32))%nat.

Definition digit_val (c : ascii) : Z := Z.of_nat (nat_of_ascii c) - 48.

(** Underscores are allowed only between two digits. *)
Fixpoint strip_underscores (prev : ascii) (l : list ascii) : option (list ascii) :=
  match l with
  | [] => if Ascii.eqb prev "_" then None else Some []
  | c :: l' =>
      if Ascii.eqb c "_" then
        if is_digit prev then strip_underscores c l' else None
      else if Ascii.eqb prev "_" && negb (is_digit c) then None
      else cons c <$> strip_underscores c l'
  end.

Fixpoint lstrip (l : list ascii) : list ascii :=
  match l with
  | c :: l' => if is_space c then lstrip l' else l
  | [] => []
  end.

Definition strip (l : list ascii) : list ascii := rev (lstrip (rev (lstrip l))).

(** The leading digits of [l]: their value after [acc], their number, and
    the rest of [l]. *)
Fixpoint span_digits (l : list ascii) (acc : Z) (n : nat) : Z * nat * list ascii :=
  match l with
  | c :: l' => if is_digit c then span_digits l' (10 * acc + digit_val c) (S n) else (acc, n, l)
  | [] => (acc, n, [])
  end.

Definition take_sign (l : list ascii) : bool * list ascii :=
  match l with
  | "-"%char :: l' => (true, l')
  | "+"%char :: l' => (false, l')
  | _ => (false, l)
  end.

(** The double nearest to [(-1)^s * d * 10^e]. *)
Definition decimal_to_float (s : bool) (d e : Z) : float :=
  if 0 <=? e then F64.ratio s (d * 10 ^ e) 1
  else F64.ratio s d (Z.to_pos (10 ^ (- e))).

Definition parse_exponent (l : list ascii) : option Z :=
  match l with
  | [] => Some 0
  | c :: l' =>
      if Ascii.eqb (lower_ascii c) "e" then
        let '(neg, l'') := take_sign l' in
        match span_digits l'' 0 0 with
        | (v, S _, []) => Some (if neg then - v else v)
        | _ => None
        end
      else None
  end.

Definition parse_decimal (s : bool) (l : list ascii) : option float :=
  let '(ip, ni, rest) := span_digits l 0 0 in
  let '(d, n, rest') :=
    match rest with
    | "."%char :: r => span_digits r ip ni
    | _ => (ip, ni, rest)
    end in
  let nf := (n - ni)%nat in
  match n with
  | O => None
  | S _ => (fun e => decimal_to_float s d (e - Z.of_nat nf)) <$> parse_exponent rest'
  end.

Definition parse_number (l : list ascii) : option float :=
  let '(s, body) := take_sign l in
  let word := string_of_list_ascii (map lower_ascii body) in
  if String.eqb word "inf" || String.eqb word "infinity" then Some (S754_infinity s)
  else if String.eqb word "nan" then Some F64.nan
  else parse_decimal s body.

(** [_PyUnicode_TransformDecimalAndSpaceToASCII] on a str that is not all
    ASCII. *)
Fixpoint transform_decimal_and_space (chars : list N) : list ascii :=
  match chars with
  | [] => []
  | ch :: chars' =>
      if (ch <? 127)%N then ascii_of_N ch :: transform_decimal_and_space chars'
      else if unicode_isspace ch then " "%char :: transform_decimal_and_space chars'
      else
        match unicode_todecimal ch with
        | Some d => ascii_of_N (48 + d) :: transform_decimal_and_space chars'
        | None => ["?"%char]
        end
  end.

Definition to_ascii (s : string) : list ascii :=
  let chars := code_points s in
  if forallb (fun ch => (ch <? 128)%N) chars then list_ascii_of_string s
  else transform_decimal_and_space chars.

Definition float_of_str (s : string) : option float :=
  match strip_underscores "000"%char (to_ascii s) with
  | Some l => parse_number (strip l)
  | None => None
  end.

(** ** Data frames

    A frame as [pd.read_csv] builds it from an allocation sheet. The
    ['Name'] column, when the sheet has one, is of object dtype: text, or
    [None] for a missing entry (NaN). The other columns are kept in header
    order, each with its dtype; in a float column NaN is a missing entry.
    Labels are distinct in what [read_csv] returns, and every column has
    [nrows] entries. *)

Inductive column :=
| ColInt (xs : list Z)
| ColFloat (xs : list float)
| ColBool (xs : list bool)
| ColObj (xs : list (option string)).

Record DataFrame := {
  name_column : option (list (option string));
  nrows : nat;
  columns : list (string * column)
}.

Definition labels (d : DataFrame) : list string := fst <$> columns d.

(** [col in df.columns] *)
Definition has_column (col : string) (d : DataFrame) : bool :=
  (String.eqb col "Name" && bool_decide (is_Some (name_column d))) ||
  existsb (String.eqb col) (labels d).

(** [[col for col in df.columns if col != 'Name']] *)
Definition non_name_columns (d : DataFrame) : list string :=
  List.filter (fun col => negb (String.eqb col "Name")) (labels d).

(** [df[col]] *)
Definition get_column (col : string) (d : DataFrame) : option column :=
  snd <$> List.find (fun c => String.eqb (fst c) col) (columns d).

(** The frame after [df[col] = c]. *)
Definition set_column (col : string) (c : column) (d : DataFrame) : DataFrame :=
  {| name_column := name_column d;
     nrows := nrows d;
     columns := (fun lc => if String.eqb (fst lc) col then (fst lc, c) else lc) <$> columns d |}.

(** The frame [df.drop(columns=[col])] returns. *)
Definition drop_column (col : string) (d : DataFrame) : DataFrame :=
  {| name_column := name_column d;
     nrows := nrows d;
     columns := List.filter (fun lc => negb (String.eqb (fst lc) col)) (columns d) |}.

Definition float_of_bool (b : bool) : float := F64.of_int (if b then 1 else 0).

(** [column.astype(float)]; [None] is the ValueError of a text entry that
    [float] rejects. *)
Definition astype_float (c : column) : option (list float) :=
  match c with
  | ColInt xs => Some (F64.of_int <$> xs)
  | ColFloat xs => Some xs
  | ColBool xs => Some (float_of_bool <$> xs)
  | ColObj xs =>
      mapM (fun entry => match entry with
                         | Some s => float_of_str s
                         | None => Some F64.nan
                         end) xs
  end.

(** The entry [astype(float)] stops at: the first text that [float]
    rejects. *)
Definition first_rejected (c : column) : option string :=
  match c with
  | ColObj xs =>
      List.find (fun t => match float_of_str t with Some _ => false | None => true end)
                (omap id xs)
  | _ => None
  end.

(** The message of the ValueError [float(t)] raises. *)
Definition not_a_float (t : string) : string :=
  "could not convert string to float: " ++ repr t.

(** ** Objects, exceptions and effects *)

Inductive exn :=
| KeyError (key : string)
| ValueError (what : string)
| TypeError (what : string)
| CollaboratorError (msg : string)
| Dangling.

(** The exception of [astype(float)] on a column it cannot convert: the
    ValueError of [float] on the first text it rejects. *)
Definition astype_error (c : column) : exn :=
  ValueError (not_a_float (default "" (first_rejected c))).

Inductive outcome (A : Type) :=
| Return (a : A)
| Raise (e : exn).
Arguments Return {A} a.
Arguments Raise {A} e.

(** The frames alive in the interpreter, addressed by position, and the
    warnings shown so far with [st.warning]. A reference the program holds
    always points into the heap; [Dangling] is the model's answer to one
    that does not. *)
Record state := {
  heap : list DataFrame;
  warnings : list string
}.

Abbreviation ref := nat.

Definition M (A : Type) : Type := state -> outcome A * state.

#[global] Instance M_ret : MRet M := fun A a s => (Return a, s).
#[global] Instance M_bind : MBind M := fun A B f m s =>
  match m s with
  | (Return a, s') => f a s'
  | (Raise e, s') => (Raise e, s')
  end.

Definition raise {A : Type} (e : exn) : M A := fun s => (Raise e, s).

(** [try: body except Exception as e: handler(e)] *)
Definition try_except {A : Type} (body : M A) (handler : exn -> M A) : M A :=
  fun s =>
    match body s with
    | (Return a, s') => (Return a, s')
    | (Raise e, s') => handler e s'
    end.

Definition deref (r : ref) : M DataFrame := fun s =>
  match heap s !! r with
  | Some d => (Return d, s)
  | None => (Raise Dangling, s)
  end.

Definition alloc (d : DataFrame) : M ref := fun s =>
  (Return (length (heap s)), {| heap := heap s ++ [d]; warnings := warnings s |}).

Definition store (r : ref) (d : DataFrame) : M unit := fun s =>
  (Return tt, {| heap := <[r := d]> (heap s); warnings := warnings s |}).

Definition st_warning (msg : string) : M unit := fun s =>
  (Return tt, {| heap := heap s; warnings := warnings s ++ [msg] |}).

(** [for x in l: body x] *)
Fixpoint for_each {A : Type} (l : list A) (body : A -> M unit) : M unit :=
  match l with
  | [] => mret tt
  | x :: l' => _ ← body x; for_each l' body
  end.

(** ** The collaborators

    The warehouse helpers [bq.get_users] and [bq.jira_tickets] come from
    the [helper] package; a run is given their replies. Of the frame
    [bq.jira_tickets] returns, the run looks at [empty], at the presence of
    a [time_spent] column, and then hands it to the pandas pipeline of
    lines 91-103 (seconds to hours, group, sum, round, zip); the reply
    carries what that pipeline returns for it: an exception or the
    dictionary. [st.cache_data] keeps for an hour what a call returned for
    its arguments; a warehouse here replies the same to the same call, so
    that the value kept is the value a new call would return, and the
    cache is left out. *)

Inductive users_reply :=
| UsersRaise (e : exn)
| UsersFrame (empty : bool) (name : option (list string)).

Inductive tickets_reply :=
| TicketsRaise (e : exn)
| TicketsFrame (empty : bool) (has_time_spent : bool)
               (grouped : outcome (gmap (string * string) float)).

Record collaborators := {
  get_users : users_reply;
  jira_tickets : string -> tickets_reply
}.

Definition exn_str (e : exn) : string :=
  match e with
  | KeyError k => "'" ++ k ++ "'"
  | ValueError w => w
  | TypeError w => w
  | CollaboratorError m => m
  | Dangling => ""
  end.

Section Run.

Context (bq : collaborators).

Definition fetch_all_actual_hours (month year : string)
  : M (gmap (string * string) float) :=
  try_except
    (let month_abbr := nth (get_month_number month) calendar_month_abbr "" in
     let month_str := month_abbr ++ " " ++ year in
     match jira_tickets bq month_str with
     | TicketsRaise e => raise e
     | TicketsFrame empty has_time_spent grouped =>
         if negb empty && has_time_spent then
           match grouped with
           | Return d => mret d
           | Raise e => raise e
           end
         else mret ∅
     end)
    (fun e =>
       _ ← st_warning ("Error fetching actual hours: " ++ exn_str e);
       mret ∅).

Definition fetch_valid_users : M (gset string) :=
  match get_users bq with
  | UsersRaise e => raise e
  | UsersFrame empty name =>
      if negb empty then
        match name with
        | Some names => mret (list_to_set names)
        | None => raise (KeyError "name")
        end
      else mret ∅
  end.

End Run.

(** ** The reconciler *)

#[global] Instance outcome_ret : MRet outcome := fun A a => Return a.
#[global] Instance outcome_bind : MBind outcome := fun A B f o =>
  match o with
  | Return a => f a
  | Raise e => Raise e
  end.
#[global] Instance outcome_fmap : FMap outcome := fun A B f o =>
  match o with
  | Return a => Return (f a)
  | Raise e => Raise e
  end.

Definition lift {A : Type} (o : outcome A) : M A := fun s => (o, s).

(** A value of [PROJECT_NAME_MAPPING]: one canonical name, or the list of
    the names a combined column stands for. *)
Inductive mapped :=
| One (project : string)
| Many (projects : list string).

Definition PROJECT_NAME_MAPPING : list (string * mapped) :=
  [ ("SDI", One "SDI");
    ("Vars/Vita.", Many ["VARS"; "Vitawerks"]);
    ("Kinergy", One "Kinergy");
    ("Nabis - Retainer", One "Nabis");
    ("Nabis - 3C", One "Nabis:Data Warehouse");
    ("STT - Daily Shuttle", One "STT");
    ("Lithium", One "Lithium");
    ("Phoenix", One "Phoenix");
    ("ForceMultipler", One "ForceMultiplier");
    ("QualApps", One "QualApps");
    ("Alma", One "Alma");
    ("Super Eng.", One "SuperEngineer");
    ("Super Eng.", One "Alpha");
    ("Digital Twin", One "Digital Twin");
    ("Project Alc.", One "Project Allocation");
    ("VISO Training", One "Project Viso");
    ("Rhythm", One "Rhythmm");
    ("Text Vegas", One "Text Vegas") ].

Definition IGNORED_COLUMNS : list string :=
  [ "Dept"; "Level"; "Internal Alc."; "Avail. Bandwidth"; "Project Alc." ].

(** A dict appended to [processed_data], that is a row of the result. *)
Record record := {
  Name : option string;
  Project : string;
  Expected_Hours : float;
  Actual_Hours : pynum;
  Completion : pynum
}.

(** [actual_hours_lookup.get((employee_name, p), 0)]; the keys are pairs of
    strings, so a missing name (NaN) finds nothing. *)
Definition lookup_get (lookup : gmap (string * string) float)
    (employee_name : option string) (p : string) : pynum :=
  match employee_name with
  | Some n =>
      match lookup !! (n, p) with
      | Some hours => PFloat hours
      | None => PInt 0
      end
  | None => PInt 0
  end.

(** What [for p in v] runs through: the list, or the characters of a
    string. *)
Definition members (v : mapped) : list string :=
  match v with
  | Many ps => ps
  | One s => (fun c => String c EmptyString) <$> list_ascii_of_string s
  end.

(** Lines 151-165: the standardized project and the actual hours. *)
Definition standardize (lookup : gmap (string * string) float)
    (employee_name : option string) (project_col : string)
  : outcome (string * pynum) :=
  match dict_get project_col PROJECT_NAME_MAPPING with
  | Some v =>
      if String.eqb project_col "Vars/Vita." then
        Return ("VARS/Vitawerks",
                py_sum (lookup_get lookup employee_name <$> members v))
      else
        match v with
        | One p => Return (p, lookup_get lookup employee_name p)
        | Many _ => Raise (TypeError "unhashable type: 'list'")
        end
  | None => Return (project_col, lookup_get lookup employee_name project_col)
  end.

(** Lines 175-177. *)
Definition completion_percentage (actual_hours : pynum) (expected_hours : float) : pynum :=
  if F64.ltb F64.zero expected_hours then
    py_min (PFloat (F64.round2 (F64.mul (py_truediv actual_hours expected_hours)
                                        (F64.of_int 100))))
           (PInt 100)
  else PInt 0.

(** [pd.notna(x) and x > 0] *)
Definition allocated (x : float) : bool :=
  negb (F64.is_nan x) && F64.ltb F64.zero x.

(** Lines 148-186 for one cell: the records it appends. *)
Definition process_cell (lookup : gmap (string * string) float)
    (employee_name : option string) (project_col : string) (x : float)
  : outcome (list record) :=
  if allocated x then
    '(standardized_project, actual_hours) ← standardize lookup employee_name project_col;
    let expected_hours := x in
    mret [ {| Name := employee_name;
              Project := standardized_project;
              Expected_Hours := expected_hours;
              Actual_Hours := actual_hours;
              Completion := completion_percentage actual_hours expected_hours |} ]
  else mret [].

(** [row[project_col]] in row [i]. Every project column is a float column
    once the conversion loop is through. *)
Definition row_value (d : DataFrame) (project_col : string) (i : nat) : float :=
  match get_column project_col d with
  | Some (ColFloat xs) => default F64.nan (xs !! i)
  | _ => F64.nan
  end.

(** The body of [for _, row in df.iterrows()] at row [i]. *)
Definition process_row (lookup : gmap (string * string) float) (d : DataFrame)
    (project_columns : list string) (i : nat) : outcome (list record) :=
  match name_column d with
  | None => Raise (KeyError "Name")
  | Some names =>
      let employee_name := default None (names !! i) in
      (@List.concat record)
        <$> mapM (fun project_col =>
                    process_cell lookup employee_name project_col
                                 (row_value d project_col i))
                 project_columns
  end.

Definition iterrows (lookup : gmap (string * string) float) (d : DataFrame)
    (project_columns : list string) : outcome (list record) :=
  (@List.concat record) <$> mapM (process_row lookup d project_columns) (seq 0 (nrows d)).

(** *** Sorting

    [sort_values(['Name', 'Project'])]: ascending by name, then by project,
    strings compared character by character, missing names last, and
    records with equal keys left in the order they had. *)

Definition name_compare (a b : option string) : comparison :=
  match a, b with
  | Some x, Some y => String.compare x y
  | Some _, None => Lt
  | None, Some _ => Gt
  | None, None => Eq
  end.

Definition key_le (r1 r2 : record) : bool :=
  match name_compare (Name r1) (Name r2) with
  | Lt => true
  | Gt => false
  | Eq => String.leb (Project r1) (Project r2)
  end.

Fixpoint insert_record (r : record) (l : list record) : list record :=
  match l with
  | [] => [r]
  | x :: l' => if key_le r x then r :: l else x :: insert_record r l'
  end.

Definition sort_values (l : list record) : list record :=
  foldr insert_record [] l.

Section Reconcile.

Context (bq : collaborators).

(** Lines 120-122. [drop] returns a new frame and [df] is bound to it. *)
Fixpoint drop_ignored (df : ref) (cols : list string) : M ref :=
  match cols with
  | [] => mret df
  | col :: cols' =>
      d ← deref df;
      df' ← (if has_column col d then alloc (drop_column col d) else mret df);
      drop_ignored df' cols'
  end.

(** Line 127: [df[col] = df[col].astype(float)], in the frame [df]
    refers to. *)
Definition convert_column (df : ref) (col : string) : M unit :=
  d ← deref df;
  match get_column col d with
  | None => raise (KeyError col)
  | Some c =>
      match astype_float c with
      | None => raise (astype_error c)
      | Some xs => store df (set_column col (ColFloat xs) d)
      end
  end.

Definition process_allocation_csv (df : ref) (selected_month selected_year : string)
  : M (list record) :=
  df ← drop_ignored df IGNORED_COLUMNS;
  d ← deref df;
  let numeric_cols := non_name_columns d in
  _ ← for_each numeric_cols (convert_column df);
  d ← deref df;
  let project_columns := non_name_columns d in
  valid_users ← fetch_valid_users bq;
  actual_hours_lookup ← fetch_all_actual_hours bq selected_month selected_year;
  d ← deref df;
  processed_data ← lift (iterrows actual_hours_lookup d project_columns);
  mret (sort_values processed_data).

End Reconcile.

(** ** Pure readings of a run

    What the loops of [process_allocation_csv] compute, without the heap;
    the lemmas [drop_ignored_spec], [for_each_convert_spec],
    [fetch_all_actual_hours_spec] and [run_spec] tie them to the run. *)

(** The frame [df] is bound to after lines 120-122. *)
Fixpoint drop_all (cols : list string) (d : DataFrame) : DataFrame :=
  match cols with
  | [] => d
  | col :: cols' => drop_all cols' (if has_column col d then drop_column col d else d)
  end.

(** Whether lines 120-122 bound [df] to a new frame. *)
Fixpoint dropped (cols : list string) (d : DataFrame) : bool :=
  match cols with
  | [] => false
  | col :: cols' =>
      has_column col d || dropped cols' (if has_column col d then drop_column col d else d)
  end.

Definition convert_step (col : string) (d : DataFrame) : outcome DataFrame :=
  match get_column col d with
  | None => Raise (KeyError col)
  | Some c =>
      match astype_float c with
      | None => Raise (astype_error c)
      | Some xs => Return (set_column col (ColFloat xs) d)
      end
  end.

(** The conversion loop on the frame [d]: how it ends, and the frame as
    the loop leaves it. *)
Fixpoint convert_all (cols : list string) (d : DataFrame) : outcome unit * DataFrame :=
  match cols with
  | [] => (Return tt, d)
  | col :: cols' =>
      match convert_step col d with
      | Return d' => convert_all cols' d'
      | Raise e => (Raise e, d)
      end
  end.

(** The period string of the query, line 84. *)
Definition month_query (month year : string) : string :=
  nth (get_month_number month) calendar_month_abbr "" ++ " " ++ year.

(** The dictionary [fetch_all_actual_hours] returns and the warnings it
    shows. *)
Definition fetched (bq : collaborators) (month year : string)
  : gmap (string * string) float * list string :=
  match jira_tickets bq (month_query month year) with
  | TicketsRaise e => (∅, ["Error fetching actual hours: " ++ exn_str e])
  | TicketsFrame empty has_time_spent grouped =>
      if negb empty && has_time_spent then
        match grouped with
        | Return d => (d, [])
        | Raise e => (∅, ["Error fetching actual hours: " ++ exn_str e])
        end
      else (∅, [])
  end.

Definition valid_users (bq : collaborators) : outcome (gset string) :=
  match get_users bq with
  | UsersRaise e => Raise e
  | UsersFrame empty name =>
      if negb empty then
        match name with
        | Some names => Return (list_to_set names)
        | None => Raise (KeyError "name")
        end
      else Return ∅
  end.

(** The records a cell appends. *)
Definition cell_records (lookup : gmap (string * string) float)
    (employee_name : option string) (project_col : string) (x : float) : list record :=
  match process_cell lookup employee_name project_col x with
  | Return rs => rs
  | Raise _ => []
  end.

Definition row_records (lookup : gmap (string * string) float) (d : DataFrame)
    (project_columns : list string) (i : nat) : list record :=
  flat_map (fun project_col =>
              cell_records lookup (default None (default [] (name_column d) !! i))
                           project_col (row_value d project_col i))
           project_columns.

(** The part of a record the lookup has no say in. *)
Definition shape (r : record) : option string * string * float :=
  (Name r, Project r, Expected_Hours r).


(** The columns named in [P] are settled: each is a float column, and it
    is the one its label selects. *)
Definition settled (P : string -> Prop) (d : DataFrame) : Prop :=
  forall (l : string) (c : column),
    In (l, c) (columns d) -> P l ->
    get_column l d = Some c /\ exists xs, c = ColFloat xs.

(** Two frames with the same ['Name'] column, index and labels. *)
Definition same_layout (d d' : DataFrame) : Prop :=
  name_column d' = name_column d /\ nrows d' = nrows d /\ labels d' = labels d.



(** ** Sample sheets and replies *)

(** A warehouse whose user directory is empty and whose tickets group to
    [lookup]. *)
Definition warehouse (lookup : gmap (string * string) float) : collaborators :=
  {| get_users := UsersFrame true None;
     jira_tickets := fun _ => TicketsFrame false true (Return lookup) |}.

(** An interpreter that holds the frame [d] and nothing else. *)
Definition holding (d : DataFrame) : state := {| heap := [d]; warnings := [] |}.

(** One employee, one column, one cell. *)
Definition one_cell (name col : string) (c : column) : DataFrame :=
  {| name_column := Some [Some name]; nrows := 1; columns := [(col, c)] |}.

Definition bob_lookup : gmap (string * string) float :=
  <[("Bob", "VARS") := F64.of_int 4]> (<[("Bob", "Vitawerks") := F64.of_int 3]> ∅).

Definition ann_lookup : gmap (string * string) float :=
  <[("Ann", "SDI") := F64.of_int 15]> ∅.

Definition ann_sheet : DataFrame := one_cell "Ann" "SDI" (ColInt [10]).

Definition ann_record : record :=
  {| Name := Some "Ann"; Project := "SDI"; Expected_Hours := F64.of_int 10;
     Actual_Hours := PFloat (F64.of_int 15); Completion := PInt 100 |}.

Definition bob_sheet : DataFrame := one_cell "Bob" "Vars/Vita." (ColInt [10]).

(** [{Bob, 'VARS/Vitawerks', 10.0, 7.0, 70.0}] *)
Definition bob_record : record :=
  {| Name := Some "Bob"; Project := "VARS/Vitawerks"; Expected_Hours := F64.of_int 10;
     Actual_Hours := PFloat (F64.of_int 7); Completion := PFloat (F64.of_int 70) |}.

(** A sheet with a cell that is no number. *)
Definition text_sheet : DataFrame := one_cell "Ann" "SDI" (ColObj [Some "abc"]).

(** The exception [fetch_all_actual_hours] catches for a reply, if any: the
    one [bq.jira_tickets] raises, or the one the pandas pipeline raises on
    a frame that is not empty and has a [time_spent] column. *)
Definition caught (t : tickets_reply) : option exn :=
  match t with
  | TicketsRaise e => Some e
  | TicketsFrame false true (Raise e) => Some e
  | TicketsFrame _ _ _ => None
  end.

(** The replies the builder answers with an empty mapping: a raised
    error, an empty result, a result without [time_spent], or a result the
    pipeline fails on (a missing grouping field, say). *)
Definition tickets_failed (t : tickets_reply) : bool :=
  match t with
  | TicketsRaise _ => true
  | TicketsFrame false true (Return _) => false
  | TicketsFrame _ _ _ => true
  end.

(** A warehouse that has no tickets for any period. *)
Definition no_tickets : collaborators :=
  {| get_users := UsersFrame true None;
     jira_tickets := fun _ => TicketsFrame true true (Return ∅) |}.

Definition ann_idle_record : record :=
  {| Name := Some "Ann"; Project := "SDI"; Expected_Hours := F64.of_int 10;
     Actual_Hours := PInt 0; Completion := PFloat F64.zero |}.

(** ** The month as a name

    The source has no function that returns the canonical month name of
    the spec's [canonicalize_month]; what stands for it is the entry of
    [calendar.month_name] at the number [get_month_number] returns. *)
Definition canonical_month (month : string) : string :=
  nth (get_month_number month) calendar_month_name "".

(** The abbreviation the query is formatted with, line 83. *)
Definition month_to_abbreviation (month : string) : string :=
  nth (get_month_number month) calendar_month_abbr "".

(** [canonicalize_month], following the spec's words: an exact lookup in
    the month mapping; on a miss, the first of the twelve full month names
    that matches as a substring, in either direction and ignoring case; on
    a total miss, January. *)
Definition twelve_months : list string := tl calendar_month_name.

Definition month_matches (raw full : string) : bool :=
  str_in (lower raw) (lower full) || str_in (lower full) (lower raw).

Definition canonicalize_month_spec (raw : string) : string :=
  match dict_get raw MONTH_MAPPING with
  | Some full => full
  | None =>
      match List.find (month_matches raw) twelve_months with
      | Some full => full
      | None => "January"
      end
  end.

(** Two employees out of order, an ignored column, a missing cell. *)
Definition team_sheet : DataFrame :=
  {| name_column := Some [Some "Zed"; Some "Ann"];
     nrows := 2;
     columns := [ ("Dept", ColObj [Some "Lab"; Some "Ops"]);
                  ("Vars/Vita.", ColFloat [F64.of_int 8; F64.nan]);
                  ("SDI", ColInt [5; 10]) ] |}.

(** The copy the run of [team_sheet] works on, as the run leaves it. *)
Definition team_copy : DataFrame :=
  {| name_column := Some [Some "Zed"; Some "Ann"];
     nrows := 2;
     columns := [ ("Vars/Vita.", ColFloat [F64.of_int 8; F64.nan]);
                  ("SDI", ColFloat [F64.of_int 5; F64.of_int 10]) ] |}.

Definition team_report : list record :=
  [ ann_record;
    {| Name := Some "Zed"; Project := "SDI"; Expected_Hours := F64.of_int 5;
       Actual_Hours := PInt 0; Completion := PFloat F64.zero |};
    {| Name := Some "Zed"; Project := "VARS/Vitawerks"; Expected_Hours := F64.of_int 8;
       Actual_Hours := PInt 0; Completion := PFloat F64.zero |} ].

(** [{Name: 'Alice', 'SDI': 20}] with 15 actual hours. *)
Definition alice_sheet : DataFrame := one_cell "Alice" "SDI" (ColInt [20]).

Definition alice_lookup : gmap (string * string) float :=
  <[("Alice", "SDI") := F64.of_int 15]> ∅.




(** ** The report as a function of the sheet *)

(** The labels the loop of line 146 runs through: those of the sheet that
    are neither ['Name'] nor ignored, in header order. *)
Definition project_columns (d : DataFrame) : list string :=
  List.filter (fun col => negb (existsb (String.eqb col) IGNORED_COLUMNS))
              (non_name_columns d).

(** The cell of column [col] in row [i], as the float [astype] makes of
    it. *)
Definition cell_value (d : DataFrame) (col : string) (i : nat) : float :=
  match get_column col d with
  | Some c =>
      match astype_float c with
      | Some xs => default F64.nan (xs !! i)
      | None => F64.nan
      end
  | None => F64.nan
  end.

(** [row['Name']] in row [i]. *)
Definition employee (d : DataFrame) (i : nat) : option string :=
  default None (default [] (name_column d) !! i).

(** [processed_data]: rows in index order, and within a row the project
    columns in header order. *)
Definition report_records (lookup : gmap (string * string) float) (d : DataFrame)
  : list record :=
  flat_map (fun i =>
              flat_map (fun col => cell_records lookup (employee d i) col (cell_value d col i))
                       (project_columns d))
           (seq 0 (nrows d)).

(** What a run on the frame [d] returns or raises. *)
Definition reconcile (bq : collaborators) (month year : string) (d : DataFrame)
  : outcome (list record) :=
  let d1 := drop_all IGNORED_COLUMNS d in
  match convert_all (non_name_columns d1) d1 with
  | (Raise e, _) => Raise e
  | (Return _, d2) =>
      match valid_users bq with
      | Raise e => Raise e
      | Return _ =>
          sort_values <$> iterrows (fst (fetched bq month year)) d2 (non_name_columns d2)
      end
  end.

(** The frame without the columns labelled in [cols]. *)
Definition without_columns (cols : list string) (d : DataFrame) : DataFrame :=
  {| name_column := name_column d;
     nrows := nrows d;
     columns := List.filter (fun lc => negb (existsb (String.eqb (fst lc)) cols)) (columns d) |}.

(** The cells of the sheet that hold an allocation. *)
Definition allocated_cells (d : DataFrame) : list (nat * string) :=
  List.filter (fun ic => allocated (cell_value d (snd ic) (fst ic)))
              (list_prod (seq 0 (nrows d)) (project_columns d)).

(** A sheet whose second column holds text. *)
Definition half_sheet : DataFrame :=
  {| name_column := Some [Some "Ann"];
     nrows := 1;
     columns := [ ("SDI", ColInt [10]); ("Notes", ColObj [Some "n/a"]) ] |}.

(** [half_sheet] with its first column converted. *)
Definition half_converted : DataFrame :=
  {| name_column := Some [Some "Ann"];
     nrows := 1;
     columns := [ ("SDI", ColFloat [F64.of_int 10]); ("Notes", ColObj [Some "n/a"]) ] |}.

(** A warehouse whose user directory lists Bob only. *)
Definition staffed_warehouse (lookup : gmap (string * string) float) : collaborators :=
  {| get_users := UsersFrame false (Some ["Bob"]);
     jira_tickets := fun _ => TicketsFrame false true (Return lookup) |}.

(** ** The months and years offered for selection

    [get_months_and_years], nested in [main]. The reply of
    [bq.get_latest_months] carries what the function looks at: [empty] and
    the entries of the [month] column, if the frame has one. An entry is a
    str or some other object (a missing value, a number, a timestamp),
    which has no [split] method; of the latter the function only shows
    [str(entry)] and the name of its type in the warning. *)

Inductive entry :=
| Text (s : string)
| NotText (shown type_name : string).

Inductive months_reply :=
| MonthsRaise (e : exn)
| MonthsFrame (empty : bool) (month : option (list entry)).

Definition entry_eqb (a b : entry) : bool :=
  match a, b with
  | Text s, Text t => String.eqb s t
  | NotText s1 t1, NotText s2 t2 => String.eqb s1 s2 && String.eqb t1 t2
  | _, _ => false
  end.

(** [Series.unique()]: the first occurrence of every entry, in order. *)
Fixpoint unique (seen l : list entry) : list entry :=
  match l with
  | [] => []
  | x :: l' =>
      if existsb (entry_eqb x) seen then unique seen l' else x :: unique (x :: seen) l'
  end.

(** The width in bytes of the white-space character at the head of [s], 0
    when there is none. White space is what [str.isspace] accepts: the
    ASCII characters 9 to 13 and 28 to 32 and, in their UTF-8 encoding,
    U+0085, U+00A0, U+1680, U+2000 to U+200A, U+2028, U+2029, U+202F,
    U+205F and U+3000. *)
Definition space_width (s : string) : nat :=
  match s with
  | EmptyString => 0
  | String a s1 =>
      let a := nat_of_ascii a in
      if ((9 <=? a) && (a <=? 13) || (28 <=? a) && (a <=? 32))%nat then 1%nat
      else
        match s1 with
        | EmptyString => 0
        | String b s2 =>
            let b := nat_of_ascii b in
            if ((a =? 194) && ((b =? 133) || (b =? 160)))%nat then 2%nat
            else
              match s2 with
              | EmptyString => 0
              | String c _ =>
                  let c := nat_of_ascii c in
                  if ((a =? 225) && (b =? 154) && (c =? 128)
                      || (a =? 226) && (b =? 128)
                         && ((128 <=? c) && (c <=? 138) || (c =? 168) || (c =? 169)
                             || (c =? 175))
                      || (a =? 226) && (b =? 129) && (c =? 159)
                      || (a =? 227) && (b =? 128) && (c =? 128))%nat
                  then 3%nat else 0%nat
              end
        end
  end.

(** The word read so far, if any; its characters are held last first. *)
Definition flush (word : list ascii) : list string :=
  match word with
  | [] => []
  | _ => [string_of_list_ascii (rev word)]
  end.

(** [skip] counts the bytes still to pass of a white-space character. *)
Fixpoint split_from (skip : nat) (word : list ascii) (s : string) : list string :=
  match s with
  | EmptyString => flush word
  | String c s' =>
      match skip with
      | S k => split_from k word s'
      | O =>
          match space_width s with
          | O => split_from O (c :: word) s'
          | S k => (flush word ++ split_from k [] s')%list
          end
      end
  end.

(** [s.split()]: the maximal runs of characters that are not white
    space. *)
Definition split (s : string) : list string := split_from 0 [] s.

(** [sorted(l, key=...)] with the order [le] on the keys: a stable sort. *)
Fixpoint insert_by {A : Type} (le : A -> A -> bool) (x : A) (l : list A) : list A :=
  match l with
  | [] => [x]
  | y :: l' => if le x y then x :: l else y :: insert_by le x l'
  end.

Definition sorted_by {A : Type} (le : A -> A -> bool) (l : list A) : list A :=
  foldr (insert_by le) [] l.

Definition month_le (a b : string) : bool :=
  (get_month_number a <=? get_month_number b)%nat.

(** [str(year)] *)
Definition str_of_int (z : Z) : string := NilZero.string_of_int (Z.to_int z).

Definition DEFAULT_MONTHS : list string :=
  [ "January"; "February"; "March"; "April"; "May"; "June";
    "July"; "August"; "September"; "October"; "November"; "December" ].

(** The body of the loop of line 209 for one entry; [sets] are
    [months_set] and [years_set]. The only exception the body can raise is
    the AttributeError of an entry without [split], which the handler turns
    into a warning. *)
Definition note_month (sets : gset string * gset string) (e : entry)
  : M (gset string * gset string) :=
  match e with
  | Text month_str =>
      match split month_str with
      | [month_name; year] =>
          let standard_month := standardize_month_name month_name in
          mret ({[ standard_month ]} ∪ fst sets, {[ year ]} ∪ snd sets)
      | _ => mret sets
      end
  | NotText shown type_name =>
      _ ← st_warning ("Issue processing month string '" ++ shown ++ "': '"
                      ++ type_name ++ "' object has no attribute 'split'");
      mret sets
  end.

Fixpoint for_months (entries : list entry) (sets : gset string * gset string)
  : M (gset string * gset string) :=
  match entries with
  | [] => mret sets
  | e :: entries' =>
      sets' ← note_month sets e;
      for_months entries' sets'
  end.

(** [listing] is [list(a_set)]: the elements of the set in the order the
    interpreter iterates over them, which the language leaves open. *)
Definition get_months_and_years (reply : months_reply) (current_year : Z)
    (listing : gset string -> list string) : M (list string * list string) :=
  match reply with
  | MonthsRaise e => raise e
  | MonthsFrame empty month =>
      sets ← match month with
             | Some entries =>
                 if negb empty then for_months (unique [] entries) (∅, ∅) else mret (∅, ∅)
             | None => mret (∅, ∅)
             end;
      let months_list := sorted_by month_le (listing (fst sets)) in
      let years_list := sorted_by String.leb (listing (snd sets)) in
      let months_list :=
        match months_list with [] => DEFAULT_MONTHS | _ => months_list end in
      let years_list :=
        match years_list with
        | [] => str_of_int <$> [current_year - 2; current_year - 1; current_year]
        | _ => years_list
        end in
      mret (months_list, years_list)
  end.

(** *** Pure readings of [get_months_and_years] *)

(** The entries the loop of line 209 runs through. *)
Definition month_entries (reply : months_reply) : list entry :=
  match reply with
  | MonthsFrame false (Some entries) => unique [] entries
  | _ => []
  end.

(** What an entry adds to [months_set] and [years_set]. *)
Definition month_and_year (e : entry) : option (string * string) :=
  match e with
  | Text month_str =>
      match split month_str with
      | [month_name; year] => Some (standardize_month_name month_name, year)
      | _ => None
      end
  | NotText _ _ => None
  end.

(** The warning an entry causes. *)
Definition split_warning (e : entry) : option string :=
  match e with
  | Text _ => None
  | NotText shown type_name =>
      Some ("Issue processing month string '" ++ shown ++ "': '"
            ++ type_name ++ "' object has no attribute 'split'")
  end.

Definition months_set (reply : months_reply) : gset string :=
  list_to_set (fst <$> omap month_and_year (month_entries reply)).

Definition years_set (reply : months_reply) : gset string :=
  list_to_set (snd <$> omap month_and_year (month_entries reply)).

(** Three periods, one of them twice and under two spellings, a string
    that does not split in two, and a missing value. *)
Definition latest_months : months_reply :=
  MonthsFrame false
    (Some [ Text "Mar 2025"; Text "Feb 2025"; Text "December 2024"; Text "Mar 2025";
            Text "March 2025"; Text "2025"; NotText "nan" "float" ]).

(** The lists the function returns. *)
Definition months_list (reply : months_reply) (listing : gset string -> list string)
  : list string :=
  let l := sorted_by month_le (listing (months_set reply)) in
  match l with [] => DEFAULT_MONTHS | _ => l end.

Definition years_list (reply : months_reply) (current_year : Z)
    (listing : gset string -> list string) : list string :=
  let l := sorted_by String.leb (listing (years_set reply)) in
  match l with
  | [] => str_of_int <$> [current_year - 2; current_year - 1; current_year]
  | _ => l
  end.

(** A frame without rows, and one whose entries do not split in two. *)
Definition no_months : months_reply := MonthsFrame true (Some []).

Definition odd_months : months_reply :=
  MonthsFrame false (Some [ Text "2025"; Text "Mar 2025 late"; NotText "None" "NoneType" ]).

(** * Properties *)

(** ** Signs through binary64 rounding *)

Module F64Facts.
Import F64.














Lemma compare_antisym x y : SFcompare x y = CompOpp <$> SFcompare y x.
Proof.
  destruct x as [sx | sx | | sx mx ex], y as [sy | sy | | sy my ey]; simpl;
    try reflexivity;
    try (destruct sx; try destruct sy; reflexivity);
    try (destruct sy; reflexivity).
  destruct sx, sy; simpl; try reflexivity;
    rewrite (Z.compare_antisym ey ex);
    destruct (ey ?= ex); simpl; try reflexivity;
    rewrite (Pos.compare_cont_antisym my mx Eq); simpl;
    try rewrite CompOpp_involutive; reflexivity.
Qed.



End F64Facts.

(** ** The run, step by step *)

Lemma bind_run {A B : Type} (m : M A) (f : A -> M B) (s : state) :
  (m ≫= f) s =
  match m s with
  | (Return a, s') => f a s'
  | (Raise e, s') => (Raise e, s')
  end.
Proof. reflexivity. Qed.

Lemma deref_run (r : ref) (s : state) (d : DataFrame) :
  heap s !! r = Some d -> deref r s = (Return d, s).
Proof. intros H. unfold deref. rewrite H. reflexivity. Qed.

Lemma state_eta (s : state) : {| heap := heap s; warnings := warnings s |} = s.
Proof. destruct s; reflexivity. Qed.

Lemma drop_ignored_spec (cols : list string) : forall (r : ref) (s : state) (d : DataFrame),
  heap s !! r = Some d ->
  exists (r' : ref) (extra : list DataFrame),
    drop_ignored r cols s
      = (Return r', {| heap := heap s ++ extra; warnings := warnings s |})
    /\ (heap s ++ extra)%list !! r' = Some (drop_all cols d)
    /\ (if dropped cols d then (length (heap s) <= r')%nat else r' = r /\ extra = []).
Proof.
  induction cols as [| col cols IH]; intros r s d Hr.
  - exists r, []. simpl. rewrite app_nil_r, state_eta. auto.
  - simpl drop_ignored. rewrite bind_run, (deref_run r s d Hr).
    simpl drop_all. simpl dropped.
    destruct (has_column col d) eqn:Hc.
    + rewrite bind_run. unfold alloc at 1.
      set (s1 := {| heap := heap s ++ [drop_column col d]; warnings := warnings s |}).
      assert (heap s1 !! length (heap s) = Some (drop_column col d)) as H1.
      { simpl. rewrite lookup_app_r by lia. rewrite Nat.sub_diag. reflexivity. }
      destruct (IH _ s1 _ H1) as (r' & extra & Hrun & Hlook & Hfresh).
      exists r', (drop_column col d :: extra).
      simpl in Hrun, Hlook. rewrite <- app_assoc in Hrun, Hlook. simpl in Hrun, Hlook.
      split; [exact Hrun |]. split; [exact Hlook |].
      simpl. destruct (dropped cols (drop_column col d)).
      * simpl in Hfresh. rewrite length_app in Hfresh. simpl in Hfresh. lia.
      * destruct Hfresh as [-> _]. lia.
    + rewrite bind_run. change (@mret M _ _ r s) with (@Return ref r, s).
      destruct (IH r s d Hr) as (r' & extra & Hrun & Hlook & Hfresh).
      exists r', extra. simpl. auto.
Qed.

Lemma for_each_convert_spec (cols : list string) : forall (r : ref) (s : state) (d : DataFrame),
  heap s !! r = Some d ->
  for_each cols (convert_column r) s
    = (fst (convert_all cols d),
       {| heap := <[r := snd (convert_all cols d)]> (heap s); warnings := warnings s |}).
Proof.
  induction cols as [| col cols IH]; intros r s d Hr.
  - simpl. rewrite (list_insert_id _ _ _ Hr), state_eta. reflexivity.
  - simpl for_each. rewrite bind_run. unfold convert_column at 1.
    rewrite bind_run, (deref_run r s d Hr).
    simpl convert_all. unfold convert_step.
    destruct (get_column col d) as [c |].
    2:{ simpl. rewrite (list_insert_id _ _ _ Hr), state_eta. reflexivity. }
    destruct (astype_float c) as [xs |].
    2:{ simpl. rewrite (list_insert_id _ _ _ Hr), state_eta. reflexivity. }
    unfold store at 1.
    set (d1 := set_column col (ColFloat xs) d).
    set (s1 := {| heap := <[r := d1]> (heap s); warnings := warnings s |}).
    assert (heap s1 !! r = Some d1) as H1.
    { simpl. apply list_lookup_insert_eq. eapply lookup_lt_Some; eauto. }
    rewrite (IH r s1 d1 H1). simpl. rewrite list_insert_insert_eq. reflexivity.
Qed.

Lemma fetch_all_actual_hours_spec (bq : collaborators) (month year : string) (s : state) :
  fetch_all_actual_hours bq month year s
    = (Return (fst (fetched bq month year)),
       {| heap := heap s; warnings := warnings s ++ snd (fetched bq month year) |}).
Proof.
  unfold fetch_all_actual_hours, fetched, try_except.
  destruct (jira_tickets bq _) as [e | empty hts grouped]; simpl.
  - reflexivity.
  - destruct (negb empty && hts); [destruct grouped |]; simpl;
      rewrite ?app_nil_r, ?state_eta; reflexivity.
Qed.

Lemma fetch_valid_users_spec (bq : collaborators) (s : state) :
  fetch_valid_users bq s = (valid_users bq, s).
Proof.
  unfold fetch_valid_users, valid_users.
  destruct (get_users bq) as [e | empty name]; [reflexivity |].
  destruct (negb empty); [destruct name |]; reflexivity.
Qed.

Lemma run_spec (bq : collaborators) (r : ref) (m y : string) (s : state) (d : DataFrame) :
  heap s !! r = Some d ->
  exists (r' : ref) (extra : list DataFrame),
    let d1 := drop_all IGNORED_COLUMNS d in
    let c := convert_all (non_name_columns d1) d1 in
    let h := <[r' := snd c]> (heap s ++ extra)%list in
    (if dropped IGNORED_COLUMNS d then (length (heap s) <= r')%nat else r' = r /\ extra = [])
    /\ (heap s ++ extra)%list !! r' = Some d1
    /\ process_allocation_csv bq r m y s =
       match fst c with
       | Raise e => (Raise e, {| heap := h; warnings := warnings s |})
       | Return _ =>
           match valid_users bq with
           | Raise e => (Raise e, {| heap := h; warnings := warnings s |})
           | Return _ =>
               (sort_values <$> iterrows (fst (fetched bq m y)) (snd c) (non_name_columns (snd c)),
                {| heap := h; warnings := warnings s ++ snd (fetched bq m y) |})
           end
       end.
Proof.
  intros Hr.
  destruct (drop_ignored_spec IGNORED_COLUMNS r s d Hr) as (r' & extra & Hrun & Hlook & Hfresh).
  exists r', extra. intros d1 c h. split; [exact Hfresh |]. split; [exact Hlook |].
  unfold process_allocation_csv.
  rewrite bind_run, Hrun.
  set (s1 := {| heap := heap s ++ extra; warnings := warnings s |}).
  assert (heap s1 !! r' = Some d1) as H1 by exact Hlook.
  rewrite bind_run, (deref_run r' s1 d1 H1).
  rewrite bind_run, (for_each_convert_spec _ r' s1 d1 H1).
  fold c. simpl heap. simpl warnings. fold h.
  destruct (fst c) as [[] | e]; [| reflexivity].
  set (s2 := {| heap := h; warnings := warnings s |}).
  assert (heap s2 !! r' = Some (snd c)) as H2.
  { simpl. unfold h. apply list_lookup_insert_eq. eapply lookup_lt_Some; eauto. }
  rewrite bind_run, (deref_run r' s2 _ H2).
  rewrite bind_run, fetch_valid_users_spec.
  destruct (valid_users bq) as [users | e]; [| reflexivity].
  rewrite bind_run, fetch_all_actual_hours_spec.
  simpl heap. simpl warnings.
  set (s3 := {| heap := h; warnings := warnings s ++ snd (fetched bq m y) |}).
  assert (heap s3 !! r' = Some (snd c)) as H3 by exact H2.
  rewrite bind_run, (deref_run r' s3 _ H3).
  rewrite bind_run. unfold lift at 1.
  destruct (iterrows _ _ _); reflexivity.
Qed.

(** ** Dictionaries and the project mapping *)

Lemma dict_get_fold {V : Type} (k : string) (d : list (string * V)) :
  forall (acc : option V) (v : V),
    fold_left (fun acc kv => if String.eqb (fst kv) k then Some (snd kv) else acc) d acc = Some v ->
    acc = Some v \/ In (k, v) d.
Proof.
  induction d as [| [k' v'] d IH]; intros acc v H; simpl in *; [auto |].
  apply IH in H. destruct H as [H | H]; [| auto].
  destruct (String.eqb_spec k' k) as [-> | _]; [| auto].
  inversion H; subst. auto.
Qed.

Lemma dict_get_In {V : Type} (k : string) (d : list (string * V)) (v : V) :
  dict_get k d = Some v -> In (k, v) d.
Proof.
  intros H. apply dict_get_fold in H. destruct H as [H | H]; [discriminate | exact H].
Qed.

(** The only list among the values of the mapping is the one of the
    combined column. *)
Lemma mapping_many (col : string) (ps : list string) :
  dict_get col PROJECT_NAME_MAPPING = Some (Many ps) -> col = "Vars/Vita.".
Proof.
  intros H. apply dict_get_In in H. simpl in H.
  repeat (destruct H as [H | H]; [try discriminate H; inversion H; reflexivity |]).
  contradiction.
Qed.

Lemma standardize_total (lookup : gmap (string * string) float)
    (n : option string) (col : string) :
  exists p a, standardize lookup n col = Return (p, a).
Proof.
  unfold standardize.
  destruct (dict_get col PROJECT_NAME_MAPPING) as [v |] eqn:Hv; [| eauto].
  destruct (String.eqb_spec col "Vars/Vita.") as [-> | Hne]; [eauto |].
  destruct v as [p | ps]; [eauto |].
  apply mapping_many in Hv. contradiction.
Qed.

(** The standardized project does not depend on the lookup. *)
Lemma standardize_project (l1 l2 : gmap (string * string) float)
    (n : option string) (col : string) :
  exists p a1 a2,
    standardize l1 n col = Return (p, a1) /\ standardize l2 n col = Return (p, a2).
Proof.
  destruct (standardize_total l1 n col) as (p & a1 & H1).
  exists p, a1. revert H1. unfold standardize.
  destruct (dict_get col PROJECT_NAME_MAPPING) as [v |].
  - destruct (String.eqb col "Vars/Vita.").
    + intros H; inversion H; subst; eauto.
    + destruct v; [| discriminate]. intros H; inversion H; subst; eauto.
  - intros H; inversion H; subst; eauto.
Qed.

Lemma process_cell_spec (lookup : gmap (string * string) float)
    (n : option string) (col : string) (x : float) :
  process_cell lookup n col x = Return (cell_records lookup n col x).
Proof.
  unfold cell_records.
  destruct (process_cell lookup n col x) as [rs | e] eqn:H; [reflexivity | exfalso].
  unfold process_cell in H. destruct (allocated x); [| discriminate].
  destruct (standardize_total lookup n col) as (p & a & Hs).
  rewrite Hs in H. discriminate.
Qed.

(** A cell that is allocated appends one record; any other cell, none. *)
Lemma cell_records_allocated (lookup : gmap (string * string) float)
    (n : option string) (col : string) (x : float) :
  allocated x = true ->
  exists p a,
    standardize lookup n col = Return (p, a) /\
    cell_records lookup n col x =
      [ {| Name := n; Project := p; Expected_Hours := x; Actual_Hours := a;
           Completion := completion_percentage a x |} ].
Proof.
  intros Hx. destruct (standardize_total lookup n col) as (p & a & Hs).
  exists p, a. split; [exact Hs |].
  unfold cell_records, process_cell. rewrite Hx, Hs. reflexivity.
Qed.

Lemma cell_records_skipped (lookup : gmap (string * string) float)
    (n : option string) (col : string) (x : float) :
  allocated x = false -> cell_records lookup n col x = [].
Proof. intros Hx. unfold cell_records, process_cell. rewrite Hx. reflexivity. Qed.

(** ** The loop over the rows *)

Lemma mapM_outcome_total {A B : Type} (f : A -> outcome B) (g : A -> B) (l : list A) :
  (forall x, f x = Return (g x)) -> mapM f l = Return (g <$> l).
Proof.
  intros H. induction l as [| x l IH]; [reflexivity |].
  simpl. rewrite H. simpl. rewrite IH. reflexivity.
Qed.

Lemma concat_fmap_flat_map {A B : Type} (g : A -> list B) (l : list A) :
  List.concat (g <$> l) = flat_map g l.
Proof. induction l as [| x l IH]; simpl; [reflexivity | f_equal; exact IH]. Qed.

Lemma process_row_spec (lookup : gmap (string * string) float) (d : DataFrame)
    (cols : list string) (i : nat) (names : list (option string)) :
  name_column d = Some names ->
  process_row lookup d cols i = Return (row_records lookup d cols i).
Proof.
  intros Hn. unfold process_row, row_records. rewrite Hn.
  rewrite (mapM_outcome_total _
             (fun col => cell_records lookup (default None (names !! i)) col (row_value d col i)))
    by (intros; apply process_cell_spec).
  simpl. rewrite concat_fmap_flat_map. reflexivity.
Qed.

Lemma iterrows_spec (lookup : gmap (string * string) float) (d : DataFrame)
    (cols : list string) (names : list (option string)) :
  name_column d = Some names ->
  iterrows lookup d cols = Return (flat_map (row_records lookup d cols) (seq 0 (nrows d))).
Proof.
  intros Hn. unfold iterrows.
  rewrite (mapM_outcome_total _ (row_records lookup d cols))
    by (intros; eapply process_row_spec; eauto).
  simpl. rewrite concat_fmap_flat_map. reflexivity.
Qed.

(** Without a ['Name'] column the first row raises. *)
Lemma iterrows_no_name (lookup : gmap (string * string) float) (d : DataFrame)
    (cols : list string) :
  name_column d = None ->
  iterrows lookup d cols =
    match nrows d with O => Return [] | S _ => Raise (KeyError "Name") end.
Proof.
  intros Hn. unfold iterrows.
  generalize 0%nat. destruct (nrows d) as [| n]; intros k; [reflexivity |].
  unfold process_row. rewrite Hn. reflexivity.
Qed.

(** Every record of the loop comes from an allocated cell of some row. *)
Lemma iterrows_In (lookup : gmap (string * string) float) (d : DataFrame)
    (cols : list string) (processed : list record) (r : record) :
  iterrows lookup d cols = Return processed ->
  In r processed ->
  exists i col,
    (i < nrows d)%nat /\ In col cols /\
    In r (cell_records lookup (default None (default [] (name_column d) !! i)) col
                       (row_value d col i)).
Proof.
  intros Hrun Hin.
  destruct (name_column d) as [names |] eqn:Hn.
  - rewrite (iterrows_spec _ _ _ _ Hn) in Hrun. inversion Hrun; subst. clear Hrun.
    apply in_flat_map in Hin. destruct Hin as (i & Hi & Hin).
    apply in_seq in Hi. unfold row_records in Hin.
    apply in_flat_map in Hin. destruct Hin as (col & Hcol & Hin).
    exists i, col. rewrite Hn in Hin. simpl. repeat split; auto; lia.
  - rewrite (iterrows_no_name _ _ _ Hn) in Hrun.
    destruct (nrows d); [| discriminate]. inversion Hrun; subst. contradiction.
Qed.

Lemma cell_records_In (lookup : gmap (string * string) float)
    (n : option string) (col : string) (x : float) (r : record) :
  In r (cell_records lookup n col x) ->
  allocated x = true /\
  standardize lookup n col = Return (Project r, Actual_Hours r) /\
  Name r = n /\ Expected_Hours r = x /\
  Completion r = completion_percentage (Actual_Hours r) x.
Proof.
  intros Hin. destruct (allocated x) eqn:Hx.
  - destruct (cell_records_allocated lookup n col x Hx) as (p & a & Hs & Hc).
    rewrite Hc in Hin. destruct Hin as [<- | []]. simpl. auto.
  - rewrite (cell_records_skipped _ _ _ _ Hx) in Hin. contradiction.
Qed.

(** ** Sorting *)

Lemma name_compare_antisym (a b : option string) :
  name_compare b a = CompOpp (name_compare a b).
Proof.
  destruct a, b; simpl; try reflexivity. apply String.compare_antisym.
Qed.

Lemma key_le_total (r1 r2 : record) : key_le r1 r2 = false -> key_le r2 r1 = true.
Proof.
  unfold key_le. rewrite (name_compare_antisym (Name r1) (Name r2)).
  destruct (name_compare (Name r1) (Name r2)); simpl; try congruence.
  intros H. destruct (String.leb_total (Project r1) (Project r2)); congruence.
Qed.

Lemma insert_record_In (r x : record) (l : list record) :
  In x (insert_record r l) <-> x = r \/ In x l.
Proof.
  induction l as [| y l IH]; simpl.
  - intuition.
  - destruct (key_le r y); simpl; rewrite ?IH; intuition.
Qed.

Lemma sort_values_In (x : record) (l : list record) :
  In x (sort_values l) <-> In x l.
Proof.
  induction l as [| r l IH]; simpl; [tauto |].
  rewrite insert_record_In, IH. intuition.
Qed.

Lemma insert_record_length (r : record) (l : list record) :
  length (insert_record r l) = S (length l).
Proof.
  induction l as [| y l IH]; simpl; [reflexivity |].
  destruct (key_le r y); simpl; rewrite ?IH; reflexivity.
Qed.

Lemma sort_values_length (l : list record) : length (sort_values l) = length l.
Proof.
  induction l as [| r l IH]; simpl; [reflexivity |].
  rewrite insert_record_length, IH. reflexivity.
Qed.

Lemma insert_record_sorted (r : record) (l : list record) :
  Sorted (fun a b => key_le a b = true) l ->
  Sorted (fun a b => key_le a b = true) (insert_record r l).
Proof.
  induction 1 as [| y l Hs IH Hhd]; simpl.
  - repeat constructor.
  - destruct (key_le r y) eqn:Hle.
    + constructor; [constructor; assumption | constructor; assumption].
    + constructor; [exact IH |].
      destruct l as [| z l]; simpl.
      * constructor. apply key_le_total; assumption.
      * destruct (key_le r z); constructor.
        -- apply key_le_total; assumption.
        -- inversion Hhd; assumption.
Qed.

Lemma sort_values_sorted (l : list record) :
  Sorted (fun a b => key_le a b = true) (sort_values l).
Proof.
  induction l as [| r l IH]; simpl; [constructor | apply insert_record_sorted, IH].
Qed.

Lemma string_compare_le_trans (s1 : string) : forall s2 s3 : string,
  String.compare s1 s2 <> Gt -> String.compare s2 s3 <> Gt -> String.compare s1 s3 <> Gt.
Proof.
  induction s1 as [| c1 s1 IH]; intros [| c2 s2] [| c3 s3]; simpl; try congruence.
  unfold Ascii.compare.
  destruct (N.compare_spec (N_of_ascii c1) (N_of_ascii c2)) as [H12 | H12 | H12];
    destruct (N.compare_spec (N_of_ascii c2) (N_of_ascii c3)) as [H23 | H23 | H23];
    try congruence; intros H1 H2.
  - rewrite H12, H23, N.compare_refl. eapply IH; eauto.
  - rewrite (proj2 (N.compare_lt_iff _ _)) by lia. discriminate.
  - rewrite (proj2 (N.compare_lt_iff _ _)) by lia. discriminate.
  - rewrite (proj2 (N.compare_lt_iff _ _)) by lia. discriminate.
Qed.

Lemma string_compare_lt_trans (s1 s2 s3 : string) :
  String.compare s1 s2 = Lt -> String.compare s2 s3 = Lt -> String.compare s1 s3 = Lt.
Proof.
  intros H12 H23.
  assert (String.compare s1 s3 <> Gt) as Hle
    by (apply (string_compare_le_trans s1 s2 s3); congruence).
  destruct (String.compare s1 s3) eqn:H13; [| reflexivity | congruence].
  apply String.compare_eq_iff in H13. subst s3.
  rewrite String.compare_antisym, H12 in H23. discriminate.
Qed.

Lemma name_compare_eq (a b : option string) : name_compare a b = Eq -> a = b.
Proof.
  destruct a, b; simpl; try discriminate; [| reflexivity].
  intros H. apply String.compare_eq_iff in H. congruence.
Qed.

Lemma name_compare_lt_trans (a b c : option string) :
  name_compare a b = Lt -> name_compare b c = Lt -> name_compare a c = Lt.
Proof.
  destruct a, b, c; simpl; try discriminate; try reflexivity.
  apply string_compare_lt_trans.
Qed.

Lemma key_le_trans (r1 r2 r3 : record) :
  key_le r1 r2 = true -> key_le r2 r3 = true -> key_le r1 r3 = true.
Proof.
  unfold key_le.
  destruct (name_compare (Name r1) (Name r2)) eqn:H12; try discriminate;
    destruct (name_compare (Name r2) (Name r3)) eqn:H23; try discriminate.
  - apply name_compare_eq in H12. rewrite H12, H23.
    unfold String.leb. intros Ha Hb.
    pose proof (string_compare_le_trans (Project r1) (Project r2) (Project r3)) as Ht.
    destruct (String.compare (Project r1) (Project r2)); try discriminate;
      destruct (String.compare (Project r2) (Project r3)); try discriminate;
      destruct (String.compare (Project r1) (Project r3)); try reflexivity;
      exfalso; apply Ht; congruence.
  - apply name_compare_eq in H12. rewrite H12, H23. reflexivity.
  - apply name_compare_eq in H23. rewrite <- H23, H12. reflexivity.
  - rewrite (name_compare_lt_trans _ _ _ H12 H23). reflexivity.
Qed.

(** Sorted in the strong sense: every record is at most every later one. *)
Lemma sort_values_strongly_sorted (l : list record) :
  StronglySorted (fun a b => key_le a b = true) (sort_values l).
Proof.
  apply Sorted_StronglySorted; [| apply sort_values_sorted].
  intros r1 r2 r3. apply key_le_trans.
Qed.

Lemma cons_eq_inv {A : Type} (x y : A) (l k : list A) :
  x :: l = y :: k -> x = y /\ l = k.
Proof. intros H. split; congruence. Qed.

Lemma key_le_shape (r1 r2 x1 x2 : record) :
  shape r1 = shape r2 -> shape x1 = shape x2 -> key_le r1 x1 = key_le r2 x2.
Proof.
  unfold shape, key_le. intros H1 H2. inversion H1. inversion H2. congruence.
Qed.

Lemma insert_record_shape (r1 r2 : record) (l1 l2 : list record) :
  shape r1 = shape r2 -> shape <$> l1 = shape <$> l2 ->
  shape <$> insert_record r1 l1 = shape <$> insert_record r2 l2.
Proof.
  intros Hr. revert l2. induction l1 as [| x1 l1 IH]; intros [| x2 l2] Hl;
    try discriminate; simpl in *.
  - f_equal; exact Hr.
  - destruct (cons_eq_inv _ _ _ _ Hl) as [Hx Hl'].
    rewrite (key_le_shape r1 r2 x1 x2 Hr Hx).
    destruct (key_le r2 x2); simpl.
    + f_equal; [exact Hr |]. f_equal; [exact Hx | exact Hl'].
    + f_equal; [exact Hx | apply IH; exact Hl'].
Qed.

(** Sorting looks at the keys only. *)
Lemma sort_values_shape (l1 l2 : list record) :
  shape <$> l1 = shape <$> l2 -> shape <$> sort_values l1 = shape <$> sort_values l2.
Proof.
  revert l2. induction l1 as [| r1 l1 IH]; intros [| r2 l2] Hl; try discriminate;
    simpl in *; [reflexivity |].
  destruct (cons_eq_inv _ _ _ _ Hl) as [Hr Hl']. apply insert_record_shape; auto.
Qed.

(** ** Columns and the conversion loop *)

Lemma get_column_In (col : string) (d : DataFrame) (c : column) :
  get_column col d = Some c -> In (col, c) (columns d).
Proof.
  unfold get_column. destruct (List.find _ (columns d)) as [[l c'] |] eqn:Hf; [| discriminate].
  apply find_some in Hf. destruct Hf as [Hin Heq]. simpl in *.
  apply String.eqb_eq in Heq. subst. intros H. inversion H; subst. exact Hin.
Qed.

Lemma get_column_Some (col : string) (d : DataFrame) :
  In col (labels d) -> exists c, get_column col d = Some c.
Proof.
  unfold labels, get_column. induction (columns d) as [| [l c] cs IH]; simpl; [tauto |].
  intros H. destruct (String.eqb_spec l col) as [-> | Hne]; [eauto |].
  destruct H as [H | H]; [contradiction | auto].
Qed.

Lemma get_column_set_eq (col : string) (c c0 : column) (d : DataFrame) :
  get_column col d = Some c0 -> get_column col (set_column col c d) = Some c.
Proof.
  unfold get_column, set_column. simpl.
  induction (columns d) as [| [l c'] cs IH]; simpl; [discriminate |].
  destruct (String.eqb_spec l col) as [-> | Hne]; simpl.
  - rewrite String.eqb_refl. reflexivity.
  - destruct (String.eqb_spec l col); [contradiction | exact IH].
Qed.

Lemma get_column_set_ne (col col' : string) (c : column) (d : DataFrame) :
  col <> col' -> get_column col' (set_column col c d) = get_column col' d.
Proof.
  intros Hne. unfold get_column, set_column. simpl.
  induction (columns d) as [| [l c'] cs IH]; simpl; [reflexivity |].
  destruct (String.eqb_spec l col) as [-> | Hl]; simpl.
  - destruct (String.eqb_spec col col'); [contradiction | exact IH].
  - destruct (String.eqb l col'); [reflexivity | exact IH].
Qed.

Lemma labels_set_column (col : string) (c : column) (d : DataFrame) :
  labels (set_column col c d) = labels d.
Proof.
  unfold labels, set_column. simpl.
  induction (columns d) as [| [l c'] cs IH]; simpl; [reflexivity |].
  destruct (String.eqb l col); simpl; f_equal; exact IH.
Qed.

Lemma same_layout_refl (d : DataFrame) : same_layout d d.
Proof. repeat split. Qed.

Lemma same_layout_trans (d1 d2 d3 : DataFrame) :
  same_layout d1 d2 -> same_layout d2 d3 -> same_layout d1 d3.
Proof. unfold same_layout. intros (? & ? & ?) (? & ? & ?). repeat split; congruence. Qed.

Lemma convert_step_layout (col : string) (d d' : DataFrame) :
  convert_step col d = Return d' -> same_layout d d'.
Proof.
  unfold convert_step. destruct (get_column col d) as [c |]; [| discriminate].
  destruct (astype_float c) as [xs |]; [| discriminate].
  intros H. inversion H; subst. repeat split. apply labels_set_column.
Qed.

Lemma convert_all_layout (cols : list string) : forall (d d' : DataFrame) (o : outcome unit),
  convert_all cols d = (o, d') -> same_layout d d'.
Proof.
  induction cols as [| col cols IH]; intros d d' o H; simpl in H.
  - inversion H; subst. apply same_layout_refl.
  - destruct (convert_step col d) as [d1 | e] eqn:Hs.
    + eapply same_layout_trans; [eapply convert_step_layout; eauto | eapply IH; eauto].
    + inversion H; subst. apply same_layout_refl.
Qed.

Lemma same_layout_has_column (d d' : DataFrame) (col : string) :
  same_layout d d' -> has_column col d' = has_column col d.
Proof. unfold same_layout, has_column. intros (-> & _ & ->). reflexivity. Qed.

Lemma same_layout_non_name (d d' : DataFrame) :
  same_layout d d' -> non_name_columns d' = non_name_columns d.
Proof. unfold same_layout, non_name_columns. intros (_ & _ & ->). reflexivity. Qed.

Lemma non_name_columns_In (col : string) (d : DataFrame) :
  In col (non_name_columns d) <-> In col (labels d) /\ col <> "Name".
Proof.
  unfold non_name_columns. rewrite filter_In.
  destruct (String.eqb_spec col "Name"); simpl; intuition congruence.
Qed.

(** *** Dropping the ignored columns *)

Lemma existsb_labels_filter (col col' : string) (cs : list (string * column)) :
  col <> col' ->
  existsb (String.eqb col)
          (fst <$> List.filter (fun lc => negb (String.eqb (fst lc) col')) cs)
  = existsb (String.eqb col) (fst <$> cs).
Proof.
  intros Hne. induction cs as [| [l c] cs IH]; [reflexivity |].
  cbn [List.filter fst]. destruct (String.eqb_spec l col') as [-> | Hl]; cbn [negb].
  - rewrite IH. cbn. destruct (String.eqb_spec col col'); [contradiction | reflexivity].
  - cbn. cbn in IH. rewrite IH. reflexivity.
Qed.

Lemma has_column_drop_ne (col col' : string) (d : DataFrame) :
  col <> col' -> has_column col (drop_column col' d) = has_column col d.
Proof.
  intros Hne. unfold has_column, drop_column, labels. cbn [name_column columns].
  rewrite existsb_labels_filter by exact Hne. reflexivity.
Qed.

Lemma dropped_existsb (cols : list string) : forall d : DataFrame,
  List.NoDup cols ->
  dropped cols d = existsb (fun col => has_column col d) cols.
Proof.
  induction cols as [| col cols IH]; intros d Hnd; simpl; [reflexivity |].
  inversion Hnd as [| ? ? Hnotin Hnd']; subst.
  rewrite (IH _ Hnd'). f_equal.
  destruct (has_column col d); [| reflexivity].
  clear IH Hnd Hnd'. induction cols as [| c cols IH]; simpl; [reflexivity |].
  rewrite has_column_drop_ne by (intros ->; apply Hnotin; left; reflexivity).
  f_equal. apply IH. intros H. apply Hnotin. right. exact H.
Qed.

Lemma IGNORED_COLUMNS_NoDup : List.NoDup IGNORED_COLUMNS.
Proof.
  unfold IGNORED_COLUMNS.
  repeat (constructor; [simpl; intuition discriminate |]). constructor.
Qed.

Lemma drop_all_kept (cols : list string) : forall d : DataFrame,
  dropped cols d = false -> drop_all cols d = d.
Proof.
  induction cols as [| col cols IH]; intros d H; simpl in *; [reflexivity |].
  destruct (has_column col d); [discriminate | auto].
Qed.

(** *** A converted frame *)

Lemma settled_step (P : string -> Prop) (col : string) (d d' : DataFrame) :
  settled P d -> convert_step col d = Return d' ->
  settled (fun l => l = col \/ P l) d'.
Proof.
  intros Hs Hc. unfold convert_step in Hc.
  destruct (get_column col d) as [c0 |] eqn:Hg; [| discriminate].
  destruct (astype_float c0) as [xs |]; [| discriminate].
  inversion Hc; subst; clear Hc.
  intros l c Hin HP. simpl in Hin.
  apply in_map_iff in Hin. destruct Hin as ([l0 c1] & Heq & Hin). simpl in Heq.
  destruct (String.eqb_spec l0 col) as [-> | Hne].
  - inversion Heq; subst. split; [| eauto]. eapply get_column_set_eq; eauto.
  - inversion Heq; subst. destruct HP as [-> | HP]; [contradiction |].
    rewrite get_column_set_ne by congruence. apply Hs; assumption.
Qed.

Lemma settled_all (cols : list string) : forall (P : string -> Prop) (d d' : DataFrame),
  settled P d -> convert_all cols d = (Return tt, d') ->
  settled (fun l => In l cols \/ P l) d'.
Proof.
  induction cols as [| col cols IH]; intros P d d' Hs Hc; simpl in Hc.
  - inversion Hc; subst. intros l c Hin [[] | HP]. apply Hs; assumption.
  - destruct (convert_step col d) as [d1 | e] eqn:Hstep; [| discriminate].
    pose proof (IH _ _ _ (settled_step _ _ _ _ Hs Hstep) Hc) as H.
    intros l c Hin HP. apply H; [exact Hin |]. simpl in HP. intuition auto.
Qed.

Lemma list_fmap_fixed {A : Type} (f : A -> A) (l : list A) :
  (forall x, In x l -> f x = x) -> f <$> l = l.
Proof.
  induction l as [| x l IH]; intros H; [reflexivity |].
  cbn. rewrite (H x) by (left; reflexivity). f_equal.
  apply IH. intros y Hy. apply H. right. exact Hy.
Qed.

Lemma set_column_settled (P : string -> Prop) (col : string) (xs : list float) (d : DataFrame) :
  settled P d -> P col -> get_column col d = Some (ColFloat xs) ->
  set_column col (ColFloat xs) d = d.
Proof.
  intros Hs HP Hg. unfold set_column.
  rewrite list_fmap_fixed; [destruct d; reflexivity |].
  intros [l c] Hin. cbn [fst].
  destruct (String.eqb_spec l col) as [-> | Hne]; [| reflexivity].
  destruct (Hs col c Hin HP) as [Hc _]. congruence.
Qed.

(** Converting settled columns again changes nothing. *)
Lemma convert_all_settled (P : string -> Prop) (cols : list string) (d : DataFrame) :
  settled P d -> (forall col, In col cols -> P col /\ In col (labels d)) ->
  convert_all cols d = (Return tt, d).
Proof.
  intros Hs. induction cols as [| col cols IH]; intros Hcols; simpl; [reflexivity |].
  destruct (Hcols col (or_introl eq_refl)) as [HP Hl].
  destruct (get_column_Some col d Hl) as [c Hg].
  destruct (Hs col c (get_column_In _ _ _ Hg) HP) as [_ [xs ->]].
  unfold convert_step. rewrite Hg. simpl.
  rewrite (set_column_settled P col xs d Hs HP Hg).
  apply IH. intros col' Hin. apply Hcols. right. exact Hin.
Qed.

Lemma convert_all_again (d d' : DataFrame) :
  convert_all (non_name_columns d) d = (Return tt, d') ->
  convert_all (non_name_columns d') d' = (Return tt, d').
Proof.
  intros Hc.
  pose proof (convert_all_layout _ _ _ _ Hc) as Hl.
  assert (settled (fun _ => False) d) as H0 by (intros ? ? ? []).
  pose proof (settled_all _ _ _ _ H0 Hc) as Hs.
  apply (convert_all_settled _ _ _ Hs).
  intros col Hin. rewrite (same_layout_non_name _ _ Hl) in Hin.
  split; [left; exact Hin |].
  apply non_name_columns_In in Hin. destruct Hl as (_ & _ & ->). tauto.
Qed.

(** What the label [col] selects once the loop is through. *)
Lemma convert_all_get (cols : list string) : forall (d d' : DataFrame) (col : string),
  convert_all cols d = (Return tt, d') ->
  (In col cols ->
   exists c xs, get_column col d = Some c /\ astype_float c = Some xs /\
                get_column col d' = Some (ColFloat xs))
  /\ (~ In col cols -> get_column col d' = get_column col d).
Proof.
  induction cols as [| col0 cols IH]; intros d d' col Hc; simpl in Hc.
  - inversion Hc; subst. split; [intros [] | reflexivity].
  - destruct (convert_step col0 d) as [d1 | e] eqn:Hstep; [| discriminate].
    unfold convert_step in Hstep.
    destruct (get_column col0 d) as [c0 |] eqn:Hg0; [| discriminate].
    destruct (astype_float c0) as [xs0 |] eqn:Ha0; [| discriminate].
    inversion Hstep; subst d1; clear Hstep.
    destruct (IH _ _ col Hc) as [Hin Hout].
    destruct (String.eqb_spec col0 col) as [-> | Hne].
    + split; [intros _ | intros H; exfalso; apply H; left; reflexivity].
      exists c0, xs0. repeat split; auto.
      destruct (in_dec string_dec col cols) as [Hi | Hi].
      * destruct (Hin Hi) as (c & xs & Hg & Ha & Hg').
        rewrite (get_column_set_eq _ _ _ _ Hg0) in Hg. inversion Hg; subst c.
        simpl in Ha. inversion Ha; subst. exact Hg'.
      * rewrite (Hout Hi). eapply get_column_set_eq; eauto.
    + rewrite get_column_set_ne in Hin, Hout by exact Hne.
      split.
      * intros [H | H]; [contradiction | auto].
      * intros H. apply Hout. intros Hi. apply H. right. exact Hi.
Qed.

(** Once the loop is through, every label other than ['Name'] selects a
    float column. *)
Lemma converted_columns_are_float (d d' : DataFrame) (col : string) :
  convert_all (non_name_columns d) d = (Return tt, d') ->
  In col (non_name_columns d') ->
  exists xs, get_column col d' = Some (ColFloat xs).
Proof.
  intros Hc Hin.
  rewrite (same_layout_non_name _ _ (convert_all_layout _ _ _ _ Hc)) in Hin.
  destruct (convert_all_get _ _ _ col Hc) as [H _].
  destruct (H Hin) as (c & xs & _ & _ & Hg). eauto.
Qed.

(** A text entry that [float] rejects stops the loop. *)
Lemma convert_all_raises (cols : list string) : forall (d : DataFrame) (col : string) (c : column),
  In col cols -> get_column col d = Some c -> astype_float c = None ->
  exists e, fst (convert_all cols d) = Raise e.
Proof.
  induction cols as [| col0 cols IH]; intros d col c Hin Hg Ha; [contradiction |].
  simpl. destruct (convert_step col0 d) as [d1 | e] eqn:Hstep; [| eauto].
  unfold convert_step in Hstep.
  destruct (get_column col0 d) as [c0 |] eqn:Hg0; [| discriminate].
  destruct (astype_float c0) as [xs0 |] eqn:Ha0; [| discriminate].
  inversion Hstep; subst d1; clear Hstep.
  destruct (String.eqb_spec col0 col) as [-> | Hne]; [congruence |].
  apply (IH _ col c).
  - destruct Hin; [contradiction | assumption].
  - rewrite get_column_set_ne by exact Hne. exact Hg.
  - exact Ha.
Qed.

(** ** What a run returns *)

Lemma run_dangling (bq : collaborators) (r : ref) (m y : string) (s : state) :
  heap s !! r = None -> process_allocation_csv bq r m y s = (Raise Dangling, s).
Proof.
  intros H. unfold process_allocation_csv, IGNORED_COLUMNS.
  rewrite bind_run. simpl drop_ignored. rewrite bind_run.
  unfold deref. rewrite H. reflexivity.
Qed.

Lemma run_Return (bq : collaborators) (r : ref) (m y : string) (s s' : state)
    (out : list record) :
  process_allocation_csv bq r m y s = (Return out, s') ->
  exists d d2 processed,
    heap s !! r = Some d
    /\ convert_all (non_name_columns (drop_all IGNORED_COLUMNS d)) (drop_all IGNORED_COLUMNS d)
       = (Return tt, d2)
    /\ iterrows (fst (fetched bq m y)) d2 (non_name_columns d2) = Return processed
    /\ out = sort_values processed.
Proof.
  intros Hrun.
  destruct (heap s !! r) as [d |] eqn:Hr.
  2:{ rewrite (run_dangling _ _ _ _ _ Hr) in Hrun. discriminate. }
  destruct (run_spec bq r m y s d Hr) as (r' & extra & _ & _ & Heq).
  cbv zeta in Heq. rewrite Heq in Hrun. clear Heq.
  destruct (convert_all _ (drop_all IGNORED_COLUMNS d)) as [o d2] eqn:Hc. simpl in Hrun.
  destruct o as [[] | e]; [| discriminate].
  destruct (valid_users bq); [| discriminate].
  destruct (iterrows _ d2 _) as [processed | e] eqn:Hit; [| discriminate].
  inversion Hrun; subst. exists d, d2, processed. auto.
Qed.

(** Every record a run returns was appended for an allocated cell. *)
Lemma run_record (bq : collaborators) (r : ref) (m y : string) (s s' : state)
    (out : list record) (rec : record) :
  process_allocation_csv bq r m y s = (Return out, s') -> In rec out ->
  exists col,
    allocated (Expected_Hours rec) = true /\
    standardize (fst (fetched bq m y)) (Name rec) col = Return (Project rec, Actual_Hours rec) /\
    Completion rec = completion_percentage (Actual_Hours rec) (Expected_Hours rec).
Proof.
  intros Hrun Hin.
  destruct (run_Return _ _ _ _ _ _ _ Hrun) as (d & d2 & processed & _ & _ & Hit & ->).
  apply (proj1 (sort_values_In _ _)) in Hin.
  destruct (iterrows_In _ _ _ _ _ Hit Hin) as (i & col & _ & _ & Hc).
  apply cell_records_In in Hc. destruct Hc as (Hx & Hs & Hn & He & Hcomp).
  exists col. rewrite Hn, He. auto.
Qed.

Lemma allocated_positive (x : float) : allocated x = true -> F64.ltb F64.zero x = true.
Proof. unfold allocated. intros H. apply andb_true_iff in H. tauto. Qed.

(** C1. Every record a run returns has positive expected hours, and its
    completion percentage is [min(round(actual / expected * 100, 2), 100)]
    of its own actual and expected hours; with 10 expected and 15 actual
    hours that is the int 100. *)
Theorem completion_is_capped_ratio (bq : collaborators) (df : ref) (m y : string)
    (s s' : state) (out : list record) (rec : record)
    (Hrun : process_allocation_csv bq df m y s = (Return out, s'))
    (Hin : In rec out) :
  (F64.ltb F64.zero (Expected_Hours rec) = true /\
   Completion rec =
     py_min (PFloat (F64.round2
                       (F64.mul (py_truediv (Actual_Hours rec) (Expected_Hours rec))
                                (F64.of_int 100))))
            (PInt 100))
  /\ completion_percentage (PFloat (F64.of_int 15)) (F64.of_int 10) = PInt 100.
Proof.
  split; [| vm_compute; reflexivity].
  destruct (run_record _ _ _ _ _ _ _ _ Hrun Hin) as (col & Hx & _ & Hc).
  apply allocated_positive in Hx. split; [exact Hx |].
  rewrite Hc. unfold completion_percentage. rewrite Hx. reflexivity.
Qed.

Lemma completion_is_capped_ratio_witness :
  process_allocation_csv (warehouse ann_lookup) 0%nat "Mar" "2025" (holding ann_sheet)
    = (Return [ann_record],
       holding (one_cell "Ann" "SDI" (ColFloat [F64.of_int 10])))
  /\ In ann_record [ann_record]
  /\ Completion ann_record = PInt 100.
Proof.
  assert (process_allocation_csv (warehouse ann_lookup) 0%nat "Mar" "2025" (holding ann_sheet)
          = (Return [ann_record],
             holding (one_cell "Ann" "SDI" (ColFloat [F64.of_int 10])))) as Hrun
    by (vm_compute; reflexivity).
  assert (In ann_record [ann_record]) as Hin by (left; reflexivity).
  split; [exact Hrun |]. split; [exact Hin |].
  destruct (completion_is_capped_ratio _ _ _ _ _ _ _ _ Hrun Hin) as [[_ Hc] _].
  rewrite Hc. vm_compute. reflexivity.
Defined.

(** ** Non-negative hours *)












(** The spec's end-to-end example: {Alice, SDI, 20.0, 15.0, 75.0}. *)
Lemma alice_report :
  fst (process_allocation_csv (warehouse alice_lookup) 0%nat "Mar" "2025" (holding alice_sheet))
  = Return [ {| Name := Some "Alice"; Project := "SDI"; Expected_Hours := F64.of_int 20;
                Actual_Hours := PFloat (F64.of_int 15);
                Completion := PFloat (F64.of_int 75) |} ].
Proof. vm_compute. reflexivity. Qed.

(** ** Running twice *)

Lemma existsb_has_column_layout (d d' : DataFrame) (cols : list string) :
  same_layout d d' ->
  existsb (fun col => has_column col d') cols = existsb (fun col => has_column col d) cols.
Proof.
  intros Hl. induction cols as [| col cols IH]; simpl; [reflexivity |].
  rewrite (same_layout_has_column _ _ col Hl), IH. reflexivity.
Qed.

Lemma dropped_layout (d d' : DataFrame) :
  same_layout d d' -> dropped IGNORED_COLUMNS d' = dropped IGNORED_COLUMNS d.
Proof.
  intros Hl.
  rewrite (dropped_existsb _ d' IGNORED_COLUMNS_NoDup), (dropped_existsb _ d IGNORED_COLUMNS_NoDup).
  apply existsb_has_column_layout. exact Hl.
Qed.

(** C5. The records a run returns are in ascending order of (name,
    project), each at most every later one, and a second run with the same arguments, started where the
    first one ended, returns the same records in the same order. *)
Theorem output_sorted_and_reproducible (bq : collaborators) (df : ref) (m y : string)
    (s s1 : state) (out : list record)
    (Hrun : process_allocation_csv bq df m y s = (Return out, s1)) :
  StronglySorted (fun a b => key_le a b = true) out
  /\ exists s2, process_allocation_csv bq df m y s1 = (Return out, s2).
Proof.
  split.
  { destruct (run_Return _ _ _ _ _ _ _ Hrun) as (d & d2 & processed & _ & _ & _ & ->).
    apply sort_values_strongly_sorted. }
  destruct (heap s !! df) as [d |] eqn:Hdf.
  2:{ rewrite (run_dangling _ _ _ _ _ Hdf) in Hrun. discriminate. }
  destruct (run_spec bq df m y s d Hdf) as (r' & extra & Hfresh & Hlook & Heq).
  cbv zeta in Heq. rewrite Heq in Hrun. clear Heq.
  destruct (convert_all _ (drop_all IGNORED_COLUMNS d)) as [o d2] eqn:Hc.
  simpl fst in Hrun. simpl snd in Hrun.
  destruct o as [[] | e]; [| discriminate].
  destruct (valid_users bq) as [users | e] eqn:Hu; [| discriminate].
  destruct (iterrows _ d2 _) as [processed | e] eqn:Hit; [| discriminate].
  injection Hrun as Hout Hs1.
  assert (df < length (heap s))%nat as Hlt by (eapply lookup_lt_Some; eauto).
  assert (r' < length (heap s ++ extra))%nat as Hlt' by (eapply lookup_lt_Some; eauto).
  destruct (dropped IGNORED_COLUMNS d) eqn:Hd.
  - (* the first run worked on a copy: the caller's frame is as it was *)
    assert (heap s1 !! df = Some d) as Hdf1.
    { rewrite <- Hs1. simpl. rewrite list_lookup_insert_ne by lia.
      rewrite lookup_app_l by lia. exact Hdf. }
    destruct (run_spec bq df m y s1 d Hdf1) as (r2 & extra2 & _ & _ & Heq).
    cbv zeta in Heq. rewrite Hc, Hu in Heq. simpl fst in Heq. simpl snd in Heq.
    rewrite Hit in Heq. rewrite Heq, <- Hout. eexists. reflexivity.
  - (* the first run converted the caller's frame in place *)
    destruct Hfresh as [-> ->]. rewrite app_nil_r in *.
    rewrite (drop_all_kept _ _ Hd) in *.
    assert (heap s1 !! df = Some d2) as Hdf1.
    { rewrite <- Hs1. simpl. apply list_lookup_insert_eq. exact Hlt. }
    pose proof (convert_all_layout _ _ _ _ Hc) as Hl.
    destruct (run_spec bq df m y s1 d2 Hdf1) as (r2 & extra2 & _ & _ & Heq).
    cbv zeta in Heq.
    rewrite (drop_all_kept IGNORED_COLUMNS d2) in Heq
      by (rewrite (dropped_layout _ _ Hl); exact Hd).
    rewrite (convert_all_again _ _ Hc), Hu in Heq. simpl fst in Heq. simpl snd in Heq.
    rewrite Hit in Heq. rewrite Heq, <- Hout. eexists. reflexivity.
Qed.

Lemma output_sorted_and_reproducible_witness :
  process_allocation_csv (warehouse ann_lookup) 0%nat "Mar" "2025" (holding team_sheet)
    = (Return team_report, {| heap := [team_sheet; team_copy]; warnings := [] |})
  /\ StronglySorted (fun a b => key_le a b = true) team_report
  /\ exists s2,
       process_allocation_csv (warehouse ann_lookup) 0%nat "Mar" "2025"
         {| heap := [team_sheet; team_copy]; warnings := [] |}
       = (Return team_report, s2).
Proof.
  assert (process_allocation_csv (warehouse ann_lookup) 0%nat "Mar" "2025" (holding team_sheet)
          = (Return team_report, {| heap := [team_sheet; team_copy]; warnings := [] |}))
    as Hrun by (vm_compute; reflexivity).
  split; [exact Hrun |].
  exact (output_sorted_and_reproducible _ _ _ _ _ _ _ Hrun).
Defined.

(** ** The caller's frame *)

(** C9, as amended. A run leaves the caller's frame as it was when the
    frame has one of the ignored columns (the run then works on the copy
    [drop] returns), however the run ends. When the frame has none, a run
    that returns has replaced, in the caller's frame, every column other
    than ['Name'] by its conversion to float; the ['Name'] column, the
    index and the labels stay. No other frame of the heap is touched. *)
Theorem caller_frame_after_run (bq : collaborators) (df : ref) (m y : string)
    (s s' : state) (d : DataFrame) (o : outcome (list record))
    (Hdf : heap s !! df = Some d)
    (Hrun : process_allocation_csv bq df m y s = (o, s')) :
  (existsb (fun col => has_column col d) IGNORED_COLUMNS = true ->
   heap s' !! df = Some d)
  /\ (existsb (fun col => has_column col d) IGNORED_COLUMNS = false ->
      forall out, o = Return out ->
      exists d', heap s' !! df = Some d' /\ same_layout d d' /\
        forall col c, col <> "Name" -> get_column col d = Some c ->
          exists xs, astype_float c = Some xs /\ get_column col d' = Some (ColFloat xs))
  /\ (forall r, r <> df -> (r < length (heap s))%nat -> heap s' !! r = heap s !! r).
Proof.
  destruct (run_spec bq df m y s d Hdf) as (r' & extra & Hfresh & Hlook & Heq).
  cbv zeta in Heq. rewrite Heq in Hrun. clear Heq.
  rewrite dropped_existsb in Hfresh by apply IGNORED_COLUMNS_NoDup.
  assert (df < length (heap s))%nat as Hlt by (eapply lookup_lt_Some; eauto).
  set (d1 := drop_all IGNORED_COLUMNS d) in *.
  destruct (convert_all (non_name_columns d1) d1) as [oc d2] eqn:Hc.
  simpl fst in Hrun. simpl snd in Hrun.
  assert (heap s' = <[r' := d2]> (heap s ++ extra)%list) as Hheap.
  { destruct oc as [[] | e]; [destruct (valid_users bq) |];
      inversion Hrun; reflexivity. }
  split; [| split].
  - intros Hex. rewrite Hex in Hfresh.
    rewrite Hheap, list_lookup_insert_ne by lia.
    rewrite lookup_app_l by lia. exact Hdf.
  - intros Hex out ->. rewrite Hex in Hfresh. destruct Hfresh as [-> ->].
    rewrite app_nil_r in *.
    assert (d1 = d) as Hd1.
    { apply drop_all_kept. rewrite dropped_existsb by apply IGNORED_COLUMNS_NoDup. exact Hex. }
    rewrite Hd1 in Hc.
    destruct oc as [[] | e]; [| discriminate].
    exists d2. split; [rewrite Hheap; apply list_lookup_insert_eq; exact Hlt |].
    split; [eapply convert_all_layout; eauto |].
    intros col c Hne Hg.
    destruct (convert_all_get _ _ _ col Hc) as [Hin _].
    destruct Hin as (c' & xs & Hg' & Ha & Hg2).
    { apply non_name_columns_In. split; [| exact Hne].
      apply get_column_In in Hg. unfold labels.
      apply in_map_iff. exists (col, c). auto. }
    exists xs. split; [congruence | exact Hg2].
  - intros r Hne Hr. rewrite Hheap.
    destruct (existsb _ IGNORED_COLUMNS).
    + rewrite list_lookup_insert_ne by lia. apply lookup_app_l. exact Hr.
    + destruct Hfresh as [-> ->]. rewrite app_nil_r.
      apply list_lookup_insert_ne. congruence.
Qed.

Lemma caller_frame_after_run_witness :
  heap (holding ann_sheet) !! 0%nat = Some ann_sheet
  /\ process_allocation_csv (warehouse ann_lookup) 0%nat "Mar" "2025" (holding ann_sheet)
     = (Return [ann_record],
        holding (one_cell "Ann" "SDI" (ColFloat [F64.of_int 10])))
  /\ exists d',
       heap (holding (one_cell "Ann" "SDI" (ColFloat [F64.of_int 10]))) !! 0%nat = Some d'
       /\ same_layout ann_sheet d'
       /\ exists xs, astype_float (ColInt [10]) = Some xs
                     /\ get_column "SDI" d' = Some (ColFloat xs).
Proof.
  assert (heap (holding ann_sheet) !! 0%nat = Some ann_sheet) as Hdf by reflexivity.
  assert (process_allocation_csv (warehouse ann_lookup) 0%nat "Mar" "2025" (holding ann_sheet)
          = (Return [ann_record],
             holding (one_cell "Ann" "SDI" (ColFloat [F64.of_int 10])))) as Hrun
    by (vm_compute; reflexivity).
  split; [exact Hdf |]. split; [exact Hrun |].
  destruct (caller_frame_after_run _ _ _ _ _ _ _ _ Hdf Hrun) as (_ & Hconv & _).
  destruct (Hconv eq_refl _ eq_refl) as (d' & Hd' & Hl & Hcols).
  exists d'. split; [exact Hd' |]. split; [exact Hl |].
  apply (Hcols "SDI" (ColInt [10])); [discriminate | reflexivity].
Defined.

(** C9, at a sheet without ignored columns: the run returns, and the
    caller's frame now holds a float column where it held the int column. *)
Lemma caller_frame_mutated :
  fst (process_allocation_csv (warehouse ann_lookup) 0%nat "Mar" "2025" (holding ann_sheet))
    = Return [ann_record]
  /\ heap (snd (process_allocation_csv (warehouse ann_lookup) 0%nat "Mar" "2025"
                  (holding ann_sheet))) !! 0%nat
     <> heap (holding ann_sheet) !! 0%nat.
Proof.
  split; [vm_compute; reflexivity |].
  intros H. vm_compute in H. discriminate H.
Qed.

(** ** The lookup and the shape of the output *)

Lemma cell_records_shape (l1 l2 : gmap (string * string) float)
    (n : option string) (col : string) (x : float) :
  shape <$> cell_records l1 n col x = shape <$> cell_records l2 n col x.
Proof.
  destruct (allocated x) eqn:Hx.
  - destruct (standardize_project l1 l2 n col) as (p & a1 & a2 & H1 & H2).
    unfold cell_records, process_cell. rewrite Hx, H1, H2. reflexivity.
  - rewrite !cell_records_skipped by exact Hx. reflexivity.
Qed.

Lemma fmap_flat_map {A B C : Type} (g : B -> C) (f : A -> list B) (l : list A) :
  g <$> flat_map f l = flat_map (fun x => g <$> f x) l.
Proof.
  induction l as [| x l IH]; [reflexivity |].
  cbn [flat_map]. rewrite fmap_app, IH. reflexivity.
Qed.

Lemma flat_map_ext_all {A B : Type} (f g : A -> list B) (l : list A) :
  (forall x, f x = g x) -> flat_map f l = flat_map g l.
Proof.
  intros H. induction l as [| x l IH]; [reflexivity |].
  cbn [flat_map]. rewrite H, IH. reflexivity.
Qed.

Lemma iterrows_shape (l1 l2 : gmap (string * string) float) (d : DataFrame)
    (cols : list string) :
  match iterrows l1 d cols, iterrows l2 d cols with
  | Return p1, Return p2 => shape <$> p1 = shape <$> p2
  | Raise e1, Raise e2 => e1 = e2
  | _, _ => False
  end.
Proof.
  destruct (name_column d) as [names |] eqn:Hn.
  - rewrite !(iterrows_spec _ _ _ _ Hn). rewrite !fmap_flat_map.
    apply flat_map_ext_all. intros i. unfold row_records. rewrite !fmap_flat_map.
    apply flat_map_ext_all. intros col. apply cell_records_shape.
  - rewrite !(iterrows_no_name _ _ _ Hn). destruct (nrows d); reflexivity.
Qed.

(** C10. Two runs that differ only in what the ticket warehouse replies
    end alike: both raise the same exception, or both return, and then the
    two outputs have the same length and the same names, projects and
    expected hours, row by row. *)
Theorem shape_independent_of_lookup (users : users_reply)
    (tickets1 tickets2 : string -> tickets_reply)
    (df : ref) (m y : string) (s : state) :
  match fst (process_allocation_csv {| get_users := users; jira_tickets := tickets1 |} df m y s),
        fst (process_allocation_csv {| get_users := users; jira_tickets := tickets2 |} df m y s)
  with
  | Return out1, Return out2 =>
      length out1 = length out2 /\ shape <$> out1 = shape <$> out2
  | Raise e1, Raise e2 => e1 = e2
  | _, _ => False
  end.
Proof.
  destruct (heap s !! df) as [d |] eqn:Hdf.
  2:{ rewrite !(run_dangling _ _ _ _ _ Hdf). reflexivity. }
  destruct (run_spec {| get_users := users; jira_tickets := tickets1 |} df m y s d Hdf)
    as (r1 & extra1 & _ & _ & Heq1).
  destruct (run_spec {| get_users := users; jira_tickets := tickets2 |} df m y s d Hdf)
    as (r2 & extra2 & _ & _ & Heq2).
  cbv zeta in Heq1, Heq2. rewrite Heq1, Heq2. clear Heq1 Heq2.
  destruct (convert_all _ (drop_all IGNORED_COLUMNS d)) as [o d2].
  cbn [fst snd].
  destruct o as [[] | e]; [| reflexivity].
  change (valid_users {| get_users := users; jira_tickets := tickets2 |})
    with (valid_users {| get_users := users; jira_tickets := tickets1 |}).
  destruct (valid_users _) as [u | e]; [| reflexivity].
  cbn [fst snd].
  pose proof (iterrows_shape
                (fst (fetched {| get_users := users; jira_tickets := tickets1 |} m y))
                (fst (fetched {| get_users := users; jira_tickets := tickets2 |} m y))
                d2 (non_name_columns d2)) as H.
  destruct (iterrows _ d2 _) as [p1 | e1]; destruct (iterrows _ d2 _) as [p2 | e2];
    cbn; try exact H.
  pose proof (sort_values_shape _ _ H) as Hs.
  split; [| exact Hs].
  rewrite !sort_values_length.
  apply (f_equal length) in H. rewrite !length_fmap in H. exact H.
Qed.

(** ** The combined column *)

Lemma get_column_drop_ne (col col' : string) (d : DataFrame) :
  col <> col' -> get_column col (drop_column col' d) = get_column col d.
Proof.
  intros Hne. unfold get_column, drop_column. cbn [columns]. f_equal.
  induction (columns d) as [| [l c] cs IH]; [reflexivity |].
  cbn [List.filter fst]. destruct (String.eqb_spec l col') as [-> | Hl]; cbn [negb].
  - rewrite IH. cbn [List.find fst].
    destruct (String.eqb_spec col' col); [congruence | reflexivity].
  - cbn [List.find fst]. rewrite IH. reflexivity.
Qed.

Lemma drop_all_get (cols : list string) (col : string) : forall d : DataFrame,
  ~ In col cols -> get_column col (drop_all cols d) = get_column col d.
Proof.
  induction cols as [| col' cols IH]; intros d Hnot; [reflexivity |].
  cbn [drop_all]. rewrite IH by (intros H; apply Hnot; right; exact H).
  destruct (has_column col' d); [| reflexivity].
  apply get_column_drop_ne. intros ->. apply Hnot. left. reflexivity.
Qed.

Lemma drop_all_index (cols : list string) : forall d : DataFrame,
  name_column (drop_all cols d) = name_column d /\ nrows (drop_all cols d) = nrows d.
Proof.
  induction cols as [| col cols IH]; intros d; [auto |].
  cbn [drop_all]. destruct (IH (if has_column col d then drop_column col d else d)) as [-> ->].
  destruct (has_column col d); auto.
Qed.

Lemma get_column_label (col : string) (d : DataFrame) (c : column) :
  get_column col d = Some c -> In col (labels d).
Proof.
  intros H. apply get_column_In in H. unfold labels.
  apply list_elem_of_In, list_elem_of_fmap. exists (col, c).
  split; [reflexivity | apply list_elem_of_In; exact H].
Qed.

Lemma iterrows_complete (lookup : gmap (string * string) float) (d : DataFrame)
    (cols : list string) (processed : list record) (i : nat) (col : string) (r : record) :
  iterrows lookup d cols = Return processed ->
  (i < nrows d)%nat -> In col cols ->
  In r (cell_records lookup (default None (default [] (name_column d) !! i)) col
                     (row_value d col i)) ->
  In r processed.
Proof.
  intros Hit Hi Hcol Hr.
  destruct (name_column d) as [names |] eqn:Hn.
  - rewrite (iterrows_spec _ _ _ _ Hn) in Hit. injection Hit as <-.
    apply in_flat_map. exists i. split; [apply in_seq; lia |].
    unfold row_records. apply in_flat_map. exists col. rewrite Hn. auto.
  - rewrite (iterrows_no_name _ _ _ Hn) in Hit.
    destruct (nrows d); [lia | discriminate].
Qed.

Lemma standardize_combined (lookup : gmap (string * string) float) (n : option string) :
  standardize lookup n "Vars/Vita."
  = Return ("VARS/Vitawerks",
            py_sum [lookup_get lookup n "VARS"; lookup_get lookup n "Vitawerks"]).
Proof. reflexivity. Qed.

Lemma positive_allocated (x : float) : F64.ltb F64.zero x = true -> allocated x = true.
Proof. unfold allocated. intros H. rewrite H. destruct x; try reflexivity; discriminate. Qed.

(** [sum([a, b])] is [a + b], up to the sign of a zero: from two negative
    zeros [sum] makes [0.0] and [+] makes [-0.0]. *)
Lemma py_sum_pair (a b : pynum) :
  py_sum [a; b] = py_add a b
  \/ (py_sum [a; b] = PFloat (S754_zero false) /\ py_add a b = PFloat (S754_zero true)).
Proof.
  unfold py_sum. cbn [fold_left].
  destruct a as [z | f].
  - left. cbn [py_add]. destruct z; reflexivity.
  - cbn [py_add to_float]. change (F64.of_int 0) with (S754_zero false).
    destruct f as [[] | s | | s m e]; try (left; reflexivity).
    change (F64.add (S754_zero false) (S754_zero true)) with (S754_zero false).
    destruct b as [z | g]; cbn [to_float].
    + destruct (F64.of_int z) as [[] | s | | s m e]; try (left; reflexivity).
      right. split; reflexivity.
    + destruct g as [[] | s | | s m e]; try (left; reflexivity).
      right. split; reflexivity.
Qed.

(** C2. For a row whose ['Vars/Vita.'] cell is positive, the loop appends
    exactly one record for that cell and the run returns it: its project
    is the label ['VARS/Vitawerks'], which is neither member name, and its
    actual hours are [sum] of the two lookups, that is their [+] up to the
    sign of a zero. Bob's row with 10 expected hours and 4 and 3 actual
    hours gives the single record {Bob, VARS/Vitawerks, 10.0, 7.0, 70.0}. *)
Theorem combined_column_record (bq : collaborators) (df : ref) (m y : string)
    (s s' : state) (d : DataFrame) (out : list record)
    (c : column) (xs : list float) (i : nat) (x : float)
    (Hdf : heap s !! df = Some d)
    (Hrun : process_allocation_csv bq df m y s = (Return out, s'))
    (Hcol : get_column "Vars/Vita." d = Some c)
    (Hconv : astype_float c = Some xs)
    (Hi : (i < nrows d)%nat)
    (Hx : xs !! i = Some x)
    (Hpos : F64.ltb F64.zero x = true) :
  let lookup := fst (fetched bq m y) in
  let employee := default None (default [] (name_column d) !! i) in
  let a := lookup_get lookup employee "VARS" in
  let b := lookup_get lookup employee "Vitawerks" in
  let rec := {| Name := employee; Project := "VARS/Vitawerks"; Expected_Hours := x;
                Actual_Hours := py_sum [a; b];
                Completion := completion_percentage (py_sum [a; b]) x |} in
  process_cell lookup employee "Vars/Vita." x = Return [rec]
  /\ In rec out
  /\ (py_sum [a; b] = py_add a b
      \/ (py_sum [a; b] = PFloat (S754_zero false) /\ py_add a b = PFloat (S754_zero true)))
  /\ "VARS/Vitawerks" <> "VARS" /\ "VARS/Vitawerks" <> "Vitawerks"
  /\ process_allocation_csv (warehouse bob_lookup) 0%nat "Mar" "2025" (holding bob_sheet)
     = (Return [bob_record],
        holding (one_cell "Bob" "Vars/Vita." (ColFloat [F64.of_int 10]))).
Proof.
  intros lookup employee a b rec.
  pose proof (positive_allocated x Hpos) as Hal.
  assert (process_cell lookup employee "Vars/Vita." x = Return [rec]) as Hcell.
  { unfold process_cell. rewrite Hal, standardize_combined. reflexivity. }
  split; [exact Hcell |].
  split; [| split; [apply py_sum_pair |
                    split; [discriminate |
                            split; [discriminate | vm_compute; reflexivity]]]].
  destruct (run_Return _ _ _ _ _ _ _ Hrun) as (d0 & d2 & processed & Hdf' & Hc & Hit & ->).
  rewrite Hdf in Hdf'. injection Hdf' as <-.
  set (d1 := drop_all IGNORED_COLUMNS d) in *.
  assert (get_column "Vars/Vita." d1 = Some c) as Hcol1.
  { unfold d1. rewrite drop_all_get; [exact Hcol |].
    unfold IGNORED_COLUMNS. simpl. intuition discriminate. }
  destruct (convert_all_get _ _ _ "Vars/Vita." Hc) as [Hget _].
  destruct Hget as (c' & xs' & Hg & Ha & Hg2).
  { apply non_name_columns_In. split; [eapply get_column_label; eauto | discriminate]. }
  rewrite Hcol1 in Hg. injection Hg as <-. rewrite Hconv in Ha. injection Ha as <-.
  pose proof (convert_all_layout _ _ _ _ Hc) as (Hname & Hrows & Hlabels).
  destruct (drop_all_index IGNORED_COLUMNS d) as [Hname1 Hrows1]. fold d1 in Hname1, Hrows1.
  apply sort_values_In.
  apply (iterrows_complete _ _ _ _ i "Vars/Vita." _ Hit).
  - rewrite Hrows, Hrows1. exact Hi.
  - apply non_name_columns_In. split; [eapply get_column_label; eauto | discriminate].
  - unfold row_value. rewrite Hg2, Hx. cbn [default].
    rewrite Hname, Hname1.
    change (In rec (cell_records lookup employee "Vars/Vita." x)).
    unfold cell_records. rewrite Hcell. left. reflexivity.
Qed.

Lemma combined_column_record_witness :
  heap (holding bob_sheet) !! 0%nat = Some bob_sheet
  /\ process_allocation_csv (warehouse bob_lookup) 0%nat "Mar" "2025" (holding bob_sheet)
     = (Return [bob_record],
        holding (one_cell "Bob" "Vars/Vita." (ColFloat [F64.of_int 10])))
  /\ get_column "Vars/Vita." bob_sheet = Some (ColInt [10])
  /\ astype_float (ColInt [10]) = Some [F64.of_int 10]
  /\ (0 < nrows bob_sheet)%nat
  /\ [F64.of_int 10] !! 0%nat = Some (F64.of_int 10)
  /\ F64.ltb F64.zero (F64.of_int 10) = true
  /\ process_cell bob_lookup (Some "Bob") "Vars/Vita." (F64.of_int 10) = Return [bob_record]
  /\ In bob_record [bob_record].
Proof.
  assert (heap (holding bob_sheet) !! 0%nat = Some bob_sheet) as Hdf by reflexivity.
  assert (process_allocation_csv (warehouse bob_lookup) 0%nat "Mar" "2025" (holding bob_sheet)
          = (Return [bob_record],
             holding (one_cell "Bob" "Vars/Vita." (ColFloat [F64.of_int 10])))) as Hrun
    by (vm_compute; reflexivity).
  assert (get_column "Vars/Vita." bob_sheet = Some (ColInt [10])) as Hcol by reflexivity.
  assert (astype_float (ColInt [10]) = Some [F64.of_int 10]) as Hconv by reflexivity.
  assert (0 < nrows bob_sheet)%nat as Hi by (simpl; lia).
  assert ([F64.of_int 10] !! 0%nat = Some (F64.of_int 10)) as Hx by reflexivity.
  assert (F64.ltb F64.zero (F64.of_int 10) = true) as Hpos by (vm_compute; reflexivity).
  repeat (split; [assumption |]).
  destruct (combined_column_record _ _ _ _ _ _ _ _ _ _ _ _ Hdf Hrun Hcol Hconv Hi Hx Hpos)
    as (Hcell & Hin & _).
  split; [vm_cast_no_check Hcell | vm_cast_no_check Hin].
Defined.

(** ** Cells that are skipped, cells that raise *)

Lemma not_positive_not_allocated (x : float) :
  F64.is_nan x = true \/ F64.leb x F64.zero = true -> allocated x = false.
Proof.
  unfold allocated. intros [H | H].
  - rewrite H. reflexivity.
  - destruct x as [sx | [] | | [] m e]; try discriminate; reflexivity.
Qed.

Lemma convert_all_returns (cols : list string) : forall d : DataFrame,
  (forall col, In col cols ->
     exists c xs, get_column col d = Some c /\ astype_float c = Some xs) ->
  fst (convert_all cols d) = Return tt.
Proof.
  induction cols as [| col cols IH]; intros d H; [reflexivity |].
  cbn [convert_all]. unfold convert_step.
  destruct (H col (or_introl eq_refl)) as (c & xs & Hg & Ha).
  rewrite Hg, Ha. apply IH. intros col' Hin.
  destruct (String.eqb_spec col col') as [<- | Hne].
  - exists (ColFloat xs), xs. split; [eapply get_column_set_eq; eauto | reflexivity].
  - rewrite get_column_set_ne by exact Hne. apply H. right. exact Hin.
Qed.

Lemma astype_float_text (xs : list (option string)) (t : string) :
  In (Some t) xs -> float_of_str t = None -> astype_float (ColObj xs) = None.
Proof.
  intros Hin Ht. cbn [astype_float]. apply mapM_None. apply Exists_exists.
  exists (Some t). split; [apply list_elem_of_In; exact Hin | exact Ht].
Qed.

(** C4, as amended. A cell whose expected hours are missing (NaN) or not
    positive appends no record and raises nothing. A text cell that [float]
    rejects, in a column that is not ignored, is not skipped: the run
    raises. When every column that is not ignored converts, the sheet has
    a ['Name'] column or no rows, and the user directory replies, the run
    returns. *)
Theorem skipped_and_raising_cells (bq : collaborators) (df : ref) (m y : string)
    (s : state) (d : DataFrame)
    (Hdf : heap s !! df = Some d) :
  let d1 := drop_all IGNORED_COLUMNS d in
  (forall lookup n col x,
      F64.is_nan x = true \/ F64.leb x F64.zero = true ->
      process_cell lookup n col x = Return [])
  /\ (forall col xs t,
       col <> "Name" -> get_column col d1 = Some (ColObj xs) ->
       In (Some t) xs -> float_of_str t = None ->
       exists e s', process_allocation_csv bq df m y s = (Raise e, s'))
  /\ ((forall col c, In col (non_name_columns d1) -> get_column col d1 = Some c ->
         is_Some (astype_float c)) ->
      name_column d <> None \/ nrows d = O ->
      (exists u, valid_users bq = Return u) ->
      exists out s', process_allocation_csv bq df m y s = (Return out, s')).
Proof.
  intros d1.
  destruct (run_spec bq df m y s d Hdf) as (r' & extra & _ & _ & Heq).
  cbv zeta in Heq. fold d1 in Heq.
  split; [| split].
  - intros lookup n col x Hx. unfold process_cell.
    rewrite (not_positive_not_allocated x Hx). reflexivity.
  - intros col xs t Hne Hg Hin Ht.
    destruct (convert_all_raises (non_name_columns d1) d1 col (ColObj xs)) as [e He].
    + apply non_name_columns_In. split; [eapply get_column_label; eauto | exact Hne].
    + exact Hg.
    + eapply astype_float_text; eauto.
    + rewrite He in Heq. eauto.
  - intros Hconv Hname [u Hu].
    rewrite (convert_all_returns (non_name_columns d1) d1) in Heq.
    2:{ intros col Hin.
        destruct (get_column_Some col d1) as [c Hc];
          [apply non_name_columns_In in Hin; tauto |].
        destruct (Hconv col c Hin Hc) as [xs Hx]. eauto. }
    destruct (valid_users bq) as [u' | e]; [| discriminate].
    pose proof (convert_all_layout _ _ _ _
                  (surjective_pairing (convert_all (non_name_columns d1) d1)))
      as (Hn2 & Hr2 & _).
    destruct (drop_all_index IGNORED_COLUMNS d) as [Hn1 Hr1]. fold d1 in Hn1, Hr1.
    set (d2 := snd (convert_all (non_name_columns d1) d1)) in *.
    destruct (name_column d2) as [names |] eqn:Hnames.
    + rewrite (iterrows_spec _ _ _ _ Hnames) in Heq. rewrite Heq. eauto.
    + rewrite (iterrows_no_name _ _ _ Hnames) in Heq.
      destruct Hname as [Hname | Hname]; [congruence |].
      rewrite Hr2, Hr1, Hname in Heq. rewrite Heq. eauto.
Qed.

Lemma skipped_and_raising_cells_witness :
  heap (holding text_sheet) !! 0%nat = Some text_sheet
  /\ process_cell ann_lookup (Some "Ann") "SDI" (F64.of_int 0) = Return []
  /\ exists e s',
       process_allocation_csv (warehouse ann_lookup) 0%nat "Mar" "2025" (holding text_sheet)
       = (Raise e, s').
Proof.
  assert (heap (holding text_sheet) !! 0%nat = Some text_sheet) as Hdf by reflexivity.
  split; [exact Hdf |].
  destruct (skipped_and_raising_cells (warehouse ann_lookup) 0%nat "Mar" "2025" _ _ Hdf)
    as (Hskip & Hraise & _).
  split.
  - apply Hskip. right. reflexivity.
  - apply (Hraise "SDI" [Some "abc"] "abc").
    + discriminate.
    + reflexivity.
    + left. reflexivity.
    + reflexivity.
Defined.

(** C4, at a sheet with the text [abc] in a project column: the
    conversion raises ValueError, and the exception leaves the run. *)
Lemma non_numeric_cell_raises :
  process_allocation_csv (warehouse ann_lookup) 0%nat "Mar" "2025" (holding text_sheet)
  = (Raise (ValueError "could not convert string to float: 'abc'"), holding text_sheet).
Proof. vm_compute. reflexivity. Qed.

(** ** A warehouse that fails *)

Lemma fetched_failed (bq : collaborators) (m y : string) :
  tickets_failed (jira_tickets bq (month_query m y)) = true ->
  fetched bq m y
  = (∅, match caught (jira_tickets bq (month_query m y)) with
        | Some e => ["Error fetching actual hours: " ++ exn_str e]
        | None => []
        end).
Proof.
  unfold fetched.
  destruct (jira_tickets bq (month_query m y)) as [e | [] [] [L | e]];
    try reflexivity. discriminate.
Qed.

Lemma lookup_get_empty (n : option string) (p : string) : lookup_get ∅ n p = PInt 0.
Proof. unfold lookup_get. destruct n; [rewrite lookup_empty |]; reflexivity. Qed.

Lemma standardize_empty (n : option string) (col p : string) (a : pynum) :
  standardize ∅ n col = Return (p, a) -> a = PInt 0.
Proof.
  unfold standardize.
  destruct (dict_get col PROJECT_NAME_MAPPING) as [v |] eqn:Hv.
  - destruct (String.eqb_spec col "Vars/Vita.") as [-> | Hne].
    + assert (v = Many ["VARS"; "Vitawerks"]) as -> by (vm_compute in Hv; congruence).
      cbn [members fmap list_fmap]. rewrite !lookup_get_empty.
      intros H. injection H as _ <-. reflexivity.
    + destruct v; [| discriminate]. rewrite lookup_get_empty.
      intros H. injection H as _ <-. reflexivity.
  - rewrite lookup_get_empty. intros H. injection H as _ <-. reflexivity.
Qed.

Lemma completion_of_no_hours (x : float) :
  allocated x = true -> completion_percentage (PInt 0) x = PFloat F64.zero.
Proof.
  intros H. apply allocated_positive in H.
  destruct x as [sx | [] | | [] mx ex]; try discriminate; reflexivity.
Qed.

(** C6, as amended. On a failing reply the builder raises nothing, leaves
    the heap alone and returns the empty mapping. It shows one warning when
    an exception was raised, by the collaborator or by the pipeline; on an
    empty result and on a result without [time_spent] it shows none. Every
    record a run then returns has the int 0 as actual hours and 0.0 as
    completion. *)
Theorem lookup_builder_degrades (bq : collaborators) (m y : string) (s : state)
    (Hfail : tickets_failed (jira_tickets bq (month_query m y)) = true) :
  fetch_all_actual_hours bq m y s
  = (Return ∅,
     {| heap := heap s;
        warnings := warnings s ++
                    match caught (jira_tickets bq (month_query m y)) with
                    | Some e => ["Error fetching actual hours: " ++ exn_str e]
                    | None => []
                    end |})
  /\ (forall df out s' rec,
       process_allocation_csv bq df m y s = (Return out, s') -> In rec out ->
       Actual_Hours rec = PInt 0 /\ Completion rec = PFloat F64.zero).
Proof.
  pose proof (fetched_failed bq m y Hfail) as Hf.
  split.
  - rewrite fetch_all_actual_hours_spec, Hf. reflexivity.
  - intros df out s' rec Hrun Hin.
    destruct (run_record _ _ _ _ _ _ _ _ Hrun Hin) as (col & Hx & Hs & Hc).
    rewrite Hf in Hs. cbn [fst] in Hs. apply standardize_empty in Hs.
    rewrite Hc, Hs. split; [reflexivity | apply completion_of_no_hours; exact Hx].
Qed.

Lemma lookup_builder_degrades_witness :
  tickets_failed (jira_tickets no_tickets (month_query "Mar" "2025")) = true
  /\ fetch_all_actual_hours no_tickets "Mar" "2025" (holding ann_sheet)
     = (Return ∅, holding ann_sheet)
  /\ process_allocation_csv no_tickets 0%nat "Mar" "2025" (holding ann_sheet)
     = (Return [ann_idle_record],
        holding (one_cell "Ann" "SDI" (ColFloat [F64.of_int 10])))
  /\ Actual_Hours ann_idle_record = PInt 0.
Proof.
  assert (tickets_failed (jira_tickets no_tickets (month_query "Mar" "2025")) = true) as Hfail
    by reflexivity.
  assert (process_allocation_csv no_tickets 0%nat "Mar" "2025" (holding ann_sheet)
          = (Return [ann_idle_record],
             holding (one_cell "Ann" "SDI" (ColFloat [F64.of_int 10])))) as Hrun
    by (vm_compute; reflexivity).
  destruct (lookup_builder_degrades no_tickets "Mar" "2025" (holding ann_sheet) Hfail)
    as [Hfetch Hzero].
  split; [exact Hfail |]. split; [exact Hfetch |]. split; [exact Hrun |].
  exact (proj1 (Hzero _ _ _ ann_idle_record Hrun (or_introl eq_refl))).
Defined.

(** C6, at an empty result: the builder returns the empty mapping and the
    list of warnings is as empty as before. *)
Lemma empty_result_shows_no_warning :
  tickets_failed (jira_tickets no_tickets (month_query "Mar" "2025")) = true
  /\ fetch_all_actual_hours no_tickets "Mar" "2025" (holding ann_sheet)
     = (Return ∅, holding ann_sheet)
  /\ warnings (snd (fetch_all_actual_hours no_tickets "Mar" "2025" (holding ann_sheet))) = [].
Proof. repeat split; reflexivity. Qed.

(** ** Months *)

Lemma list_index_Some (x : string) (l : list string) (i : nat) :
  list_index x l = Some i -> nth_error l i = Some x.
Proof.
  revert i. induction l as [| z l IH]; intros i H; [discriminate |].
  cbn [list_index] in H. destruct (String.eqb_spec z x) as [-> | Hne].
  - injection H as <-. reflexivity.
  - destruct (list_index x l) as [j |]; [| discriminate].
    injection H as <-. cbn. apply IH. reflexivity.
Qed.

Lemma enumerate_from_In {A : Type} (l : list A) : forall (k : nat) (e : nat * A),
  In e (enumerate_from k l) -> (k <= fst e)%nat /\ nth_error l (fst e - k) = Some (snd e).
Proof.
  induction l as [| x l IH]; intros k e H; [contradiction |].
  destruct H as [<- | H].
  - cbn [fst snd]. rewrite Nat.sub_diag. auto.
  - apply IH in H. destruct H as [Hk Hn]. split; [lia |].
    replace (fst e - k)%nat with (S (fst e - S k)) by lia. exact Hn.
Qed.

(** The flexible match of the source and the substring match of the spec
    find the same month. *)
Lemma find_flexible (m : string) (l : list string) : forall k : nat,
  (0 < k)%nat ->
  snd <$> List.find (flexible_match m) (enumerate_from k l) = List.find (month_matches m) l.
Proof.
  induction l as [| x l IH]; intros k Hk; [reflexivity |].
  cbn [enumerate_from List.find]. unfold flexible_match at 1. cbn [fst snd].
  replace (0 <? k)%nat with true by (symmetry; apply Nat.ltb_lt; exact Hk).
  cbn [andb]. fold (month_matches m x).
  destruct (month_matches m x); [reflexivity |]. apply IH. lia.
Qed.

Lemma mapping_values (m full : string) :
  dict_get m MONTH_MAPPING = Some full ->
  canonical_month m = full /\ (1 <= get_month_number m <= 12)%nat /\ m <> "".
Proof.
  intros H. pose proof (dict_get_In _ _ _ H) as Hin. cbn [MONTH_MAPPING In] in Hin.
  repeat (destruct Hin as [Hin | Hin];
          [injection Hin as <- <-; vm_compute; repeat split; (lia || discriminate) |]).
  contradiction.
Qed.

Lemma calendar_names (i : nat) (x : string) :
  nth_error calendar_month_name i = Some x -> x <> "" ->
  canonical_month x = x /\ canonicalize_month_spec x = x /\ get_month_number x = i
  /\ (1 <= i <= 12)%nat.
Proof.
  intros H Hx.
  do 13 (destruct i as [| i];
         [cbn in H; injection H as <-;
          try contradiction; vm_compute; repeat split; (lia || discriminate) |]).
  destruct i; discriminate.
Qed.

(** Away from the empty string the source computes the month the spec
    describes, and a number from 1 to 12. *)
Lemma canonical_month_agrees (m : string) :
  m <> "" ->
  canonical_month m = canonicalize_month_spec m /\ (1 <= get_month_number m <= 12)%nat.
Proof.
  intros Hm. unfold canonicalize_month_spec.
  destruct (dict_get m MONTH_MAPPING) as [full |] eqn:Hd.
  { destruct (mapping_values m full Hd) as (? & ? & _). auto. }
  assert (standardize_month_name m = m) as Hstd by (unfold standardize_month_name; rewrite Hd; reflexivity).
  destruct (list_index m calendar_month_name) as [i |] eqn:Hi.
  { apply list_index_Some in Hi.
    destruct (calendar_names i m Hi Hm) as (Hc & Hs & Hn & Hr).
    unfold canonicalize_month_spec in Hs. rewrite Hd in Hs. rewrite Hs, Hc, Hn. auto. }
  unfold canonical_month, get_month_number. rewrite Hstd, Hi.
  pose proof (find_flexible m twelve_months 1 ltac:(lia)) as Hf.
  change (enumerate_from 0 calendar_month_name)
    with ((0%nat, "") :: enumerate_from 1 twelve_months).
  cbn [List.find].
  assert (flexible_match m (0%nat, "") = false) as H0 by reflexivity. rewrite H0.
  destruct (List.find (flexible_match m) (enumerate_from 1 twelve_months)) as [e |] eqn:He.
  - change (Some (snd e) = List.find (month_matches m) twelve_months) in Hf. rewrite <- Hf.
    apply find_some in He. destruct He as [Hin _].
    apply enumerate_from_In in Hin. destruct Hin as [Hk Hn].
    assert (fst e - 1 < length twelve_months)%nat as Hlen
      by (apply nth_error_Some; congruence).
    cbn [twelve_months calendar_month_name tl length] in Hlen.
    split; [| lia].
    destruct (fst e) as [| j]; [lia |].
    cbn [calendar_month_name nth]. replace (S j - 1)%nat with j in Hn by lia.
    apply (nth_error_nth twelve_months j ""). exact Hn.
  - change (None = List.find (month_matches m) twelve_months) in Hf. rewrite <- Hf.
    split; [reflexivity | lia].
Qed.

Lemma canonical_month_examples :
  canonical_month "Xyz" = "January" /\ canonical_month "Mar" = "March"
  /\ canonical_month "March" = "March" /\ standardize_month_name "Xyz" = "Xyz".
Proof. repeat split; reflexivity. Qed.

(** The number and the abbreviation of the query name the same month: the
    abbreviation is the head of the full name. *)
Lemma abbreviation_agrees (m : string) :
  String.prefix (month_to_abbreviation m) (canonical_month m) = true.
Proof.
  destruct (String.eqb_spec m "") as [-> | Hm]; [reflexivity |].
  destruct (canonical_month_agrees m Hm) as [_ Hr].
  unfold month_to_abbreviation, canonical_month.
  destruct (get_month_number m) as [| n]; [lia |].
  do 12 (destruct n as [| n]; [reflexivity |]). lia.
Qed.

(** C7, as amended. Canonicalization is split over two functions.
    [standardize_month_name] does the exact lookup in the month mapping and
    returns its argument on a miss. [get_month_number] then returns a
    position in the calendar; for a month string that is not empty it is a
    position from 1 to 12, that of the month the three steps describe: the
    mapped name, else the first full month name that matches as a
    substring in either direction, ignoring case, else January. So the
    number of [Xyz] is 1, that of [Mar] and of [March] is 3, and
    [standardize_month_name] maps [Mar] and [March] to [March]. *)
Theorem month_canonicalization_in_two_steps (m : string) (Hm : m <> "") :
  standardize_month_name m = default m (dict_get m MONTH_MAPPING)
  /\ nth (get_month_number m) calendar_month_name "" = canonicalize_month_spec m
  /\ (1 <= get_month_number m <= 12)%nat
  /\ get_month_number "Xyz" = 1%nat
  /\ get_month_number "Mar" = 3%nat
  /\ get_month_number "March" = 3%nat
  /\ standardize_month_name "Mar" = "March"
  /\ standardize_month_name "March" = "March".
Proof.
  split.
  { unfold standardize_month_name. destruct (dict_get m MONTH_MAPPING); reflexivity. }
  destruct (canonical_month_agrees m Hm) as [Hc Hr].
  repeat split; try reflexivity; try exact Hc; lia.
Qed.

Lemma month_canonicalization_in_two_steps_witness :
  "Sept" <> ""
  /\ standardize_month_name "Sept" = "Sept"
  /\ nth (get_month_number "Sept") calendar_month_name "" = "September"
  /\ get_month_number "Sept" = 9%nat.
Proof.
  assert ("Sept" <> "") as Hm by discriminate.
  destruct (month_canonicalization_in_two_steps "Sept" Hm) as (Hs & Hc & _).
  split; [exact Hm |]. split; [exact Hs |]. split; [exact Hc | reflexivity].
Defined.

(** C7, at [Xyz]: the name the source makes of it is [Xyz] itself, where
    the three steps of the claim end in January. *)
Lemma unknown_month_name_is_kept :
  standardize_month_name "Xyz" = "Xyz"
  /\ canonicalize_month_spec "Xyz" = "January"
  /\ standardize_month_name "Xyz" <> canonicalize_month_spec "Xyz".
Proof. repeat split; try reflexivity. discriminate. Qed.

(** At the empty string the exact match against [calendar.month_name],
    whose entry 0 is the empty string, answers before the flexible match is
    tried. *)
Lemma canonical_month_of_empty :
  dict_get "" MONTH_MAPPING = None
  /\ list_index (standardize_month_name "") calendar_month_name = Some O
  /\ canonical_month "" = ""
  /\ canonicalize_month_spec "" = "January".
Proof. repeat split; reflexivity. Qed.

(** C8, at the empty string. [get_month_number] returns 0, which is no
    month of the calendar, and the query is formatted with an empty
    abbreviation. *)
Theorem month_number_of_empty :
  get_month_number "" = O
  /\ ~ (1 <= get_month_number "" <= 12)%nat
  /\ month_query "" "2025" = " 2025".
Proof. repeat split; try reflexivity. cbn. lia. Qed.

(** * Further properties *)

(** ** The run as a function of the caller's frame *)

Lemma run_spec_all (r : ref) (s : state) (d : DataFrame) :
  heap s !! r = Some d ->
  exists (r' : ref) (extra : list DataFrame),
    let d1 := drop_all IGNORED_COLUMNS d in
    let c := convert_all (non_name_columns d1) d1 in
    let h := <[r' := snd c]> (heap s ++ extra)%list in
    (if dropped IGNORED_COLUMNS d then (length (heap s) <= r')%nat else r' = r /\ extra = [])
    /\ (heap s ++ extra)%list !! r' = Some d1
    /\ forall (bq : collaborators) (m y : string),
         process_allocation_csv bq r m y s =
         match fst c with
         | Raise e => (Raise e, {| heap := h; warnings := warnings s |})
         | Return _ =>
             match valid_users bq with
             | Raise e => (Raise e, {| heap := h; warnings := warnings s |})
             | Return _ =>
                 (sort_values <$> iterrows (fst (fetched bq m y)) (snd c)
                                           (non_name_columns (snd c)),
                  {| heap := h; warnings := warnings s ++ snd (fetched bq m y) |})
             end
         end.
Proof.
  intros Hr.
  destruct (drop_ignored_spec IGNORED_COLUMNS r s d Hr) as (r' & extra & Hrun & Hlook & Hfresh).
  exists r', extra. intros d1 c h. split; [exact Hfresh |]. split; [exact Hlook |].
  intros bq m y. unfold process_allocation_csv.
  rewrite bind_run, Hrun.
  set (s1 := {| heap := heap s ++ extra; warnings := warnings s |}).
  assert (heap s1 !! r' = Some d1) as H1 by exact Hlook.
  rewrite bind_run, (deref_run r' s1 d1 H1).
  rewrite bind_run, (for_each_convert_spec _ r' s1 d1 H1).
  fold c. simpl heap. simpl warnings. fold h.
  destruct (fst c) as [[] | e]; [| reflexivity].
  set (s2 := {| heap := h; warnings := warnings s |}).
  assert (heap s2 !! r' = Some (snd c)) as H2.
  { simpl. unfold h. apply list_lookup_insert_eq. eapply lookup_lt_Some; eauto. }
  rewrite bind_run, (deref_run r' s2 _ H2).
  rewrite bind_run, fetch_valid_users_spec.
  destruct (valid_users bq) as [users | e]; [| reflexivity].
  rewrite bind_run, fetch_all_actual_hours_spec.
  simpl heap. simpl warnings.
  set (s3 := {| heap := h; warnings := warnings s ++ snd (fetched bq m y) |}).
  assert (heap s3 !! r' = Some (snd c)) as H3 by exact H2.
  rewrite bind_run, (deref_run r' s3 _ H3).
  rewrite bind_run. unfold lift at 1.
  destruct (iterrows _ _ _); reflexivity.
Qed.

(** What a run returns or raises is read off the frame alone. *)
Lemma run_outcome (bq : collaborators) (r : ref) (m y : string) (s : state) (d : DataFrame) :
  heap s !! r = Some d ->
  fst (process_allocation_csv bq r m y s) = reconcile bq m y d.
Proof.
  intros Hr. destruct (run_spec_all r s d Hr) as (r' & extra & _ & _ & Heq).
  cbv zeta in Heq. rewrite Heq. unfold reconcile.
  destruct (convert_all _ (drop_all IGNORED_COLUMNS d)) as [o d2]. cbn [fst snd].
  destruct o as [[] | e]; [| reflexivity].
  destruct (valid_users bq); reflexivity.
Qed.

(** *** The frame without the ignored columns *)

Lemma filter_filter_and {A : Type} (p q : A -> bool) (l : list A) :
  List.filter p (List.filter q l) = List.filter (fun x => q x && p x) l.
Proof.
  induction l as [| x l IH]; [reflexivity |].
  cbn [List.filter]. destruct (q x); cbn [List.filter andb]; rewrite IH; reflexivity.
Qed.

Lemma filter_ext_all {A : Type} (p q : A -> bool) (l : list A) :
  (forall x, p x = q x) -> List.filter p l = List.filter q l.
Proof.
  intros H. induction l as [| x l IH]; [reflexivity |].
  cbn [List.filter]. rewrite H, IH. reflexivity.
Qed.

Lemma filter_all {A : Type} (p : A -> bool) (l : list A) :
  (forall x, In x l -> p x = true) -> List.filter p l = l.
Proof.
  induction l as [| x l IH]; intros H; [reflexivity |].
  cbn [List.filter]. rewrite (H x) by (left; reflexivity).
  f_equal. apply IH. intros y Hy. apply H. right. exact Hy.
Qed.

Lemma drop_step_columns (col : string) (d : DataFrame) :
  (if has_column col d then drop_column col d else d) = without_columns [col] d.
Proof.
  unfold without_columns. cbn [existsb]. 
  destruct (has_column col d) eqn:Hc.
  - unfold drop_column. f_equal. apply filter_ext_all. intros lc.
    rewrite orb_false_r. reflexivity.
  - rewrite filter_all; [destruct d; reflexivity |].
    intros [l c] Hin. cbn [fst]. rewrite orb_false_r.
    destruct (String.eqb_spec l col) as [-> | Hne]; [| reflexivity].
    exfalso. unfold has_column in Hc. apply orb_false_iff in Hc. destruct Hc as [_ Hc].
    assert (existsb (String.eqb col) (labels d) = true) as Ht.
    { apply existsb_exists. exists col. split; [| apply String.eqb_refl].
      unfold labels. apply list_elem_of_In, list_elem_of_fmap. exists (col, c).
      split; [reflexivity | apply list_elem_of_In; exact Hin]. }
    congruence.
Qed.

Lemma without_columns_twice (cols1 cols2 : list string) (d : DataFrame) :
  without_columns cols2 (without_columns cols1 d) = without_columns (cols1 ++ cols2) d.
Proof.
  unfold without_columns. cbn [name_column nrows columns]. f_equal.
  rewrite filter_filter_and. apply filter_ext_all. intros lc.
  rewrite existsb_app, negb_orb. reflexivity.
Qed.

(** Lines 120-122 leave the frame without the ignored columns. *)
Lemma drop_all_columns (cols : list string) : forall d : DataFrame,
  drop_all cols d = without_columns cols d.
Proof.
  induction cols as [| col cols IH]; intros d.
  - cbn [drop_all]. unfold without_columns. cbn [existsb negb].
    rewrite filter_all by reflexivity. destruct d; reflexivity.
  - cbn [drop_all]. rewrite drop_step_columns, IH, without_columns_twice. reflexivity.
Qed.

Lemma labels_without (cols : list string) (d : DataFrame) :
  labels (without_columns cols d)
  = List.filter (fun l => negb (existsb (String.eqb l) cols)) (labels d).
Proof.
  unfold labels, without_columns. cbn [columns].
  induction (columns d) as [| [l c] cs IH]; [reflexivity |].
  change (fst <$> (l, c) :: cs) with (l :: (fst <$> cs)).
  cbn [List.filter fst]. destruct (existsb (String.eqb l) cols); cbn [negb];
    [exact IH |].
  change (l :: (fst <$> List.filter
                  (fun lc : string * column => negb (existsb (String.eqb (fst lc)) cols)) cs)
          = l :: List.filter (fun l => negb (existsb (String.eqb l) cols)) (fst <$> cs)).
  f_equal. exact IH.
Qed.

Lemma project_columns_dropped (d : DataFrame) :
  non_name_columns (drop_all IGNORED_COLUMNS d) = project_columns d.
Proof.
  rewrite drop_all_columns. unfold project_columns, non_name_columns.
  rewrite labels_without, !filter_filter_and.
  apply filter_ext_all. intros l. apply andb_comm.
Qed.

Lemma project_columns_In (d : DataFrame) (col : string) :
  In col (project_columns d) <->
  In col (labels d) /\ col <> "Name" /\ ~ In col IGNORED_COLUMNS.
Proof.
  unfold project_columns. rewrite filter_In, non_name_columns_In.
  split.
  - intros [[Hl Hn] Hi]. repeat split; auto. intros Hin.
    apply negb_true_iff in Hi.
    assert (existsb (String.eqb col) IGNORED_COLUMNS = true) as Ht
      by (apply existsb_exists; exists col; split; [exact Hin | apply String.eqb_refl]).
    congruence.
  - intros (Hl & Hn & Hi). repeat split; auto.
    apply negb_true_iff. destruct (existsb _ IGNORED_COLUMNS) eqn:He; [| reflexivity].
    apply existsb_exists in He. destruct He as (c & Hc & Heq).
    apply String.eqb_eq in Heq. subst c. contradiction.
Qed.

(** *** Cells after the conversion *)

Lemma row_value_converted (d d2 : DataFrame) (col : string) (i : nat) :
  convert_all (non_name_columns (drop_all IGNORED_COLUMNS d)) (drop_all IGNORED_COLUMNS d)
    = (Return tt, d2) ->
  In col (project_columns d) ->
  row_value d2 col i = cell_value d col i.
Proof.
  intros Hc Hin.
  destruct (convert_all_get _ _ _ col Hc) as [Hget _].
  destruct Hget as (c & xs & Hg & Ha & Hg2);
    [rewrite project_columns_dropped; exact Hin |].
  apply project_columns_In in Hin. destruct Hin as (_ & _ & Hi).
  rewrite (drop_all_get _ _ _ Hi) in Hg.
  unfold row_value, cell_value. rewrite Hg2, Hg, Ha. reflexivity.
Qed.

Lemma flat_map_ext_list {A B : Type} (f g : A -> list B) (l : list A) :
  (forall x, In x l -> f x = g x) -> flat_map f l = flat_map g l.
Proof.
  induction l as [| x l IH]; intros H; [reflexivity |].
  cbn [flat_map]. rewrite (H x) by (left; reflexivity).
  f_equal. apply IH. intros y Hy. apply H. right. exact Hy.
Qed.

(** The records of a run that returns, in terms of the caller's sheet. *)
Lemma run_report (bq : collaborators) (df : ref) (m y : string) (s s' : state)
    (d : DataFrame) (out : list record) :
  heap s !! df = Some d ->
  process_allocation_csv bq df m y s = (Return out, s') ->
  out = sort_values (report_records (fst (fetched bq m y)) d).
Proof.
  intros Hdf Hrun.
  destruct (run_Return _ _ _ _ _ _ _ Hrun) as (d0 & d2 & processed & Hdf' & Hc & Hit & ->).
  rewrite Hdf in Hdf'. injection Hdf' as <-. f_equal.
  pose proof (convert_all_layout _ _ _ _ Hc) as Hl.
  pose proof (same_layout_non_name _ _ Hl) as Hcols.
  destruct Hl as (Hname & Hrows & _).
  destruct (drop_all_index IGNORED_COLUMNS d) as [Hname1 Hrows1].
  rewrite Hname1 in Hname. rewrite Hrows1 in Hrows.
  unfold report_records.
  destruct (name_column d2) as [names |] eqn:Hn.
  - rewrite (iterrows_spec _ _ _ _ Hn) in Hit. injection Hit as <-.
    rewrite Hrows. apply flat_map_ext_list. intros i _.
    unfold row_records. rewrite Hcols, project_columns_dropped.
    apply flat_map_ext_list. intros col Hcol.
    rewrite (row_value_converted d d2 col i Hc Hcol).
    unfold employee. rewrite Hn, <- Hname. reflexivity.
  - rewrite (iterrows_no_name _ _ _ Hn) in Hit.
    destruct (nrows d2) eqn:Hr; [| discriminate].
    injection Hit as <-. rewrite <- Hrows. reflexivity.
Qed.

Lemma report_records_In (lookup : gmap (string * string) float) (d : DataFrame) (r : record) :
  In r (report_records lookup d) <->
  exists i col, (i < nrows d)%nat /\ In col (project_columns d)
                /\ In r (cell_records lookup (employee d i) col (cell_value d col i)).
Proof.
  unfold report_records. rewrite in_flat_map. split.
  - intros (i & Hi & Hr). apply in_seq in Hi. apply in_flat_map in Hr.
    destruct Hr as (col & Hcol & Hr). exists i, col. repeat split; auto; lia.
  - intros (i & col & Hi & Hcol & Hr). exists i. split; [apply in_seq; lia |].
    apply in_flat_map. eauto.
Qed.

(** X1. Every record of the report comes from one cell of the caller's
    sheet: a row [i] and a column that is neither ['Name'] nor ignored. The
    record's name is the row's, its expected hours are the cell's value as
    a float, which is positive, and its project and actual hours are what
    lines 151-165 make of the column's label. *)
Theorem records_come_from_cells (bq : collaborators) (df : ref) (m y : string)
    (s s' : state) (d : DataFrame) (out : list record) (rec : record)
    (Hdf : heap s !! df = Some d)
    (Hrun : process_allocation_csv bq df m y s = (Return out, s'))
    (Hin : In rec out) :
  exists i col,
    (i < nrows d)%nat /\ In col (labels d) /\ col <> "Name" /\ ~ In col IGNORED_COLUMNS
    /\ Name rec = employee d i
    /\ Expected_Hours rec = cell_value d col i
    /\ F64.ltb F64.zero (cell_value d col i) = true
    /\ standardize (fst (fetched bq m y)) (employee d i) col
       = Return (Project rec, Actual_Hours rec).
Proof.
  rewrite (run_report _ _ _ _ _ _ _ _ Hdf Hrun) in Hin.
  apply (proj1 (sort_values_In _ _)) in Hin.
  apply report_records_In in Hin. destruct Hin as (i & col & Hi & Hcol & Hr).
  apply project_columns_In in Hcol. destruct Hcol as (Hl & Hn & Hig).
  apply cell_records_In in Hr. destruct Hr as (Hx & Hs & Hname & He & _).
  exists i, col. rewrite Hname, He. repeat split; auto using allocated_positive.
Qed.

Lemma records_come_from_cells_witness :
  heap (holding team_sheet) !! 0%nat = Some team_sheet
  /\ process_allocation_csv (warehouse ann_lookup) 0%nat "Mar" "2025" (holding team_sheet)
     = (Return team_report, {| heap := [team_sheet; team_copy]; warnings := [] |})
  /\ In ann_record team_report
  /\ exists i col,
       (i < nrows team_sheet)%nat /\ In col (labels team_sheet) /\ col <> "Name"
       /\ ~ In col IGNORED_COLUMNS
       /\ Name ann_record = employee team_sheet i
       /\ Expected_Hours ann_record = cell_value team_sheet col i
       /\ F64.ltb F64.zero (cell_value team_sheet col i) = true
       /\ standardize (fst (fetched (warehouse ann_lookup) "Mar" "2025"))
                      (employee team_sheet i) col
          = Return (Project ann_record, Actual_Hours ann_record).
Proof.
  assert (heap (holding team_sheet) !! 0%nat = Some team_sheet) as Hdf by reflexivity.
  assert (process_allocation_csv (warehouse ann_lookup) 0%nat "Mar" "2025" (holding team_sheet)
          = (Return team_report, {| heap := [team_sheet; team_copy]; warnings := [] |}))
    as Hrun by (vm_compute; reflexivity).
  assert (In ann_record team_report) as Hin by (left; reflexivity).
  split; [exact Hdf |]. split; [exact Hrun |]. split; [exact Hin |].
  exact (records_come_from_cells _ _ _ _ _ _ _ _ _ Hdf Hrun Hin).
Defined.

(** X2. Every cell with a positive value, in a column that is neither
    ['Name'] nor ignored, has its record in the report. *)
Theorem allocated_cells_are_reported (bq : collaborators) (df : ref) (m y : string)
    (s s' : state) (d : DataFrame) (out : list record) (i : nat) (col : string)
    (Hdf : heap s !! df = Some d)
    (Hrun : process_allocation_csv bq df m y s = (Return out, s'))
    (Hi : (i < nrows d)%nat)
    (Hcol : In col (labels d))
    (Hname : col <> "Name")
    (Hign : ~ In col IGNORED_COLUMNS)
    (Hpos : F64.ltb F64.zero (cell_value d col i) = true) :
  exists p a,
    standardize (fst (fetched bq m y)) (employee d i) col = Return (p, a)
    /\ In {| Name := employee d i; Project := p; Expected_Hours := cell_value d col i;
             Actual_Hours := a;
             Completion := completion_percentage a (cell_value d col i) |} out.
Proof.
  rewrite (run_report _ _ _ _ _ _ _ _ Hdf Hrun).
  destruct (cell_records_allocated (fst (fetched bq m y)) (employee d i) col
              (cell_value d col i) (positive_allocated _ Hpos)) as (p & a & Hs & Hc).
  exists p, a. split; [exact Hs |].
  apply sort_values_In, report_records_In. exists i, col.
  split; [exact Hi |]. split; [apply project_columns_In; auto |].
  rewrite Hc. left. reflexivity.
Qed.

Lemma allocated_cells_are_reported_witness :
  heap (holding team_sheet) !! 0%nat = Some team_sheet
  /\ process_allocation_csv (warehouse ann_lookup) 0%nat "Mar" "2025" (holding team_sheet)
     = (Return team_report, {| heap := [team_sheet; team_copy]; warnings := [] |})
  /\ (0 < nrows team_sheet)%nat
  /\ In "SDI" (labels team_sheet)
  /\ "SDI" <> "Name"
  /\ ~ In "SDI" IGNORED_COLUMNS
  /\ F64.ltb F64.zero (cell_value team_sheet "SDI" 0) = true
  /\ exists p a,
       standardize (fst (fetched (warehouse ann_lookup) "Mar" "2025"))
                   (employee team_sheet 0) "SDI" = Return (p, a)
       /\ In {| Name := employee team_sheet 0; Project := p;
                Expected_Hours := cell_value team_sheet "SDI" 0;
                Actual_Hours := a;
                Completion := completion_percentage a (cell_value team_sheet "SDI" 0) |}
             team_report.
Proof.
  assert (heap (holding team_sheet) !! 0%nat = Some team_sheet) as Hdf by reflexivity.
  assert (process_allocation_csv (warehouse ann_lookup) 0%nat "Mar" "2025" (holding team_sheet)
          = (Return team_report, {| heap := [team_sheet; team_copy]; warnings := [] |}))
    as Hrun by (vm_compute; reflexivity).
  assert (0 < nrows team_sheet)%nat as Hi by (cbn; lia).
  assert (In "SDI" (labels team_sheet)) as Hcol by (cbn; auto).
  assert ("SDI" <> "Name") as Hname by discriminate.
  assert (~ In "SDI" IGNORED_COLUMNS) as Hign by (cbn; intuition discriminate).
  assert (F64.ltb F64.zero (cell_value team_sheet "SDI" 0) = true) as Hpos
    by (vm_compute; reflexivity).
  repeat (split; [assumption |]).
  exact (allocated_cells_are_reported _ _ _ _ _ _ _ _ _ _ Hdf Hrun Hi Hcol Hname Hign Hpos).
Defined.

Lemma cell_records_length (lookup : gmap (string * string) float)
    (n : option string) (col : string) (x : float) :
  length (cell_records lookup n col x) = if allocated x then 1%nat else 0%nat.
Proof.
  destruct (allocated x) eqn:Hx.
  - destruct (cell_records_allocated lookup n col x Hx) as (p & a & _ & ->). reflexivity.
  - rewrite (cell_records_skipped _ _ _ _ Hx). reflexivity.
Qed.

Lemma filter_map_pair_length {A B : Type} (p : A * B -> bool) (x : A) (l : list B) :
  length (List.filter p (List.map (pair x) l))
  = length (List.filter (fun b => p (x, b)) l).
Proof.
  induction l as [| b l IH]; [reflexivity |].
  cbn [List.map List.filter]. destruct (p (x, b)); cbn [length]; rewrite IH; reflexivity.
Qed.

Lemma report_records_length (lookup : gmap (string * string) float) (d : DataFrame) :
  length (report_records lookup d) = length (allocated_cells d).
Proof.
  unfold report_records, allocated_cells.
  induction (seq 0 (nrows d)) as [| i rows IH]; [reflexivity |].
  cbn [flat_map list_prod]. rewrite List.filter_app, !List.length_app, IH.
  rewrite filter_map_pair_length. cbn [fst snd]. f_equal.
  clear IH. induction (project_columns d) as [| col cols IHc]; [reflexivity |].
  cbn [flat_map List.filter]. rewrite List.length_app, cell_records_length, IHc.
  destruct (allocated (cell_value d col i)); reflexivity.
Qed.

(** X3. The report has one record per allocated cell: as many records as
    there are pairs of a row and a project column whose cell is positive. *)
Theorem one_record_per_allocated_cell (bq : collaborators) (df : ref) (m y : string)
    (s s' : state) (d : DataFrame) (out : list record)
    (Hdf : heap s !! df = Some d)
    (Hrun : process_allocation_csv bq df m y s = (Return out, s')) :
  length out = length (allocated_cells d)
  /\ (length out <= nrows d * length (project_columns d))%nat.
Proof.
  rewrite (run_report _ _ _ _ _ _ _ _ Hdf Hrun), sort_values_length, report_records_length.
  split; [reflexivity |].
  unfold allocated_cells.
  etransitivity; [apply List.filter_length_le |].
  rewrite length_prod, length_seq. reflexivity.
Qed.

Lemma one_record_per_allocated_cell_witness :
  heap (holding team_sheet) !! 0%nat = Some team_sheet
  /\ process_allocation_csv (warehouse ann_lookup) 0%nat "Mar" "2025" (holding team_sheet)
     = (Return team_report, {| heap := [team_sheet; team_copy]; warnings := [] |})
  /\ length team_report = length (allocated_cells team_sheet)
  /\ (length team_report <= nrows team_sheet * length (project_columns team_sheet))%nat.
Proof.
  assert (heap (holding team_sheet) !! 0%nat = Some team_sheet) as Hdf by reflexivity.
  assert (process_allocation_csv (warehouse ann_lookup) 0%nat "Mar" "2025" (holding team_sheet)
          = (Return team_report, {| heap := [team_sheet; team_copy]; warnings := [] |}))
    as Hrun by (vm_compute; reflexivity).
  split; [exact Hdf |]. split; [exact Hrun |].
  exact (one_record_per_allocated_cell _ _ _ _ _ _ _ _ Hdf Hrun).
Defined.

(** X4. The ignored columns play no part in a run: two sheets that agree
    once the ignored columns are left out give the same report, or raise
    the same exception. *)
Theorem ignored_columns_do_not_matter (bq : collaborators) (df df' : ref) (m y : string)
    (s s' : state) (d d' : DataFrame)
    (Hdf : heap s !! df = Some d)
    (Hdf' : heap s' !! df' = Some d')
    (Hsame : without_columns IGNORED_COLUMNS d = without_columns IGNORED_COLUMNS d') :
  fst (process_allocation_csv bq df m y s) = fst (process_allocation_csv bq df' m y s').
Proof.
  rewrite (run_outcome _ _ _ _ _ _ Hdf), (run_outcome _ _ _ _ _ _ Hdf').
  unfold reconcile. rewrite !drop_all_columns, Hsame. reflexivity.
Qed.

Lemma ignored_columns_do_not_matter_witness :
  heap (holding team_sheet) !! 0%nat = Some team_sheet
  /\ heap (holding (drop_column "Dept" team_sheet)) !! 0%nat
     = Some (drop_column "Dept" team_sheet)
  /\ without_columns IGNORED_COLUMNS team_sheet
     = without_columns IGNORED_COLUMNS (drop_column "Dept" team_sheet)
  /\ fst (process_allocation_csv (warehouse ann_lookup) 0%nat "Mar" "2025" (holding team_sheet))
     = fst (process_allocation_csv (warehouse ann_lookup) 0%nat "Mar" "2025"
              (holding (drop_column "Dept" team_sheet))).
Proof.
  assert (heap (holding team_sheet) !! 0%nat = Some team_sheet) as Hdf by reflexivity.
  assert (heap (holding (drop_column "Dept" team_sheet)) !! 0%nat
          = Some (drop_column "Dept" team_sheet)) as Hdf' by reflexivity.
  assert (without_columns IGNORED_COLUMNS team_sheet
          = without_columns IGNORED_COLUMNS (drop_column "Dept" team_sheet)) as Hsame
    by reflexivity.
  split; [exact Hdf |]. split; [exact Hdf' |]. split; [exact Hsame |].
  exact (ignored_columns_do_not_matter _ _ _ "Mar" "2025" _ _ _ _ Hdf Hdf' Hsame).
Defined.

(** *** How the conversion loop stops *)

Lemma convert_all_app (pre rest : list string) : forall d : DataFrame,
  convert_all (pre ++ rest)%list d =
  match convert_all pre d with
  | (Return _, d') => convert_all rest d'
  | (Raise e, d') => (Raise e, d')
  end.
Proof.
  induction pre as [| col pre IH]; intros d; [reflexivity |].
  cbn [app convert_all]. destruct (convert_step col d) as [d1 | e]; [apply IH | reflexivity].
Qed.

Lemma convert_all_raise_split (cols : list string) : forall (d d' : DataFrame) (e : exn),
  convert_all cols d = (Raise e, d') ->
  exists pre col post,
    cols = (pre ++ col :: post)%list
    /\ convert_all pre d = (Return tt, d')
    /\ convert_step col d' = Raise e.
Proof.
  induction cols as [| col0 cols IH]; intros d d' e H; cbn [convert_all] in H; [discriminate |].
  destruct (convert_step col0 d) as [d1 | e0] eqn:Hstep.
  - destruct (IH _ _ _ H) as (pre & col & post & -> & Hpre & Hcol).
    exists (col0 :: pre), col, post. split; [reflexivity |].
    split; [| exact Hcol]. cbn [convert_all]. rewrite Hstep. exact Hpre.
  - injection H as <- <-. exists [], col0, cols. auto.
Qed.

Lemma convert_all_Return_tt (cols : list string) (d d' : DataFrame) (u : unit) :
  convert_all cols d = (Return u, d') -> convert_all cols d = (Return tt, d').
Proof. destruct u. auto. Qed.

(** Running the loop again on the frame it left ends the same way and
    leaves the frame as it is. *)
Lemma convert_all_resume (cols : list string) (d d' : DataFrame) (o : outcome unit) :
  convert_all cols d = (o, d') -> convert_all cols d' = (o, d').
Proof.
  assert (forall cols d d', convert_all cols d = (Return tt, d') ->
                            convert_all cols d' = (Return tt, d')) as Hret.
  { clear. intros cols d d' Hc.
    assert (settled (fun _ => False) d) as H0 by (intros ? ? ? []).
    pose proof (settled_all _ _ _ _ H0 Hc) as Hs.
    apply (convert_all_settled _ _ _ Hs). intros col Hin. split; [left; exact Hin |].
    destruct (convert_all_get _ _ _ col Hc) as [H _].
    destruct (H Hin) as (c & xs & _ & _ & Hg). eapply get_column_label; eauto. }
  intros Hc. destruct o as [[] | e]; [exact (Hret _ _ _ Hc) |].
  destruct (convert_all_raise_split _ _ _ _ Hc) as (pre & col & post & -> & Hpre & Hcol).
  rewrite convert_all_app, (Hret _ _ _ Hpre). cbn [convert_all]. rewrite Hcol. reflexivity.
Qed.

(** The loop leaves each column as it was or as its conversion. *)
Lemma convert_all_partial (cols : list string) : forall (d d' : DataFrame) (o : outcome unit)
    (col : string),
  convert_all cols d = (o, d') ->
  get_column col d' = get_column col d
  \/ exists c xs, get_column col d = Some c /\ astype_float c = Some xs
                  /\ get_column col d' = Some (ColFloat xs).
Proof.
  intros d d' o col Hc.
  assert (forall cols d d', convert_all cols d = (Return tt, d') ->
            get_column col d' = get_column col d
            \/ exists c xs, get_column col d = Some c /\ astype_float c = Some xs
                            /\ get_column col d' = Some (ColFloat xs)) as Hret.
  { clear. intros cols d d' Hc. destruct (convert_all_get _ _ _ col Hc) as [Hin Hout].
    destruct (in_dec string_dec col cols) as [H | H]; [right; auto | left; auto]. }
  destruct o as [[] | e]; [eapply Hret; eauto |].
  destruct (convert_all_raise_split _ _ _ _ Hc) as (pre & col0 & post & _ & Hpre & _).
  eapply Hret; eauto.
Qed.

Lemma astype_float_None (c : column) :
  astype_float c = None ->
  exists xs t, c = ColObj xs /\ first_rejected c = Some t
               /\ In (Some t) xs /\ float_of_str t = None.
Proof.
  destruct c as [xs | xs | xs | xs]; cbn [astype_float]; try discriminate.
  intros H. exists xs. cbn [first_rejected].
  induction xs as [| [t |] xs IH]; [discriminate | |].
  - cbn [omap list_omap id List.find].
    destruct (float_of_str t) as [x |] eqn:Ht.
    + destruct IH as (t' & _ & Hf & Hin & Ht').
      { rewrite mapM_None in H |- *. apply Exists_cons in H.
        destruct H as [H | H]; [congruence | exact H]. }
      exists t'. split; [reflexivity |]. split; [exact Hf |]. split; [right; exact Hin | exact Ht'].
    + exists t. split; [reflexivity |]. split; [reflexivity |]. split; [left; reflexivity | exact Ht].
  - cbn [omap list_omap id].
    destruct IH as (t' & _ & Hf & Hin & Ht').
    { rewrite mapM_None in H |- *. apply Exists_cons in H.
      destruct H as [H | H]; [discriminate | exact H]. }
    exists t'. split; [reflexivity |]. split; [exact Hf |]. split; [right; exact Hin | exact Ht'].
Qed.

(** The loop raises only on a text entry that [float] rejects, the first
    such entry of a column it had not converted yet, and with the
    ValueError of [float] on that text. *)
Lemma convert_all_raise_cause (cols : list string) (d d' : DataFrame) (e : exn) :
  (forall col, In col cols -> In col (labels d)) ->
  convert_all cols d = (Raise e, d') ->
  exists col xs t,
    In col cols /\ get_column col d = Some (ColObj xs)
    /\ first_rejected (ColObj xs) = Some t
    /\ In (Some t) xs /\ float_of_str t = None
    /\ e = ValueError (not_a_float t).
Proof.
  intros Hlab Hc.
  destruct (convert_all_raise_split _ _ _ _ Hc) as (pre & col & post & -> & Hpre & Hcol).
  assert (In col (pre ++ col :: post)%list) as Hin by (apply in_or_app; right; left; reflexivity).
  destruct (get_column_Some col d (Hlab col Hin)) as [c Hg].
  destruct (convert_all_get _ _ _ col Hpre) as [Hconv Hkeep].
  unfold convert_step in Hcol.
  destruct (in_dec string_dec col pre) as [Hp | Hp].
  - destruct (Hconv Hp) as (c0 & xs & _ & _ & Hg'). rewrite Hg' in Hcol. discriminate.
  - rewrite (Hkeep Hp), Hg in Hcol.
    destruct (astype_float c) as [xs |] eqn:Ha; [discriminate |].
    injection Hcol as <-.
    destruct (astype_float_None c Ha) as (xs & t & -> & Hfirst & Ht & Hf).
    exists col, xs, t. unfold astype_error. rewrite Hfirst. auto 10.
Qed.

(** X5. A run raises for one of four reasons only: a text entry that
    [float] rejects, in a column that is neither ['Name'] nor ignored, with
    the ValueError of [float] on the first such entry of the column; the
    user directory, whose exception is passed on; a user directory that
    answers with rows but no [name] column (KeyError); or a sheet with rows
    and no ['Name'] column (KeyError). *)
Theorem run_raises_only_for (bq : collaborators) (df : ref) (m y : string)
    (s s' : state) (d : DataFrame) (e : exn)
    (Hdf : heap s !! df = Some d)
    (Hrun : process_allocation_csv bq df m y s = (Raise e, s')) :
  (exists col xs t,
      In col (project_columns d) /\ get_column col d = Some (ColObj xs)
      /\ first_rejected (ColObj xs) = Some t
      /\ In (Some t) xs /\ float_of_str t = None
      /\ e = ValueError ("could not convert string to float: " ++ repr t))
  \/ get_users bq = UsersRaise e
  \/ (e = KeyError "name" /\ get_users bq = UsersFrame false None)
  \/ (e = KeyError "Name" /\ name_column d = None /\ (0 < nrows d)%nat).
Proof.
  pose proof (run_outcome bq df m y s d Hdf) as Ho. rewrite Hrun in Ho. cbn [fst] in Ho.
  unfold reconcile in Ho.
  destruct (convert_all _ (drop_all IGNORED_COLUMNS d)) as [o d2] eqn:Hc.
  destruct o as [[] | e0].
  - destruct (valid_users bq) as [u | e0] eqn:Hu.
    + right. right. right.
      destruct (name_column d2) as [names |] eqn:Hn.
      * rewrite (iterrows_spec _ _ _ _ Hn) in Ho. discriminate.
      * rewrite (iterrows_no_name _ _ _ Hn) in Ho.
        destruct (convert_all_layout _ _ _ _ Hc) as (Hname & Hrows & _).
        destruct (drop_all_index IGNORED_COLUMNS d) as [Hname' Hrows'].
        rewrite Hname, Hname' in Hn. rewrite Hrows, Hrows' in Ho.
        destruct (nrows d); [discriminate |]. injection Ho as <-.
        split; [reflexivity |]. split; [exact Hn | lia].
    + injection Ho as <-. right. unfold valid_users in Hu.
      destruct (get_users bq) as [e1 | empty name].
      * left. congruence.
      * right. left. destruct empty; [discriminate |]. cbn in Hu.
        destruct name; [discriminate |]. injection Hu as <-. auto.
  - injection Ho as <-. left.
    destruct (convert_all_raise_cause _ _ _ _
                (fun col H => proj1 (proj1 (non_name_columns_In _ _) H)) Hc)
      as (col & xs & t & Hin & Hg & Hfirst & Ht & Hf & He).
    exists col, xs, t.
    rewrite project_columns_dropped in Hin.
    split; [exact Hin |]. split; [| auto].
    rewrite <- Hg. symmetry. apply drop_all_get.
    apply project_columns_In in Hin. tauto.
Qed.

Lemma run_raises_only_for_witness :
  heap (holding text_sheet) !! 0%nat = Some text_sheet
  /\ process_allocation_csv (warehouse ann_lookup) 0%nat "Mar" "2025" (holding text_sheet)
     = (Raise (ValueError "could not convert string to float: 'abc'"), holding text_sheet)
  /\ ((exists col xs t,
          In col (project_columns text_sheet)
          /\ get_column col text_sheet = Some (ColObj xs)
          /\ first_rejected (ColObj xs) = Some t
          /\ In (Some t) xs /\ float_of_str t = None
          /\ ValueError "could not convert string to float: 'abc'"
             = ValueError ("could not convert string to float: " ++ repr t))
      \/ get_users (warehouse ann_lookup)
         = UsersRaise (ValueError "could not convert string to float: 'abc'")
      \/ (ValueError "could not convert string to float: 'abc'" = KeyError "name"
          /\ get_users (warehouse ann_lookup) = UsersFrame false None)
      \/ (ValueError "could not convert string to float: 'abc'" = KeyError "Name"
          /\ name_column text_sheet = None /\ (0 < nrows text_sheet)%nat)).
Proof.
  assert (heap (holding text_sheet) !! 0%nat = Some text_sheet) as Hdf by reflexivity.
  assert (process_allocation_csv (warehouse ann_lookup) 0%nat "Mar" "2025"
            (holding text_sheet)
          = (Raise (ValueError "could not convert string to float: 'abc'"),
             holding text_sheet))
    as Hrun by (vm_compute; reflexivity).
  split; [exact Hdf |]. split; [exact Hrun |].
  exact (run_raises_only_for _ _ _ _ _ _ _ _ Hdf Hrun).
Defined.

(** *** The caller's frame, however the run ends *)

Lemma frame_after_run (bq : collaborators) (df : ref) (m y : string) (s s' : state)
    (d : DataFrame) (o : outcome (list record)) :
  heap s !! df = Some d ->
  process_allocation_csv bq df m y s = (o, s') ->
  exists d', heap s' !! df = Some d'
    /\ (d' = d
        \/ (dropped IGNORED_COLUMNS d = false
            /\ exists oc, convert_all (non_name_columns d) d = (oc, d'))).
Proof.
  intros Hdf Hrun.
  destruct (run_spec_all df s d Hdf) as (r' & extra & Hfresh & Hlook & Heq).
  cbv zeta in Heq. rewrite Heq in Hrun. clear Heq.
  assert (df < length (heap s))%nat as Hlt by (eapply lookup_lt_Some; eauto).
  destruct (convert_all _ (drop_all IGNORED_COLUMNS d)) as [oc d2] eqn:Hc.
  cbn [fst snd] in Hrun.
  assert (heap s' = <[r' := d2]> (heap s ++ extra)%list) as Hheap.
  { destruct oc as [[] | e]; [destruct (valid_users bq) |];
      injection Hrun as _ <-; reflexivity. }
  destruct (dropped IGNORED_COLUMNS d) eqn:Hd.
  - exists d. split; [| left; reflexivity].
    rewrite Hheap, list_lookup_insert_ne by lia.
    rewrite lookup_app_l by lia. exact Hdf.
  - destruct Hfresh as [-> ->]. rewrite app_nil_r in *.
    rewrite (drop_all_kept _ _ Hd) in Hc.
    exists d2. split; [| right; split; [reflexivity | eauto]].
    rewrite Hheap. apply list_lookup_insert_eq. exact Hlt.
Qed.

Lemma cell_value_converted (d d' : DataFrame) (col : string) (i : nat) :
  get_column col d' = get_column col d
  \/ (exists c xs, get_column col d = Some c /\ astype_float c = Some xs
                   /\ get_column col d' = Some (ColFloat xs)) ->
  cell_value d' col i = cell_value d col i.
Proof.
  unfold cell_value. intros [-> | (c & xs & -> & Ha & ->)]; [reflexivity |].
  rewrite Ha. reflexivity.
Qed.

(** X6. However a run ends, also when it raises in the middle of the
    conversion loop, the caller's frame keeps its ['Name'] column, its
    index and its labels, each of its columns is either untouched or
    replaced by its conversion to float, and so every cell still reads as
    the same float. *)
Theorem sheet_content_survives_run (bq : collaborators) (df : ref) (m y : string)
    (s s' : state) (d : DataFrame) (o : outcome (list record))
    (Hdf : heap s !! df = Some d)
    (Hrun : process_allocation_csv bq df m y s = (o, s')) :
  exists d',
    heap s' !! df = Some d'
    /\ same_layout d d'
    /\ (forall col,
          get_column col d' = get_column col d
          \/ exists c xs, get_column col d = Some c /\ astype_float c = Some xs
                          /\ get_column col d' = Some (ColFloat xs))
    /\ (forall col i, cell_value d' col i = cell_value d col i).
Proof.
  destruct (frame_after_run _ _ _ _ _ _ _ _ Hdf Hrun) as (d' & Hd' & Hcase).
  exists d'. split; [exact Hd' |].
  assert (same_layout d d' /\
          forall col,
            get_column col d' = get_column col d
            \/ exists c xs, get_column col d = Some c /\ astype_float c = Some xs
                            /\ get_column col d' = Some (ColFloat xs)) as [Hl Hcols].
  { destruct Hcase as [-> | (_ & oc & Hc)].
    - split; [apply same_layout_refl | auto].
    - split; [eapply convert_all_layout; eauto |].
      intros col. eapply convert_all_partial; eauto. }
  split; [exact Hl |]. split; [exact Hcols |].
  intros col i. apply cell_value_converted, Hcols.
Qed.

Lemma sheet_content_survives_run_witness :
  heap (holding half_sheet) !! 0%nat = Some half_sheet
  /\ process_allocation_csv (warehouse ann_lookup) 0%nat "Mar" "2025" (holding half_sheet)
     = (Raise (ValueError "could not convert string to float: 'n/a'"), holding half_converted)
  /\ exists d',
       heap (holding half_converted) !! 0%nat = Some d'
       /\ same_layout half_sheet d'
       /\ (forall col,
             get_column col d' = get_column col half_sheet
             \/ exists c xs, get_column col half_sheet = Some c /\ astype_float c = Some xs
                             /\ get_column col d' = Some (ColFloat xs))
       /\ (forall col i, cell_value d' col i = cell_value half_sheet col i).
Proof.
  assert (heap (holding half_sheet) !! 0%nat = Some half_sheet) as Hdf by reflexivity.
  assert (process_allocation_csv (warehouse ann_lookup) 0%nat "Mar" "2025"
            (holding half_sheet)
          = (Raise (ValueError "could not convert string to float: 'n/a'"), holding half_converted))
    as Hrun by (vm_compute; reflexivity).
  split; [exact Hdf |]. split; [exact Hrun |].
  exact (sheet_content_survives_run _ _ _ _ _ _ _ _ Hdf Hrun).
Defined.

Lemma outcome_after_run (bq bq' : collaborators) (df : ref) (m y m' y' : string)
    (s s1 : state) (d : DataFrame) (o : outcome (list record)) :
  heap s !! df = Some d ->
  process_allocation_csv bq df m y s = (o, s1) ->
  fst (process_allocation_csv bq' df m' y' s1) = reconcile bq' m' y' d.
Proof.
  intros Hdf Hrun.
  destruct (frame_after_run _ _ _ _ _ _ _ _ Hdf Hrun) as (d' & Hd' & Hcase).
  rewrite (run_outcome _ _ _ _ _ _ Hd').
  destruct Hcase as [-> | (Hkept & oc & Hc)]; [reflexivity |].
  pose proof (convert_all_layout _ _ _ _ Hc) as Hl.
  unfold reconcile.
  rewrite (drop_all_kept _ _ Hkept).
  rewrite (drop_all_kept _ d') by (rewrite (dropped_layout _ _ Hl); exact Hkept).
  rewrite (same_layout_non_name _ _ Hl).
  rewrite (convert_all_resume _ _ _ _ Hc), Hc. reflexivity.
Qed.

(** X7. A run does not change what later runs on the same frame give,
    the warehouse replying as before: after any run, returned or raised, a
    run for any period returns or raises what it would have without the
    earlier run. *)
Theorem later_runs_are_unaffected (bq : collaborators) (df : ref) (m y m' y' : string)
    (s s1 : state) (d : DataFrame) (o : outcome (list record))
    (Hdf : heap s !! df = Some d)
    (Hrun : process_allocation_csv bq df m y s = (o, s1)) :
  fst (process_allocation_csv bq df m' y' s1) = fst (process_allocation_csv bq df m' y' s).
Proof.
  rewrite (outcome_after_run _ _ _ _ _ _ _ _ _ _ _ Hdf Hrun).
  symmetry. apply run_outcome. exact Hdf.
Qed.

Lemma later_runs_are_unaffected_witness :
  heap (holding ann_sheet) !! 0%nat = Some ann_sheet
  /\ process_allocation_csv (warehouse ann_lookup) 0%nat "Mar" "2025" (holding ann_sheet)
     = (Return [ann_record], holding (one_cell "Ann" "SDI" (ColFloat [F64.of_int 10])))
  /\ fst (process_allocation_csv (warehouse ann_lookup) 0%nat "Apr" "2024"
            (holding (one_cell "Ann" "SDI" (ColFloat [F64.of_int 10]))))
     = fst (process_allocation_csv (warehouse ann_lookup) 0%nat "Apr" "2024"
              (holding ann_sheet)).
Proof.
  assert (heap (holding ann_sheet) !! 0%nat = Some ann_sheet) as Hdf by reflexivity.
  assert (process_allocation_csv (warehouse ann_lookup) 0%nat "Mar" "2025" (holding ann_sheet)
          = (Return [ann_record],
             holding (one_cell "Ann" "SDI" (ColFloat [F64.of_int 10])))) as Hrun
    by (vm_compute; reflexivity).
  split; [exact Hdf |]. split; [exact Hrun |].
  exact (later_runs_are_unaffected _ _ _ _ "Apr" "2024" _ _ _ _ Hdf Hrun).
Defined.

Lemma cons_eq_inv_pair (p q : string) (a b : pynum) :
  @Return (string * pynum) (p, a) = Return (q, b) -> p = q /\ a = b.
Proof. intros H. split; congruence. Qed.

(** ** The collaborators in a run *)

(** X8. The user directory is fetched but not consulted: with the same
    ticket replies, two warehouses whose user directories both answer give
    the same run, whatever names the directories hold. *)
Theorem user_directory_is_not_consulted (bq1 bq2 : collaborators) (df : ref) (m y : string)
    (s : state) (u1 u2 : gset string)
    (Htickets : jira_tickets bq1 = jira_tickets bq2)
    (Hu1 : fst (fetch_valid_users bq1 s) = Return u1)
    (Hu2 : fst (fetch_valid_users bq2 s) = Return u2) :
  process_allocation_csv bq1 df m y s = process_allocation_csv bq2 df m y s.
Proof.
  rewrite fetch_valid_users_spec in Hu1, Hu2. cbn [fst] in Hu1, Hu2.
  destruct (heap s !! df) as [d |] eqn:Hdf.
  - destruct (run_spec_all df s d Hdf) as (r' & extra & _ & _ & Heq).
    cbv zeta in Heq. rewrite !Heq, Hu1, Hu2.
    unfold fetched. rewrite Htickets. reflexivity.
  - rewrite !run_dangling by exact Hdf. reflexivity.
Qed.

Lemma user_directory_is_not_consulted_witness :
  jira_tickets (warehouse ann_lookup) = jira_tickets (staffed_warehouse ann_lookup)
  /\ fst (fetch_valid_users (warehouse ann_lookup) (holding team_sheet)) = Return ∅
  /\ fst (fetch_valid_users (staffed_warehouse ann_lookup) (holding team_sheet))
     = Return (list_to_set ["Bob"])
  /\ process_allocation_csv (warehouse ann_lookup) 0%nat "Mar" "2025" (holding team_sheet)
     = process_allocation_csv (staffed_warehouse ann_lookup) 0%nat "Mar" "2025"
         (holding team_sheet).
Proof.
  assert (jira_tickets (warehouse ann_lookup) = jira_tickets (staffed_warehouse ann_lookup))
    as Ht by reflexivity.
  assert (fst (fetch_valid_users (warehouse ann_lookup) (holding team_sheet)) = Return ∅)
    as H1 by reflexivity.
  assert (fst (fetch_valid_users (staffed_warehouse ann_lookup) (holding team_sheet))
          = Return (list_to_set ["Bob"])) as H2 by reflexivity.
  split; [exact Ht |]. split; [exact H1 |]. split; [exact H2 |].
  exact (user_directory_is_not_consulted _ _ 0%nat "Mar" "2025" _ _ _ Ht H1 H2).
Defined.

(** X9. The actual hours of a record are those the lookup holds for the
    record's name under the record's project, the name the mapping gave
    and not the label of the sheet; 0 (an int) when the lookup has none.
    For the combined column they are the sum over its two projects. *)
Theorem actual_hours_follow_project (bq : collaborators) (df : ref) (m y : string)
    (s s' : state) (out : list record) (rec : record)
    (lookup : gmap (string * string) float)
    (Hlookup : fst (fetch_all_actual_hours bq m y s) = Return lookup)
    (Hrun : process_allocation_csv bq df m y s = (Return out, s'))
    (Hin : In rec out) :
  Actual_Hours rec = lookup_get lookup (Name rec) (Project rec)
  \/ (Project rec = "VARS/Vitawerks"
      /\ Actual_Hours rec = py_sum [lookup_get lookup (Name rec) "VARS";
                                    lookup_get lookup (Name rec) "Vitawerks"]).
Proof.
  rewrite fetch_all_actual_hours_spec in Hlookup. cbn [fst] in Hlookup.
  injection Hlookup as Hlookup.
  destruct (run_record _ _ _ _ _ _ _ _ Hrun Hin) as (col & _ & Hs & _).
  rewrite Hlookup in Hs.
  destruct (String.eqb_spec col "Vars/Vita.") as [-> | Hcol].
  { right. rewrite standardize_combined in Hs.
    destruct (cons_eq_inv_pair _ _ _ _ Hs) as [<- <-]. split; reflexivity. }
  left. unfold standardize in Hs.
  apply String.eqb_neq in Hcol. rewrite Hcol in Hs.
  destruct (dict_get col PROJECT_NAME_MAPPING) as [[p | ps] |]; try discriminate;
    destruct (cons_eq_inv_pair _ _ _ _ Hs) as [<- <-]; reflexivity.
Qed.

Lemma actual_hours_follow_project_witness :
  fst (fetch_all_actual_hours (warehouse ann_lookup) "Mar" "2025" (holding team_sheet))
  = Return ann_lookup
  /\ process_allocation_csv (warehouse ann_lookup) 0%nat "Mar" "2025" (holding team_sheet)
     = (Return team_report, {| heap := [team_sheet; team_copy]; warnings := [] |})
  /\ In ann_record team_report
  /\ (Actual_Hours ann_record = lookup_get ann_lookup (Name ann_record) (Project ann_record)
      \/ (Project ann_record = "VARS/Vitawerks"
          /\ Actual_Hours ann_record
             = py_sum [lookup_get ann_lookup (Name ann_record) "VARS";
                       lookup_get ann_lookup (Name ann_record) "Vitawerks"])).
Proof.
  assert (fst (fetch_all_actual_hours (warehouse ann_lookup) "Mar" "2025" (holding team_sheet))
          = Return ann_lookup) as Hl by reflexivity.
  assert (process_allocation_csv (warehouse ann_lookup) 0%nat "Mar" "2025" (holding team_sheet)
          = (Return team_report, {| heap := [team_sheet; team_copy]; warnings := [] |}))
    as Hrun by (vm_compute; reflexivity).
  assert (In ann_record team_report) as Hin by (left; reflexivity).
  split; [exact Hl |]. split; [exact Hrun |]. split; [exact Hin |].
  exact (actual_hours_follow_project _ _ _ _ _ _ _ _ _ Hl Hrun Hin).
Defined.

(** ** Month names *)

Lemma flexible_match_lower (m m' : string) (e : nat * string) :
  lower m = lower m' -> flexible_match m e = flexible_match m' e.
Proof. unfold flexible_match. intros ->. reflexivity. Qed.

Lemma find_ext_all {A : Type} (p q : A -> bool) (l : list A) :
  (forall x, p x = q x) -> List.find p l = List.find q l.
Proof.
  intros H. induction l as [| x l IH]; [reflexivity |].
  cbn [List.find]. rewrite H, IH. reflexivity.
Qed.

(** A name in the list of the calendar, or a key of the month mapping, is
    one of finitely many strings. *)
Lemma nth_error_month_name (i : nat) (x : string) :
  nth_error calendar_month_name i = Some x ->
  x = nth i calendar_month_name "" /\ (i <= 12)%nat.
Proof.
  intros H. split.
  - symmetry. apply nth_error_nth. exact H.
  - assert (i < length calendar_month_name)%nat as Hlt
      by (apply nth_error_Some; congruence).
    cbn in Hlt. lia.
Qed.

Ltac months_by_cases k :=
  do 13 (destruct k as [| k]; [try lia; try discriminate; try reflexivity |]); try lia.

(** X10. Month names are recognised whatever their case: a string that, in
    lower case, is a full month name or a three-letter abbreviation in
    lower case has that month's number. *)
Theorem months_are_recognised_in_any_case (m : string) (k : nat)
    (Hk : (1 <= k <= 12)%nat)
    (Hm : lower m = lower (nth k calendar_month_name "")
          \/ lower m = lower (nth k calendar_month_abbr "")) :
  get_month_number m = k.
Proof.
  destruct (dict_get m MONTH_MAPPING) as [full |] eqn:Hd.
  { apply dict_get_In in Hd. cbn [MONTH_MAPPING In] in Hd.
    repeat (destruct Hd as [Hd | Hd];
            [injection Hd as <- <-; destruct Hm as [Hm | Hm]; months_by_cases k |]).
    contradiction. }
  destruct (list_index m calendar_month_name) as [i |] eqn:Hi.
  { apply list_index_Some, nth_error_month_name in Hi. destruct Hi as [-> Hi].
    destruct Hm as [Hm | Hm];
      do 13 (destruct i as [| i]; [months_by_cases k |]); lia. }
  unfold get_month_number, standardize_month_name. rewrite Hd, Hi.
  destruct Hm as [Hm | Hm];
    rewrite (find_ext_all _ _ _ (fun e => flexible_match_lower _ _ e Hm));
    months_by_cases k.
Qed.

Lemma months_are_recognised_in_any_case_witness :
  (1 <= 9 <= 12)%nat
  /\ (lower "SEPTEMBER" = lower (nth 9 calendar_month_name "")
      \/ lower "SEPTEMBER" = lower (nth 9 calendar_month_abbr ""))
  /\ get_month_number "SEPTEMBER" = 9%nat.
Proof.
  assert (1 <= 9 <= 12)%nat as Hk by lia.
  assert (lower "SEPTEMBER" = lower (nth 9 calendar_month_name "")
          \/ lower "SEPTEMBER" = lower (nth 9 calendar_month_abbr "")) as Hm
    by (left; reflexivity).
  split; [exact Hk |]. split; [exact Hm |].
  exact (months_are_recognised_in_any_case "SEPTEMBER" 9 Hk Hm).
Defined.

Lemma standardize_month_name_number (m : string) :
  standardize_month_name (standardize_month_name m) = standardize_month_name m
  /\ get_month_number (standardize_month_name m) = get_month_number m.
Proof.
  unfold standardize_month_name at 2 4.
  destruct (dict_get m MONTH_MAPPING) as [full |] eqn:Hd; [| auto].
  apply dict_get_In in Hd. cbn [MONTH_MAPPING In] in Hd.
  repeat (destruct Hd as [Hd | Hd]; [injection Hd as <- <-; split; reflexivity |]).
  contradiction.
Qed.

(** X11. An abbreviation and the full name it stands for are the same
    month to every function that takes a month: [standardize_month_name]
    changes nothing when applied twice, keeps the month's number, and the
    lookup builder and the reconciler give the same for a month and for
    its standardized name. *)
Theorem standardized_month_is_the_same_month (bq : collaborators) (df : ref) (m y : string)
    (s : state) :
  standardize_month_name (standardize_month_name m) = standardize_month_name m
  /\ get_month_number (standardize_month_name m) = get_month_number m
  /\ fetch_all_actual_hours bq (standardize_month_name m) y s
     = fetch_all_actual_hours bq m y s
  /\ process_allocation_csv bq df (standardize_month_name m) y s
     = process_allocation_csv bq df m y s.
Proof.
  destruct (standardize_month_name_number m) as [Hidem Hnum].
  assert (fetched bq (standardize_month_name m) y = fetched bq m y) as Hf
    by (unfold fetched, month_query; rewrite Hnum; reflexivity).
  split; [exact Hidem |]. split; [exact Hnum |]. split.
  - rewrite !fetch_all_actual_hours_spec, Hf. reflexivity.
  - destruct (heap s !! df) as [d |] eqn:Hdf.
    + destruct (run_spec_all df s d Hdf) as (r' & extra & _ & _ & Heq).
      cbv zeta in Heq. rewrite !Heq, Hf. reflexivity.
    + rewrite !run_dangling by exact Hdf. reflexivity.
Qed.

(** X12. Once a run on a frame has returned, a run on the same frame for
    another period returns too, whatever the ticket warehouse replies, as
    long as the user directory answers: the conversion cannot fail a second
    time. The new report has the same names, projects and expected hours,
    row by row; only the actual hours and the completion change. *)
Theorem reprocessing_returns (bq bq' : collaborators) (df : ref) (m y m' y' : string)
    (s s1 : state) (out : list record) (u : gset string)
    (Hrun : process_allocation_csv bq df m y s = (Return out, s1))
    (Husers : fst (fetch_valid_users bq' s1) = Return u) :
  exists out' s2,
    process_allocation_csv bq' df m' y' s1 = (Return out', s2)
    /\ shape <$> out' = shape <$> out.
Proof.
  rewrite fetch_valid_users_spec in Husers. cbn [fst] in Husers.
  destruct (heap s !! df) as [d |] eqn:Hdf.
  2:{ rewrite (run_dangling _ _ _ _ _ Hdf) in Hrun. discriminate. }
  pose proof (outcome_after_run bq bq' df m y m' y' s s1 d _ Hdf Hrun) as Hafter.
  pose proof (run_outcome bq df m y s d Hdf) as Hbefore.
  rewrite Hrun in Hbefore. cbn [fst] in Hbefore.
  unfold reconcile in Hafter, Hbefore. rewrite Husers in Hafter.
  destruct (convert_all _ (drop_all IGNORED_COLUMNS d)) as [oc d2].
  destruct oc as [[] | e]; [| discriminate].
  destruct (valid_users bq) as [u0 | e]; [| discriminate].
  pose proof (iterrows_shape (fst (fetched bq' m' y')) (fst (fetched bq m y)) d2
                (non_name_columns d2)) as Hshape.
  destruct (iterrows (fst (fetched bq m y)) d2 (non_name_columns d2)) as [p |];
    [| discriminate].
  destruct (iterrows (fst (fetched bq' m' y')) d2 (non_name_columns d2)) as [p' |];
    [| contradiction].
  change (Return out = Return (sort_values p)) in Hbefore.
  injection Hbefore as Hout. subst out.
  destruct (process_allocation_csv bq' df m' y' s1) as [o' s2]. cbn [fst] in Hafter.
  change (o' = Return (sort_values p')) in Hafter.
  subst o'. exists (sort_values p'), s2. split; [reflexivity |].
  apply sort_values_shape. exact Hshape.
Qed.

Lemma reprocessing_returns_witness :
  process_allocation_csv (warehouse ann_lookup) 0%nat "Mar" "2025" (holding team_sheet)
     = (Return team_report, {| heap := [team_sheet; team_copy]; warnings := [] |})
  /\ fst (fetch_valid_users no_tickets
            {| heap := [team_sheet; team_copy]; warnings := [] |}) = Return ∅
  /\ exists out' s2,
       process_allocation_csv no_tickets 0%nat "Apr" "2024"
         {| heap := [team_sheet; team_copy]; warnings := [] |} = (Return out', s2)
       /\ shape <$> out' = shape <$> team_report.
Proof.
  assert (process_allocation_csv (warehouse ann_lookup) 0%nat "Mar" "2025" (holding team_sheet)
          = (Return team_report, {| heap := [team_sheet; team_copy]; warnings := [] |}))
    as Hrun by (vm_compute; reflexivity).
  assert (fst (fetch_valid_users no_tickets
                 {| heap := [team_sheet; team_copy]; warnings := [] |}) = Return ∅)
    as Hu by reflexivity.
  split; [exact Hrun |]. split; [exact Hu |].
  exact (reprocessing_returns _ no_tickets _ _ _ "Apr" "2024" _ _ _ _ Hrun Hu).
Defined.

(** ** The months and years offered for selection *)

Lemma entry_eqb_eq (a b : entry) : entry_eqb a b = true <-> a = b.
Proof.
  destruct a as [s | s1 t1], b as [t | s2 t2]; cbn [entry_eqb];
    rewrite ?andb_true_iff, ?String.eqb_eq; split; try congruence; try discriminate.
  - intros [-> ->]. reflexivity.
  - intros H. injection H as -> ->. auto.
Qed.

Lemma unique_In (l : list entry) : forall (seen : list entry) (e : entry),
  In e (unique seen l) <-> In e l /\ ~ In e seen.
Proof.
  induction l as [| x l IH]; intros seen e; cbn [unique]; [cbn; tauto |].
  destruct (existsb (entry_eqb x) seen) eqn:Hx.
  - rewrite IH. apply existsb_exists in Hx. destruct Hx as (z & Hz & Heq).
    apply entry_eqb_eq in Heq. subst z. cbn [In]. split; [tauto |].
    intros [[<- | H] Hn]; [contradiction | auto].
  - cbn [In]. rewrite IH. cbn [In].
    assert (~ In x seen) as Hn.
    { intros Hin. apply not_true_iff_false in Hx. apply Hx, existsb_exists.
      exists x. split; [exact Hin | apply entry_eqb_eq; reflexivity]. }
    split.
    + intros [<- | [H Hs]]; [tauto |]. tauto.
    + intros [[<- | H] Hs]; [tauto |].
      destruct (entry_eqb x e) eqn:He; [apply entry_eqb_eq in He; tauto |].
      right. split; [exact H |]. intros [-> | Hin]; [| contradiction].
      apply not_true_iff_false in He. apply He, entry_eqb_eq. reflexivity.
Qed.

Lemma month_entries_In (empty : bool) (entries : list entry) (e : entry) :
  In e (month_entries (MonthsFrame empty (Some entries))) <-> empty = false /\ In e entries.
Proof.
  destruct empty; cbn [month_entries]; [cbn; intuition discriminate |].
  rewrite unique_In. cbn. tauto.
Qed.

Lemma union_step (x : string) (X Y : gset string) : X ∪ ({[ x ]} ∪ Y) = {[ x ]} ∪ X ∪ Y.
Proof. rewrite (assoc_L (∪)), (comm_L (∪) X). reflexivity. Qed.

Lemma union_empty_l (X : gset string) : ∅ ∪ X = X.
Proof. apply (left_id_L ∅ (∪)). Qed.

Lemma note_month_spec (sets : gset string * gset string) (e : entry) (s : state) :
  note_month sets e s
  = (Return match month_and_year e with
            | Some (m, y) => ({[ m ]} ∪ fst sets, {[ y ]} ∪ snd sets)
            | None => sets
            end,
     {| heap := heap s;
        warnings := (warnings s ++ match split_warning e with
                                   | Some w => [w]
                                   | None => []
                                   end)%list |}).
Proof.
  destruct e as [month_str | shown type_name]; cbn [note_month month_and_year split_warning].
  - rewrite app_nil_r, state_eta.
    destruct (split month_str) as [| month_name [| year [| z l]]]; reflexivity.
  - reflexivity.
Qed.

Lemma for_months_spec (entries : list entry) :
  forall (sets : gset string * gset string) (s : state),
    for_months entries sets s
    = (Return (list_to_set (fst <$> omap month_and_year entries) ∪ fst sets,
               list_to_set (snd <$> omap month_and_year entries) ∪ snd sets),
       {| heap := heap s; warnings := (warnings s ++ omap split_warning entries)%list |}).
Proof.
  induction entries as [| e entries IH]; intros [ms ys] s.
  - cbn. rewrite app_nil_r, state_eta, !union_empty_l. reflexivity.
  - cbn [for_months]. rewrite bind_run, note_month_spec, IH.
    cbn [omap list_omap heap warnings fst snd].
    destruct (month_and_year e) as [[m y] |]; destruct (split_warning e) as [w |];
      cbn [fst snd fmap list_fmap list_to_set]; rewrite ?union_step, <- ?app_assoc, ?app_nil_r;
      reflexivity.
Qed.

Lemma collected (reply_empty : bool) (month : option (list entry)) (s : state) :
  let reply := MonthsFrame reply_empty month in
  match month with
  | Some entries =>
      if negb reply_empty then for_months (unique [] entries) (∅, ∅) else mret (∅, ∅)
  | None => mret (∅, ∅)
  end s
  = (Return (months_set reply, years_set reply),
     {| heap := heap s;
        warnings := (warnings s ++ omap split_warning (month_entries reply))%list |}).
Proof.
  intros reply. unfold months_set, years_set, reply.
  destruct month as [entries |]; destruct reply_empty; cbn [negb month_entries].
  - cbn. rewrite app_nil_r, state_eta. reflexivity.
  - rewrite for_months_spec. cbn [fst snd]. rewrite !union_empty_r_L. reflexivity.
  - cbn. rewrite app_nil_r, state_eta. reflexivity.
  - cbn. rewrite app_nil_r, state_eta. reflexivity.
Qed.

Lemma get_months_and_years_spec (reply_empty : bool) (month : option (list entry))
    (current_year : Z) (listing : gset string -> list string) (s : state) :
  let reply := MonthsFrame reply_empty month in
  get_months_and_years reply current_year listing s
  = (Return (months_list reply listing, years_list reply current_year listing),
     {| heap := heap s;
        warnings := (warnings s ++ omap split_warning (month_entries reply))%list |}).
Proof.
  intros reply. unfold get_months_and_years, reply.
  rewrite bind_run, collected. reflexivity.
Qed.

(** *** Sorting by insertion *)

Lemma insert_by_perm {A : Type} (le : A -> A -> bool) (x : A) (l : list A) :
  insert_by le x l ≡ₚ x :: l.
Proof.
  induction l as [| y l IH]; [reflexivity |].
  cbn [insert_by]. destruct (le x y); [reflexivity |].
  rewrite IH. apply Permutation_swap.
Qed.

Lemma sorted_by_perm {A : Type} (le : A -> A -> bool) (l : list A) :
  sorted_by le l ≡ₚ l.
Proof.
  induction l as [| x l IH]; [reflexivity |].
  cbn [sorted_by foldr]. fold (sorted_by le l). rewrite insert_by_perm, IH. reflexivity.
Qed.

Lemma insert_by_sorted {A : Type} (le : A -> A -> bool) (x : A) (l : list A) :
  (forall a b, le a b = true \/ le b a = true) ->
  (forall a b c, le a b = true -> le b c = true -> le a c = true) ->
  StronglySorted (fun a b => le a b = true) l ->
  StronglySorted (fun a b => le a b = true) (insert_by le x l).
Proof.
  intros Htot Htrans. induction l as [| y l IH]; intros Hs.
  - repeat constructor.
  - cbn [insert_by]. apply StronglySorted_inv in Hs. destruct Hs as [Hl Hy].
    destruct (le x y) eqn:Hxy.
    + constructor; [constructor; assumption |].
      constructor; [exact Hxy |].
      eapply List.Forall_impl; [| exact Hy]. cbn. intros z Hz. eapply Htrans; eauto.
    + constructor; [apply IH; exact Hl |].
      rewrite (insert_by_perm le x l). constructor; [| exact Hy].
      destruct (Htot x y); congruence.
Qed.

Lemma sorted_by_sorted {A : Type} (le : A -> A -> bool) (l : list A) :
  (forall a b, le a b = true \/ le b a = true) ->
  (forall a b c, le a b = true -> le b c = true -> le a c = true) ->
  StronglySorted (fun a b => le a b = true) (sorted_by le l).
Proof.
  intros Htot Htrans. induction l as [| x l IH]; [constructor |].
  cbn [sorted_by foldr]. apply insert_by_sorted; assumption.
Qed.

Lemma sorted_by_nil {A : Type} (le : A -> A -> bool) (l : list A) :
  sorted_by le l = [] <-> l = [].
Proof.
  split; [| intros ->; reflexivity].
  intros H. apply Permutation_nil_r. rewrite <- H. symmetry. apply sorted_by_perm.
Qed.

Lemma month_le_total (a b : string) : month_le a b = true \/ month_le b a = true.
Proof. unfold month_le. rewrite !Nat.leb_le. lia. Qed.

Lemma month_le_trans (a b c : string) :
  month_le a b = true -> month_le b c = true -> month_le a c = true.
Proof. unfold month_le. rewrite !Nat.leb_le. lia. Qed.

Lemma string_leb_trans (a b c : string) :
  String.leb a b = true -> String.leb b c = true -> String.leb a c = true.
Proof.
  unfold String.leb. intros Ha Hb.
  pose proof (string_compare_le_trans a b c) as Ht.
  destruct (String.compare a b); try discriminate;
    destruct (String.compare b c); try discriminate;
    destruct (String.compare a c); try reflexivity;
    exfalso; apply Ht; congruence.
Qed.

Lemma strongly_sorted_impl {A : Type} (R1 R2 : A -> A -> Prop) (l : list A) :
  (forall a b, In a l -> In b l -> a <> b -> R1 a b -> R2 a b) ->
  List.NoDup l -> StronglySorted R1 l -> StronglySorted R2 l.
Proof.
  induction l as [| x l IH]; intros Himp Hnd Hs; [constructor |].
  apply StronglySorted_inv in Hs. destruct Hs as [Hl Hx].
  apply NoDup_cons_iff in Hnd. destruct Hnd as [Hnot Hnd].
  constructor.
  - apply IH; [| exact Hnd | exact Hl].
    intros a b Ha Hb. apply Himp; right; assumption.
  - rewrite List.Forall_forall in Hx |- *. intros y Hy.
    apply Himp; [left; reflexivity | right; exact Hy | | apply Hx; exact Hy].
    intros ->. contradiction.
Qed.

(** *** What the lists hold *)

Lemma months_set_In (reply : months_reply) (m : string) :
  m ∈ months_set reply <->
  exists e y, In e (month_entries reply) /\ month_and_year e = Some (m, y).
Proof.
  unfold months_set. rewrite elem_of_list_to_set, list_elem_of_fmap. split.
  - intros ([m' y] & -> & H). apply list_elem_of_omap in H.
    destruct H as (e & He & Hm). exists e, y. split; [apply list_elem_of_In; exact He | exact Hm].
  - intros (e & y & He & Hm). exists (m, y). split; [reflexivity |].
    apply list_elem_of_omap. exists e. split; [apply list_elem_of_In; exact He | exact Hm].
Qed.

Lemma years_set_In (reply : months_reply) (y : string) :
  y ∈ years_set reply <->
  exists e m, In e (month_entries reply) /\ month_and_year e = Some (m, y).
Proof.
  unfold years_set. rewrite elem_of_list_to_set, list_elem_of_fmap. split.
  - intros ([m y'] & -> & H). apply list_elem_of_omap in H.
    destruct H as (e & He & Hm). exists e, m. split; [apply list_elem_of_In; exact He | exact Hm].
  - intros (e & m & He & Hm). exists (m, y). split; [reflexivity |].
    apply list_elem_of_omap. exists e. split; [apply list_elem_of_In; exact He | exact Hm].
Qed.

Lemma listing_In (listing : gset string -> list string) (X : gset string) (x : string) :
  (forall X, listing X ≡ₚ elements X) -> In x (listing X) <-> x ∈ X.
Proof.
  intros Hl. rewrite <- list_elem_of_In, (Hl X). apply elem_of_elements.
Qed.

Lemma listing_NoDup (listing : gset string -> list string) (X : gset string) :
  (forall X, listing X ≡ₚ elements X) -> List.NoDup (listing X).
Proof. intros Hl. apply NoDup_ListNoDup. rewrite (Hl X). apply NoDup_elements. Qed.

Lemma listing_nil (listing : gset string -> list string) (X : gset string) :
  (forall X, listing X ≡ₚ elements X) -> listing X = [] <-> X = ∅.
Proof.
  intros Hl. split.
  - intros H. apply leibniz_equiv, elements_empty_iff, Permutation_nil_r.
    rewrite <- H. symmetry. apply Hl.
  - intros ->. apply Permutation_nil_r. rewrite (Hl ∅), elements_empty. reflexivity.
Qed.

Lemma match_nil_In {A : Type} (l dflt : list A) :
  l <> [] -> match l with [] => dflt | _ => l end = l.
Proof. destruct l; [contradiction | reflexivity]. Qed.

(** *** Words *)

Lemma flush_In (word : list ascii) (w : string) : In w (flush word) -> w <> "".
Proof.
  destruct word as [| c word]; [intros [] |].
  intros [<- | []]. cbn [rev]. intros H.
  apply (f_equal list_ascii_of_string) in H.
  rewrite list_ascii_of_string_of_list_ascii in H. cbn in H.
  destruct (rev word); discriminate.
Qed.

(** [split] returns no empty word. *)
Lemma split_from_In (s : string) : forall (skip : nat) (word : list ascii) (w : string),
  In w (split_from skip word s) -> w <> "".
Proof.
  induction s as [| c s IH]; intros skip word w; cbn [split_from].
  - apply flush_In.
  - destruct skip as [| k]; [| apply IH].
    destruct (space_width (String c s)) as [| k]; [apply IH |].
    intros H. apply in_app_or in H. destruct H as [H | H]; [eapply flush_In | eapply IH]; eauto.
Qed.

Lemma standardize_month_name_nonempty (m : string) :
  m <> "" -> standardize_month_name m <> "".
Proof.
  intros Hm. unfold standardize_month_name.
  destruct (dict_get m MONTH_MAPPING) as [full |] eqn:Hd; [| exact Hm].
  apply dict_get_In in Hd. cbn [MONTH_MAPPING In] in Hd.
  repeat (destruct Hd as [Hd | Hd]; [injection Hd as <- <-; discriminate |]).
  contradiction.
Qed.

Lemma month_and_year_Some (e : entry) (m y : string) :
  month_and_year e = Some (m, y) <->
  exists t w, e = Text t /\ split t = [w; y] /\ m = standardize_month_name w.
Proof.
  destruct e as [t | shown type_name]; cbn [month_and_year].
  - split.
    + destruct (split t) as [| w [| y' [| z l]]] eqn:Hs; try discriminate.
      intros H. injection H as <- <-. exists t, w. auto.
    + intros (t' & w & Ht & Hs & ->). injection Ht as <-. rewrite Hs. reflexivity.
  - split; [discriminate |]. intros (t & w & Ht & _). discriminate.
Qed.

Lemma DEFAULT_MONTHS_facts (m : string) :
  In m DEFAULT_MONTHS ->
  m <> "" /\ standardize_month_name m = m /\ (1 <= get_month_number m <= 12)%nat.
Proof.
  cbn [DEFAULT_MONTHS In]. intros H.
  repeat (destruct H as [<- | H]; [repeat split; try discriminate; cbn; lia |]).
  contradiction.
Qed.

Lemma months_list_In (reply : months_reply) (listing : gset string -> list string)
    (m : string) :
  (forall X, listing X ≡ₚ elements X) ->
  In m (months_list reply listing) ->
  In m DEFAULT_MONTHS \/ m ∈ months_set reply.
Proof.
  intros Hl. unfold months_list. cbv zeta.
  destruct (sorted_by month_le (listing (months_set reply))) as [| x l] eqn:Hs; [auto |].
  intros H. right. rewrite <- Hs in H.
  apply list_elem_of_In in H. rewrite sorted_by_perm in H.
  apply list_elem_of_In, (listing_In _ _ _ Hl) in H. exact H.
Qed.


(** X14. When no entry splits in two words (an empty frame, a frame
    without a [month] column, strings of one or three words, values that
    are no strings) the function returns the twelve month names and the
    three years up to the current one. *)
Theorem defaults_when_no_entry_splits (reply_empty : bool) (month : option (list entry))
    (current_year : Z) (listing : gset string -> list string) (s : state)
    (Hlisting : forall X, listing X ≡ₚ elements X)
    (Hnone : forall e, In e (month_entries (MonthsFrame reply_empty month)) ->
                       month_and_year e = None) :
  fst (get_months_and_years (MonthsFrame reply_empty month) current_year listing s)
  = Return (DEFAULT_MONTHS,
            [ str_of_int (current_year - 2); str_of_int (current_year - 1);
              str_of_int current_year ]).
Proof.
  rewrite get_months_and_years_spec. cbn [fst].
  assert (omap month_and_year (month_entries (MonthsFrame reply_empty month)) = []) as Hp.
  { induction (month_entries (MonthsFrame reply_empty month)) as [| e l IH]; [reflexivity |].
    cbn [omap list_omap]. rewrite (Hnone e) by (left; reflexivity).
    apply IH. intros e' He'. apply Hnone. right. exact He'. }
  unfold months_list, years_list, months_set, years_set. rewrite Hp. cbn [fmap list_fmap list_to_set].
  rewrite (proj2 (listing_nil listing ∅ Hlisting) eq_refl). reflexivity.
Qed.

Lemma defaults_when_no_entry_splits_witness :
  (forall X : gset string, elements X ≡ₚ elements X)
  /\ (forall e, In e (month_entries odd_months) -> month_and_year e = None)
  /\ fst (get_months_and_years odd_months 2026 elements
            {| heap := []; warnings := [] |})
     = Return (DEFAULT_MONTHS, ["2024"; "2025"; "2026"]).
Proof.
  assert (forall X : gset string, elements X ≡ₚ elements X) as Hl by reflexivity.
  assert (forall e, In e (month_entries odd_months) -> month_and_year e = None) as Hnone.
  { cbn. intros e [<- | [<- | [<- | []]]]; reflexivity. }
  split; [exact Hl |]. split; [exact Hnone |].
  exact (defaults_when_no_entry_splits false _ 2026 elements _ Hl Hnone).
Defined.

(** X15. As soon as one entry splits in two words, the months offered are
    the standardized first words and the years offered are the second
    words of the entries that split in two, and nothing else: no default
    is added. *)
Theorem offered_periods_come_from_the_entries (entries : list entry) (current_year : Z)
    (listing : gset string -> list string) (s : state) (months years : list string)
    (t0 w0 y0 : string)
    (Hlisting : forall X, listing X ≡ₚ elements X)
    (Hrun : fst (get_months_and_years (MonthsFrame false (Some entries)) current_year
                   listing s)
            = Return (months, years))
    (Hin : In (Text t0) entries)
    (Hsplit : split t0 = [w0; y0]) :
  (forall m, In m months <->
             exists t w y, In (Text t) entries /\ split t = [w; y]
                           /\ m = standardize_month_name w)
  /\ (forall y, In y years <->
                exists t w, In (Text t) entries /\ split t = [w; y]).
Proof.
  rewrite get_months_and_years_spec in Hrun. cbn [fst] in Hrun.
  set (reply := MonthsFrame false (Some entries)) in *.
  assert (In (Text t0) (month_entries reply)) as Hin0
    by (apply month_entries_In; auto).
  assert (month_and_year (Text t0) = Some (standardize_month_name w0, y0)) as Hm0
    by (apply month_and_year_Some; eauto).
  assert (listing (months_set reply) <> []) as Hms.
  { rewrite (listing_nil _ _ Hlisting). intros He.
    assert (standardize_month_name w0 ∈ months_set reply) as Hx
      by (apply months_set_In; eauto).
    rewrite He in Hx. apply not_elem_of_empty in Hx. exact Hx. }
  assert (listing (years_set reply) <> []) as Hys.
  { rewrite (listing_nil _ _ Hlisting). intros He.
    assert (y0 ∈ years_set reply) as Hx by (apply years_set_In; eauto).
    rewrite He in Hx. apply not_elem_of_empty in Hx. exact Hx. }
  unfold months_list, years_list in Hrun. cbv zeta in Hrun.
  rewrite !match_nil_In in Hrun by (rewrite sorted_by_nil; assumption).
  injection Hrun as <- <-. split.
  - intros m. rewrite <- list_elem_of_In, sorted_by_perm, list_elem_of_In.
    rewrite (listing_In _ _ _ Hlisting), months_set_In. split.
    + intros (e & y & He & Hm). apply month_and_year_Some in Hm.
      destruct Hm as (t & w & -> & Hs & ->). apply month_entries_In in He.
      exists t, w, y. tauto.
    + intros (t & w & y & He & Hs & ->). exists (Text t), y.
      split; [apply month_entries_In; auto | apply month_and_year_Some; eauto].
  - intros y. rewrite <- list_elem_of_In, sorted_by_perm, list_elem_of_In.
    rewrite (listing_In _ _ _ Hlisting), years_set_In. split.
    + intros (e & m & He & Hm). apply month_and_year_Some in Hm.
      destruct Hm as (t & w & -> & Hs & ->). apply month_entries_In in He.
      exists t, w. tauto.
    + intros (t & w & He & Hs). exists (Text t), (standardize_month_name w).
      split; [apply month_entries_In; auto | apply month_and_year_Some; eauto].
Qed.

Lemma offered_periods_come_from_the_entries_witness :
  (forall X : gset string, elements X ≡ₚ elements X)
  /\ fst (get_months_and_years latest_months 2026 elements
            {| heap := []; warnings := [] |})
     = Return (["February"; "March"; "December"], ["2024"; "2025"])
  /\ In (Text "Mar 2025")
        [ Text "Mar 2025"; Text "Feb 2025"; Text "December 2024"; Text "Mar 2025";
          Text "March 2025"; Text "2025"; NotText "nan" "float" ]
  /\ split "Mar 2025" = ["Mar"; "2025"]
  /\ (forall m, In m ["February"; "March"; "December"] <->
                exists t w y,
                  In (Text t) [ Text "Mar 2025"; Text "Feb 2025"; Text "December 2024";
                                Text "Mar 2025"; Text "March 2025"; Text "2025";
                                NotText "nan" "float" ]
                  /\ split t = [w; y] /\ m = standardize_month_name w)
  /\ (forall y, In y ["2024"; "2025"] <->
                exists t w,
                  In (Text t) [ Text "Mar 2025"; Text "Feb 2025"; Text "December 2024";
                                Text "Mar 2025"; Text "March 2025"; Text "2025";
                                NotText "nan" "float" ]
                  /\ split t = [w; y]).
Proof.
  assert (forall X : gset string, elements X ≡ₚ elements X) as Hl by reflexivity.
  assert (fst (get_months_and_years latest_months 2026 elements
                 {| heap := []; warnings := [] |})
          = Return (["February"; "March"; "December"], ["2024"; "2025"])) as Hrun
    by (vm_compute; reflexivity).
  assert (In (Text "Mar 2025")
            [ Text "Mar 2025"; Text "Feb 2025"; Text "December 2024"; Text "Mar 2025";
              Text "March 2025"; Text "2025"; NotText "nan" "float" ]) as Hin
    by (left; reflexivity).
  assert (split "Mar 2025" = ["Mar"; "2025"]) as Hs by reflexivity.
  split; [exact Hl |]. split; [exact Hrun |]. split; [exact Hin |]. split; [exact Hs |].
  exact (offered_periods_come_from_the_entries _ 2026 elements _ _ _
           "Mar 2025" "Mar" "2025" Hl Hrun Hin Hs).
Defined.

Lemma sorted_months (l : list string) :
  StronglySorted (fun a b => (get_month_number a <= get_month_number b)%nat)
                 (sorted_by month_le l).
Proof.
  pose proof (sorted_by_sorted month_le l month_le_total month_le_trans) as Hs.
  induction Hs as [| x l' Hl IH Hx]; constructor; [exact IH |].
  eapply List.Forall_impl; [| exact Hx]. cbn. intros b H. apply Nat.leb_le. exact H.
Qed.

Lemma sorted_years (l : list string) :
  List.NoDup l ->
  StronglySorted (fun a b => String.ltb a b = true) (sorted_by String.leb l).
Proof.
  intros Hnd.
  apply (strongly_sorted_impl (fun a b => String.leb a b = true)).
  - intros a b _ _ Hne. unfold String.leb, String.ltb.
    destruct (String.compare a b) eqn:Hc; try congruence.
    apply String.compare_eq_iff in Hc. contradiction.
  - apply NoDup_ListNoDup. rewrite sorted_by_perm. apply NoDup_ListNoDup. exact Hnd.
  - apply sorted_by_sorted; [apply String.leb_total | apply string_leb_trans].
Qed.

(** X16. The months are offered in calendar order, by month number and
    without regard to the year, and none twice; the years, unless they are
    the three default ones, in strictly ascending order as strings. *)
Theorem offered_lists_are_in_order (reply_empty : bool) (month : option (list entry))
    (current_year : Z) (listing : gset string -> list string) (s : state)
    (months years : list string)
    (Hlisting : forall X, listing X ≡ₚ elements X)
    (Hrun : fst (get_months_and_years (MonthsFrame reply_empty month) current_year
                   listing s)
            = Return (months, years)) :
  StronglySorted (fun a b => (get_month_number a <= get_month_number b)%nat) months
  /\ NoDup months
  /\ (years = [ str_of_int (current_year - 2); str_of_int (current_year - 1);
                str_of_int current_year ]
      \/ StronglySorted (fun a b => String.ltb a b = true) years).
Proof.
  rewrite get_months_and_years_spec in Hrun. cbn [fst] in Hrun.
  injection Hrun as <- <-. unfold months_list, years_list. cbv zeta.
  set (reply := MonthsFrame reply_empty month).
  split; [| split].
  - destruct (sorted_by month_le (listing (months_set reply))) eqn:Hs.
    + repeat (constructor; [| repeat (constructor; [cbn; lia |]); constructor]). constructor.
    + rewrite <- Hs. apply sorted_months.
  - destruct (sorted_by month_le (listing (months_set reply))) eqn:Hs.
    + apply NoDup_ListNoDup. unfold DEFAULT_MONTHS.
      repeat (constructor; [cbn; intuition discriminate |]). constructor.
    + rewrite <- Hs, sorted_by_perm. apply NoDup_ListNoDup, listing_NoDup, Hlisting.
  - destruct (sorted_by String.leb (listing (years_set reply))) eqn:Hs; [left; reflexivity |].
    right. rewrite <- Hs. apply sorted_years, listing_NoDup, Hlisting.
Qed.

Lemma offered_lists_are_in_order_witness :
  (forall X : gset string, elements X ≡ₚ elements X)
  /\ fst (get_months_and_years latest_months 2026 elements
            {| heap := []; warnings := [] |})
     = Return (["February"; "March"; "December"], ["2024"; "2025"])
  /\ StronglySorted (fun a b => (get_month_number a <= get_month_number b)%nat)
                    ["February"; "March"; "December"]
  /\ NoDup ["February"; "March"; "December"]
  /\ (["2024"; "2025"] = [ str_of_int (2026 - 2); str_of_int (2026 - 1); str_of_int 2026 ]
      \/ StronglySorted (fun a b => String.ltb a b = true) ["2024"; "2025"]).
Proof.
  assert (forall X : gset string, elements X ≡ₚ elements X) as Hl by reflexivity.
  assert (fst (get_months_and_years latest_months 2026 elements
                 {| heap := []; warnings := [] |})
          = Return (["February"; "March"; "December"], ["2024"; "2025"])) as Hrun
    by (vm_compute; reflexivity).
  split; [exact Hl |]. split; [exact Hrun |].
  exact (offered_lists_are_in_order false _ 2026 elements _ _ _ Hl Hrun).
Defined.

(** X17. Every month offered for selection is a string that is not empty,
    is left as it is by [standardize_month_name], and has a month number
    from 1 to 12, so that the abbreviation the query is formatted with has
    three letters; the number 0 of the empty string is never met by a month
    the lists offer. *)
Theorem offered_months_have_a_number (reply_empty : bool) (month : option (list entry))
    (current_year : Z) (listing : gset string -> list string) (s : state)
    (months years : list string) (m : string)
    (Hlisting : forall X, listing X ≡ₚ elements X)
    (Hrun : fst (get_months_and_years (MonthsFrame reply_empty month) current_year
                   listing s)
            = Return (months, years))
    (Hin : In m months) :
  m <> "" /\ standardize_month_name m = m /\ (1 <= get_month_number m <= 12)%nat
  /\ String.length (month_to_abbreviation m) = 3%nat.
Proof.
  rewrite get_months_and_years_spec in Hrun. cbn [fst] in Hrun.
  injection Hrun as <- <-.
  assert (m <> "" /\ standardize_month_name m = m /\ (1 <= get_month_number m <= 12)%nat)
    as (Hne & Hstd & Hnum).
  { destruct (months_list_In _ _ _ Hlisting Hin) as [Hd | Hs];
      [apply DEFAULT_MONTHS_facts; exact Hd |].
    apply months_set_In in Hs. destruct Hs as (e & y & _ & Hm).
    apply month_and_year_Some in Hm. destruct Hm as (t & w & _ & Hsplit & ->).
    assert (w <> "") as Hw.
    { apply (split_from_In t 0 [] w). fold (split t). rewrite Hsplit. left. reflexivity. }
    pose proof (standardize_month_name_nonempty w Hw) as Hne.
    split; [exact Hne |]. split.
    - apply standardize_month_name_number.
    - apply canonical_month_agrees. exact Hne. }
  repeat split; try assumption; try lia.
  unfold month_to_abbreviation.
  destruct (get_month_number m) as [| n]; [lia |].
  do 12 (destruct n as [| n]; [reflexivity |]). lia.
Qed.

Lemma offered_months_have_a_number_witness :
  (forall X : gset string, elements X ≡ₚ elements X)
  /\ fst (get_months_and_years latest_months 2026 elements
            {| heap := []; warnings := [] |})
     = Return (["February"; "March"; "December"], ["2024"; "2025"])
  /\ In "December" ["February"; "March"; "December"]
  /\ "December" <> "" /\ standardize_month_name "December" = "December"
  /\ (1 <= get_month_number "December" <= 12)%nat
  /\ String.length (month_to_abbreviation "December") = 3%nat.
Proof.
  assert (forall X : gset string, elements X ≡ₚ elements X) as Hl by reflexivity.
  assert (fst (get_months_and_years latest_months 2026 elements
                 {| heap := []; warnings := [] |})
          = Return (["February"; "March"; "December"], ["2024"; "2025"])) as Hrun
    by (vm_compute; reflexivity).
  assert (In "December" ["February"; "March"; "December"]) as Hin by (cbn; auto).
  split; [exact Hl |]. split; [exact Hrun |]. split; [exact Hin |].
  exact (offered_months_have_a_number false _ 2026 elements _ _ _ _ Hl Hrun Hin).
Defined.

Lemma sorted_by_fmap_key (l1 l2 : list string) :
  l1 ≡ₚ l2 ->
  get_month_number <$> sorted_by month_le l1 = get_month_number <$> sorted_by month_le l2.
Proof.
  intros Hp.
  apply (StronglySorted_unique le).
  - apply (StronglySorted_fmap get_month_number
             (fun a b => (get_month_number a <= get_month_number b)%nat) le);
      [auto | apply sorted_months].
  - apply (StronglySorted_fmap get_month_number
             (fun a b => (get_month_number a <= get_month_number b)%nat) le);
      [auto | apply sorted_months].
  - apply fmap_Permutation. rewrite !sorted_by_perm. exact Hp.
Qed.

(** X18. The order in which the interpreter iterates over a set shows in
    the result only as the order of month names that have the same month
    number: for two iteration orders the years are the same list, the
    warnings are the same, and the months are the same names with the same
    sequence of month numbers; they are the same list when no two of the
    names share a number. *)
Theorem set_order_matters_only_among_equal_months (reply_empty : bool)
    (month : option (list entry)) (current_year : Z)
    (listing1 listing2 : gset string -> list string) (s : state)
    (Hlisting1 : forall X, listing1 X ≡ₚ elements X)
    (Hlisting2 : forall X, listing2 X ≡ₚ elements X) :
  exists months1 months2 years s',
    get_months_and_years (MonthsFrame reply_empty month) current_year listing1 s
    = (Return (months1, years), s')
    /\ get_months_and_years (MonthsFrame reply_empty month) current_year listing2 s
       = (Return (months2, years), s')
    /\ months1 ≡ₚ months2
    /\ get_month_number <$> months1 = get_month_number <$> months2
    /\ ((forall a b, In a months1 -> In b months1 ->
                     get_month_number a = get_month_number b -> a = b) ->
        months1 = months2).
Proof.
  set (reply := MonthsFrame reply_empty month).
  assert (forall X, listing1 X ≡ₚ listing2 X) as Hp
    by (intros X; rewrite Hlisting1, Hlisting2; reflexivity).
  assert (years_list reply current_year listing1 = years_list reply current_year listing2)
    as Hyears.
  { unfold years_list. cbv zeta.
    assert (sorted_by String.leb (listing1 (years_set reply))
            = sorted_by String.leb (listing2 (years_set reply))) as ->; [| reflexivity].
    apply (StronglySorted_unique_strong (fun a b => String.leb a b = true)).
    - intros a b _ _. apply String.leb_antisym.
    - apply sorted_by_sorted; [apply String.leb_total | apply string_leb_trans].
    - apply sorted_by_sorted; [apply String.leb_total | apply string_leb_trans].
    - rewrite !sorted_by_perm. apply Hp. }
  assert (months_list reply listing1 ≡ₚ months_list reply listing2) as Hperm.
  { unfold months_list. cbv zeta.
    pose proof (sorted_by_nil month_le (listing1 (months_set reply))) as H1.
    pose proof (sorted_by_nil month_le (listing2 (months_set reply))) as H2.
    pose proof (listing_nil _ (months_set reply) Hlisting1) as H3.
    pose proof (listing_nil _ (months_set reply) Hlisting2) as H4.
    destruct (sorted_by month_le (listing1 (months_set reply))) as [| a l1] eqn:E1;
      destruct (sorted_by month_le (listing2 (months_set reply))) as [| b l2] eqn:E2.
    - reflexivity.
    - exfalso. assert (b :: l2 = []) as Hb by (apply H2, H4, H3, H1; reflexivity).
      discriminate.
    - exfalso. assert (a :: l1 = []) as Ha by (apply H1, H3, H4, H2; reflexivity).
      discriminate.
    - rewrite <- E1, <- E2, !sorted_by_perm. apply Hp. }
  assert (get_month_number <$> months_list reply listing1
          = get_month_number <$> months_list reply listing2) as Hnum.
  { unfold months_list. cbv zeta.
    pose proof (sorted_by_fmap_key _ _ (Hp (months_set reply))) as Hk.
    destruct (sorted_by month_le (listing1 (months_set reply))) as [| a l1];
      destruct (sorted_by month_le (listing2 (months_set reply))) as [| b l2];
      try discriminate; [reflexivity | exact Hk]. }
  exists (months_list reply listing1), (months_list reply listing2),
         (years_list reply current_year listing1),
         {| heap := heap s;
            warnings := (warnings s ++ omap split_warning (month_entries reply))%list |}.
  split; [apply get_months_and_years_spec |].
  split; [rewrite Hyears; apply get_months_and_years_spec |].
  split; [exact Hperm |]. split; [exact Hnum |].
  intros Hinj.
  apply (StronglySorted_unique_strong
           (fun a b => (get_month_number a <= get_month_number b)%nat)).
  - intros a b Ha Hb Hab Hba. apply Hinj; [apply list_elem_of_In; exact Ha | | lia].
    apply list_elem_of_In. rewrite Hperm. exact Hb.
  - unfold months_list. cbv zeta.
    destruct (sorted_by month_le (listing1 (months_set reply))) eqn:E.
    + repeat (constructor; [| repeat (constructor; [cbn; lia |]); constructor]). constructor.
    + rewrite <- E. apply sorted_months.
  - unfold months_list. cbv zeta.
    destruct (sorted_by month_le (listing2 (months_set reply))) eqn:E.
    + repeat (constructor; [| repeat (constructor; [cbn; lia |]); constructor]). constructor.
    + rewrite <- E. apply sorted_months.
  - exact Hperm.
Qed.

Lemma set_order_matters_only_among_equal_months_witness :
  (forall X : gset string, elements X ≡ₚ elements X)
  /\ (forall X : gset string, rev (elements X) ≡ₚ elements X)
  /\ exists months1 months2 years s',
       get_months_and_years latest_months 2026 elements {| heap := []; warnings := [] |}
       = (Return (months1, years), s')
       /\ get_months_and_years latest_months 2026 (fun X => rev (elements X))
            {| heap := []; warnings := [] |}
          = (Return (months2, years), s')
       /\ months1 ≡ₚ months2
       /\ get_month_number <$> months1 = get_month_number <$> months2
       /\ ((forall a b, In a months1 -> In b months1 ->
                        get_month_number a = get_month_number b -> a = b) ->
           months1 = months2).
Proof.
  assert (forall X : gset string, elements X ≡ₚ elements X) as Hl1 by reflexivity.
  assert (forall X : gset string, rev (elements X) ≡ₚ elements X) as Hl2
    by (intros X; symmetry; apply Permutation_rev).
  split; [exact Hl1 |]. split; [exact Hl2 |].
  exact (set_order_matters_only_among_equal_months false _ 2026 elements
           (fun X => rev (elements X)) {| heap := []; warnings := [] |} Hl1 Hl2).
Defined.
